(** * The privacy-analysis pipeline of the catch-clause extension

    A shallow embedding of the analysis code of the extension:
    - [src/ai/prompt-templates.js]: templates, [formatPrompt],
      [validateResponse], [generateFallbackResponse];
    - the AI client ([analyzePrivacyPolicy] and its four steps,
      [combineAnalysisResults], [calculateConfidence],
      [generateFallbackAnalysis]);
    - the service worker's inline heuristic [analyzePrivacyPolicy];
    - the cookie extractor ([categorizeCookies], third-party tests);
    - the link rankers ([getPrivacyRelevanceScore] and the content script's
      priority).

    JavaScript values are a small universe of JSON-like data.  Numbers are
    integers (cookie counts and risk scores) plus NaN; the confidence of a
    report is a rational.  A [throw] is the [Throw] branch of [Result]. *)

From Stdlib Require Import String Ascii List ZArith QArith Qminmax Bool Lia.
From Stdlib Require Import DecimalString.
Import ListNotations.
#[local] Set Warnings "-register-all".
Local Open Scope string_scope.
Local Open Scope Z_scope.

(** ** Exceptions *)

Inductive Result (A : Type) : Type :=
| Ok (a : A)
| Throw (e : string).
Arguments Ok {A} a.
Arguments Throw {A} e.

Definition bind {A B : Type} (m : Result A) (k : A -> Result B) : Result B :=
  match m with
  | Ok a => k a
  | Throw e => Throw e
  end.

Notation "x <- m ;; k" := (bind m (fun x => k))
  (at level 61, m at next level, right associativity).

(** ** JavaScript values *)

Inductive JsValue : Type :=
| JUndefined
| JNull
| JBool (b : bool)
| JNum (n : Z)
| JNaN
| JStr (s : string)
| JArr (items : list JsValue)
| JObj (fields : list (string * JsValue)).

(** ToBoolean. *)
Definition js_truthy (v : JsValue) : bool :=
  match v with
  | JUndefined | JNull | JNaN => false
  | JBool b => b
  | JNum n => negb (n =? 0)
  | JStr s => negb (s =? "")%string
  | JArr _ | JObj _ => true
  end.

Definition js_typeof (v : JsValue) : string :=
  match v with
  | JUndefined => "undefined"
  | JNull => "object"
  | JBool _ => "boolean"
  | JNum _ | JNaN => "number"
  | JStr _ => "string"
  | JArr _ | JObj _ => "object"
  end.

Definition Array_isArray (v : JsValue) : bool :=
  match v with JArr _ => true | _ => false end.

Definition js_nullish (v : JsValue) : bool :=
  match v with JUndefined | JNull => true | _ => false end.

Fixpoint lookup {A : Type} (k : string) (l : list (string * A)) : option A :=
  match l with
  | [] => None
  | (k', a) :: l' => if (k =? k')%string then Some a else lookup k l'
  end.

(** [own v k] reads the property [k] of a value that is not null or
    undefined.  The keys read in this development are field names and
    [length]; none of them is a prototype property of a primitive. *)
Definition own (v : JsValue) (k : string) : JsValue :=
  match v with
  | JObj fields =>
      match lookup k fields with Some x => x | None => JUndefined end
  | JArr items =>
      if (k =? "length")%string then JNum (Z.of_nat (List.length items))
      else JUndefined
  | JStr s =>
      if (k =? "length")%string then JNum (Z.of_nat (String.length s))
      else JUndefined
  | _ => JUndefined
  end.

(** [v.k]: a TypeError on null and undefined. *)
Definition js_get (v : JsValue) (k : string) : Result JsValue :=
  if js_nullish v then Throw "TypeError: cannot read properties"
  else Ok (own v k).

(** [v?.k]. *)
Definition js_optget (v : JsValue) (k : string) : JsValue :=
  if js_nullish v then JUndefined else own v k.

(** [a || b]. *)
Definition js_or (a b : JsValue) : JsValue := if js_truthy a then a else b.

(** [v === 'literal']. *)
Definition js_is_string (v : JsValue) (lit : string) : bool :=
  match v with JStr s => (s =? lit)%string | _ => false end.

(** [[...literals].includes(v)]. *)
Definition includes_literal (literals : list string) (v : JsValue) : bool :=
  existsb (js_is_string v) literals.

(** ToNumber, [None] standing for NaN.  It is exact on undefined, null,
    booleans and numbers.  Strings, arrays and objects are not numbers of
    this pipeline (its numeric fields are checked with [typeof] or computed)
    and are read as NaN. *)
Definition ToNumber (v : JsValue) : option Z :=
  match v with
  | JNum n => Some n
  | JNull => Some 0
  | JBool b => Some (if b then 1 else 0)
  | _ => None
  end.

(** [v > n] for a number literal [n]. *)
Definition js_gt (v : JsValue) (n : Z) : bool :=
  match ToNumber v with Some x => n <? x | None => false end.

(** Numeric [a + b] (both operands numbers, or coerced as [ToNumber] says). *)
Definition js_add (a b : JsValue) : JsValue :=
  match ToNumber a, ToNumber b with
  | Some x, Some y => JNum (x + y)
  | _, _ => JNaN
  end.

(** [x || 0] on a field that holds a number or is undefined. *)
Definition or_zero (x : option Z) : Z :=
  match x with
  | Some n => if n =? 0 then 0 else n
  | None => 0
  end.

(** Template-literal rendering of an integer. *)
Definition string_of_Z (n : Z) : string := NilZero.string_of_int (Z.to_int n).

Fixpoint map_result {A B : Type} (f : A -> Result B) (l : list A)
  : Result (list B) :=
  match l with
  | [] => Ok []
  | a :: l' => b <- f a ;; bs <- map_result f l' ;; Ok (b :: bs)
  end.

(** [s.includes(t)] on strings. *)
Fixpoint includes (s t : string) : bool :=
  if prefix t s then true
  else match s with
       | EmptyString => false
       | String _ s' => includes s' t
       end.

(** * src/ai/prompt-templates.js *)

Module PromptTemplates.

Record PromptTemplate : Type := mkTemplate {
  name : string;
  template : string;
  maxTokens : Z
}.

Definition VERDICT_SAFE_max : Z := 30.
Definition VERDICT_CAUTION_min : Z := 31.
Definition VERDICT_CAUTION_max : Z := 70.
Definition VERDICT_UNSAFE_min : Z := 71.

(** The data a fallback reads.  [cookieData] is the scraper's cookie
    object (its two counts are numbers, or missing); [cookies] and
    [deletion] are step results. *)
Record CookieData : Type := mkCookieData {
  cookieCount : option Z;
  thirdPartyCookies : option Z
}.

Record InputData : Type := mkInputData {
  policyText : option string;
  cookieData : option CookieData;
  cookies : JsValue;
  deletion : JsValue
}.

(** Reading a property of [inputData] itself: a TypeError when the
    argument is null or undefined. *)
Definition deref (inputData : option InputData) : Result InputData :=
  match inputData with
  | Some d => Ok d
  | None => Throw "TypeError: cannot read properties"
  end.

Definition generateFallbackResponse
    (templateName : string) (inputData : option InputData) : Result JsValue :=
  if (templateName =? "SUMMARIZER")%string then
    Ok (JObj
      [("summary", JStr "Unable to analyze privacy policy automatically. Manual review recommended.");
       ("categories", JArr [JStr "unknown"]);
       ("retention_clauses", JArr [JStr "not specified"])])
  else if (templateName =? "COOKIE_ANALYZER")%string then
    d <- deref inputData ;;
    let cookieCount := or_zero (match cookieData d with
                                | Some c => cookieCount c | None => None end) in
    let thirdParty := or_zero (match cookieData d with
                               | Some c => thirdPartyCookies c | None => None end) in
    Ok (JObj
      [("first_party", JNum (cookieCount - thirdParty));
       ("third_party", JNum thirdParty);
       ("tracking", JStr (if 0 <? thirdParty then "likely" else "unknown"));
       ("categories", JObj [])])
  else if (templateName =? "DELETION_ANALYZER")%string then
    Ok (JObj
      [("can_delete", JStr "unknown");
       ("instructions", JStr "Contact site support for data deletion requests");
       ("links", JArr []);
       ("contacts", JArr [])])
  else if (templateName =? "RISK_SCORER")%string then
    d <- deref inputData ;;
    let riskScore := 50 in
    let riskScore :=
      if js_gt (js_optget (cookies d) "third_party") 5
      then riskScore + 20 else riskScore in
    let riskScore :=
      if js_is_string (js_optget (deletion d) "can_delete") "no"
      then riskScore + 15 else riskScore in
    let verdict :=
      if riskScore <? 30 then "SAFE"
      else if riskScore <? 70 then "CAUTION" else "UNSAFE" in
    Ok (JObj
      [("risk_score", JNum (Z.min riskScore 100));
       ("verdict", JStr verdict);
       ("reasons", JArr [JStr "AI analysis unavailable"; JStr "Manual review recommended"]);
       ("actions", JArr [JStr "Review privacy policy manually";
                         JStr "Contact site for data practices"])])
  else
    Ok (JObj [("error", JStr "Unknown template for fallback")]).

(** The [switch] of [validateResponse] on the parsed response. *)
Definition validateParsed (templateName : string) (parsed : JsValue)
  : Result JsValue :=
  if (templateName =? "SUMMARIZER")%string then
    summary <- js_get parsed "summary" ;;
    if js_truthy summary then
      categories <- js_get parsed "categories" ;;
      Ok (JBool (Array_isArray categories))
    else Ok summary
  else if (templateName =? "COOKIE_ANALYZER")%string then
    first_party <- js_get parsed "first_party" ;;
    if (js_typeof first_party =? "number")%string then
      third_party <- js_get parsed "third_party" ;;
      Ok (JBool (js_typeof third_party =? "number")%string)
    else Ok (JBool false)
  else if (templateName =? "DELETION_ANALYZER")%string then
    can_delete <- js_get parsed "can_delete" ;;
    Ok (JBool (includes_literal ["yes"; "no"; "partial"; "unknown"] can_delete))
  else if (templateName =? "RISK_SCORER")%string then
    risk_score <- js_get parsed "risk_score" ;;
    if (js_typeof risk_score =? "number")%string then
      verdict <- js_get parsed "verdict" ;;
      if includes_literal ["SAFE"; "CAUTION"; "UNSAFE"] verdict then
        reasons <- js_get parsed "reasons" ;;
        Ok (JBool (Array_isArray reasons))
      else Ok (JBool false)
    else Ok (JBool false)
  else Ok (JBool true).

Section Runtime.

(** [JSON.parse]: [None] when it throws a SyntaxError. *)
Variable JSON_parse : string -> option JsValue.

(** The literal text of each template, by key. *)
Variable TEMPLATE_TEXT : string -> string.

(** The replacement loop of [formatPrompt]: every placeholder of the
    text replaced by the variable's rendering ([JSON.stringify] of an
    object, [String] of anything else). *)
Variable substitute : string -> list (string * JsValue) -> string.

Definition PROMPT_TEMPLATES : list (string * PromptTemplate) :=
  [("SUMMARIZER",
    mkTemplate "privacy_summarizer" (TEMPLATE_TEXT "SUMMARIZER") 500);
   ("COOKIE_ANALYZER",
    mkTemplate "cookie_analyzer" (TEMPLATE_TEXT "COOKIE_ANALYZER") 400);
   ("DELETION_ANALYZER",
    mkTemplate "deletion_analyzer" (TEMPLATE_TEXT "DELETION_ANALYZER") 300);
   ("RISK_SCORER",
    mkTemplate "risk_scorer" (TEMPLATE_TEXT "RISK_SCORER") 400)].

Record FormattedPrompt : Type := mkFormatted {
  prompt : string;
  fp_maxTokens : Z;
  fp_name : string
}.

Definition formatPrompt (templateName : string)
    (variables : list (string * JsValue)) : Result FormattedPrompt :=
  match lookup templateName PROMPT_TEMPLATES with
  | None => Throw ("Unknown prompt template: " ++ templateName)
  | Some t =>
      let formattedPrompt := substitute (template t) variables in
      Ok (mkFormatted formattedPrompt
            (if maxTokens t =? 0 then 500 else maxTokens t)
            (name t))
  end.

(** [validateResponse]: the value it returns ([false] from the
    [catch]); the response is valid when that value is truthy. *)
Definition validateResponse (templateName response : string) : JsValue :=
  match JSON_parse response with
  | None => JBool false
  | Some parsed =>
      match validateParsed templateName parsed with
      | Ok v => v
      | Throw _ => JBool false
      end
  end.

End Runtime.

End PromptTemplates.

(** * The analysis request and the report *)

(** [analysisData], as the content script sends it. *)
Module AD.
Record BannerData : Type := mkBanner {
  hasBanner : bool;
  hasRejectButton : bool
}.

Record CookieInfo : Type := mkCookieInfo {
  cookieCount : option Z;
  thirdPartyCookies : option Z;
  thirdPartyDomains : option (list string)
}.

Record AnalysisData : Type := mkAnalysisData {
  domain : JsValue;
  url : JsValue;
  privacyPolicyText : option string;
  privacyPolicyLinks : option (list string);
  cookies : option CookieInfo;
  cookieBannerData : option BannerData
}.
End AD.

Module Report.
Record Report : Type := mkReport {
  domain : JsValue;
  url : JsValue;
  summary : JsValue;
  data_use : JsValue;
  deletion : JsValue;
  cookies : JsValue;
  risk_score : JsValue;
  verdict : JsValue;
  reasons : JsValue;
  actions : JsValue;
  confidence : Q;
  timestamp : Z
}.
End Report.

(** [!text || text.length < 100] on the policy text. *)
Definition text_missing (text : option string) : bool :=
  match text with
  | None => true
  | Some s => (s =? "")%string
  end.

Definition text_short (text : option string) : bool :=
  match text with
  | None => true
  | Some s => (s =? "")%string || (Z.of_nat (String.length s) <? 100)
  end.

Definition text_value (text : option string) : JsValue :=
  match text with Some s => JStr s | None => JUndefined end.

(** * The AI client *)

Module AIClient.

Module PT := PromptTemplates.

(** The argument of [runRiskAssessment]. *)
Record RiskInput : Type := mkRiskInput {
  ri_summarizer : JsValue;
  ri_cookies : JsValue;
  ri_deletion : JsValue;
  ri_domain : JsValue;
  ri_url : JsValue
}.

(** The argument of [combineAnalysisResults]. *)
Record Combined : Type := mkCombined {
  domain : JsValue;
  url : JsValue;
  summarizer : JsValue;
  cookies : JsValue;
  deletion : JsValue;
  risk : JsValue;
  timestamp : Z
}.

Record AIOptions : Type := mkOptions {
  temperature : Q;
  maxTokens : Z
}.

Definition cookieData_value (c : option AD.CookieInfo) : JsValue :=
  match c with
  | None => JUndefined
  | Some i =>
      let num x := match x with Some n => JNum n | None => JUndefined end in
      JObj [("cookieCount", num (AD.cookieCount i));
            ("thirdPartyCookies", num (AD.thirdPartyCookies i))]
  end.

Definition fallback_cookieData (c : option AD.CookieInfo)
  : option PT.CookieData :=
  match c with
  | None => None
  | Some i => Some (PT.mkCookieData (AD.cookieCount i) (AD.thirdPartyCookies i))
  end.

(** [Object.entries]: the fields of an object in enumeration order, the
    indexed elements of an array or of a string, nothing for a number
    or a boolean. *)
Fixpoint indexed {A : Type} (i : nat) (l : list A) : list (string * A) :=
  match l with
  | [] => []
  | a :: l' => (string_of_Z (Z.of_nat i), a) :: indexed (S i) l'
  end.

Fixpoint chars (s : string) : list JsValue :=
  match s with
  | EmptyString => []
  | String c s' => JStr (String c EmptyString) :: chars s'
  end.

Definition Object_entries (v : JsValue) : list (string * JsValue) :=
  match v with
  | JObj fields => fields
  | JArr items => indexed 0 items
  | JStr s => indexed 0 (chars s)
  | _ => []
  end.

(** [v?.[0]]. *)
Definition js_optfirst (v : JsValue) : JsValue :=
  match v with
  | JArr (x :: _) => x
  | JStr (String c _) => JStr (String c EmptyString)
  | JObj fields =>
      match lookup "0" fields with Some x => x | None => JUndefined end
  | _ => JUndefined
  end.

(** One element of the cookie summary:
    [{ category, count: cookies.length, examples: cookies.slice(0, 3).map(...) }].
    Only an array has [slice] and a result of it with [map]. *)
Definition summary_entry (e : string * JsValue) : Result JsValue :=
  let (category, cookies) := e in
  count <- js_get cookies "length" ;;
  match cookies with
  | JArr items =>
      examples <- map_result
        (fun c => n <- js_get c "name" ;; d <- js_get c "domain" ;;
                  Ok (JObj [("name", n); ("domain", d)]))
        (firstn 3 items) ;;
      Ok (JObj [("category", JStr category); ("count", count);
                ("examples", JArr examples)])
  | _ => Throw "TypeError: cookies.slice(...).map is not a function"
  end.

Definition extractDataUseFromSummary (summarizerResult : JsValue)
  : Result JsValue :=
  categories <- js_get summarizerResult "categories" ;;
  match categories with
  | JArr items =>
      Ok (JArr (map (fun category =>
        JObj [("type", category);
              ("purpose", JStr "not specified");
              ("retention",
               js_or (js_optfirst (own summarizerResult "retention_clauses"))
                     (JStr "not specified"));
              ("shared_with", JArr [])]) items))
  | _ => Throw "TypeError: categories.map is not a function"
  end.

Section Environment.

(** The runtime and the Chrome AI interfaces. *)
Variable JSON_parse : string -> option JsValue.
Variable TEMPLATE_TEXT : string -> string.
Variable substitute : string -> list (string * JsValue) -> string.
Variable callAISummarizer : string -> Result string.
Variable callAIPrompt : string -> AIOptions -> Result string.
Variable Date_now : Z.

Let formatPrompt := PT.formatPrompt TEMPLATE_TEXT substitute.
Let validateResponse := PT.validateResponse JSON_parse.

(** [if (validateResponse(t, response)) return JSON.parse(response);
    else throw ...], inside the [try] whose [catch] returns the
    fallback. *)
Definition parsed_or_fallback (templateName : string)
    (response : Result string) (fallback : Result JsValue)
  : Result JsValue :=
  match response with
  | Throw _ => fallback
  | Ok text =>
      if js_truthy (validateResponse templateName text) then
        match JSON_parse text with
        | Some parsed => Ok parsed
        | None => fallback
        end
      else fallback
  end.

Definition runSummarizer (policyText : option string) : Result JsValue :=
  let inputData := Some (PT.mkInputData policyText None JUndefined JUndefined) in
  if text_short policyText then
    PT.generateFallbackResponse "SUMMARIZER" inputData
  else
    _ <- formatPrompt "SUMMARIZER" [("policyText", text_value policyText)] ;;
    parsed_or_fallback "SUMMARIZER"
      (callAISummarizer (match policyText with Some s => s | None => "" end))
      (PT.generateFallbackResponse "SUMMARIZER" inputData).

Definition runCookieAnalysis (cookieData : option AD.CookieInfo)
  : Result JsValue :=
  let inputData :=
    Some (PT.mkInputData None (fallback_cookieData cookieData)
                         JUndefined JUndefined) in
  p <- formatPrompt "COOKIE_ANALYZER"
         [("cookieData", cookieData_value cookieData)] ;;
  parsed_or_fallback "COOKIE_ANALYZER"
    (callAIPrompt (PT.prompt p) (mkOptions 0.1 400))
    (PT.generateFallbackResponse "COOKIE_ANALYZER" inputData).

Definition runDeletionAnalysis (policyText : option string)
  : Result JsValue :=
  let inputData := Some (PT.mkInputData policyText None JUndefined JUndefined) in
  p <- formatPrompt "DELETION_ANALYZER"
         [("policyText", text_value policyText)] ;;
  parsed_or_fallback "DELETION_ANALYZER"
    (callAIPrompt (PT.prompt p) (mkOptions 0.1 300))
    (PT.generateFallbackResponse "DELETION_ANALYZER" inputData).

Definition runRiskAssessment (combinedData : RiskInput) : Result JsValue :=
  let inputData :=
    Some (PT.mkInputData None None (ri_cookies combinedData)
                         (ri_deletion combinedData)) in
  p <- formatPrompt "RISK_SCORER"
         [("summarizerResult", ri_summarizer combinedData);
          ("cookieResult", ri_cookies combinedData);
          ("deletionResult", ri_deletion combinedData);
          ("domain", ri_domain combinedData);
          ("url", ri_url combinedData)] ;;
  parsed_or_fallback "RISK_SCORER"
    (callAIPrompt (PT.prompt p) (mkOptions 0.2 400))
    (PT.generateFallbackResponse "RISK_SCORER" inputData).

Definition calculateConfidence (data : Combined) : Result Q :=
  let confidence := 0.5%Q in
  summary <- js_get (summarizer data) "summary" ;;
  let confidence :=
    if js_truthy summary && js_gt (own summary "length") 50
    then (confidence + 0.2)%Q else confidence in
  first_party <- js_get (cookies data) "first_party" ;;
  third_party <- js_get (cookies data) "third_party" ;;
  let confidence :=
    if js_gt (js_add first_party third_party) 0
    then (confidence + 0.1)%Q else confidence in
  can_delete <- js_get (deletion data) "can_delete" ;;
  let confidence :=
    if negb (js_is_string can_delete "unknown")
    then (confidence + 0.1)%Q else confidence in
  reasons <- js_get (risk data) "reasons" ;;
  let confidence :=
    if js_truthy reasons && js_gt (own reasons "length") 1
    then (confidence + 0.1)%Q else confidence in
  Ok (Qmin confidence 1.0%Q).

Definition combineAnalysisResults (data : Combined) : Result Report.Report :=
  categories <- js_get (cookies data) "categories" ;;
  cookieSummary <-
    (if js_truthy categories
     then map_result summary_entry (Object_entries categories)
     else Ok []) ;;
  summary <- js_get (summarizer data) "summary" ;;
  data_use <- extractDataUseFromSummary (summarizer data) ;;
  can_delete <- js_get (deletion data) "can_delete" ;;
  let instructions := own (deletion data) "instructions" in
  let contacts := own (deletion data) "contacts" in
  let first_party := own (cookies data) "first_party" in
  let third_party := own (cookies data) "third_party" in
  let tracking := own (cookies data) "tracking" in
  risk_score <- js_get (risk data) "risk_score" ;;
  let verdict := own (risk data) "verdict" in
  let reasons := own (risk data) "reasons" in
  let actions := own (risk data) "actions" in
  confidence <- calculateConfidence data ;;
  Ok (Report.mkReport
        (domain data)
        (url data)
        summary
        data_use
        (JObj [("can_user_delete", can_delete);
               ("how", instructions);
               ("contacts_found", js_or contacts (JArr []))])
        (JObj [("cookie_count", js_add first_party third_party);
               ("third_party_cookies", third_party);
               ("tracking_cookies_detected",
                JBool (match tracking with JBool true => true | _ => false end
                       || js_is_string tracking "likely"));
               ("cookies_summary", JArr cookieSummary)])
        risk_score
        verdict
        reasons
        (js_or actions (JArr []))
        confidence
        (timestamp data)).

Definition generateFallbackAnalysis (analysisData : AD.AnalysisData)
  : Report.Report :=
  let cookieCount :=
    or_zero (match AD.cookies analysisData with
             | Some c => AD.cookieCount c | None => None end) in
  let thirdPartyCount :=
    or_zero (match AD.cookies analysisData with
             | Some c => AD.thirdPartyCookies c | None => None end) in
  let riskScore := 30 in
  let riskScore := if 5 <? thirdPartyCount then riskScore + 30 else riskScore in
  let riskScore := if 10 <? thirdPartyCount then riskScore + 20 else riskScore in
  let riskScore :=
    if text_missing (AD.privacyPolicyText analysisData)
    then riskScore + 20 else riskScore in
  let verdict :=
    if riskScore <? 40 then "SAFE"
    else if riskScore <? 70 then "CAUTION" else "UNSAFE" in
  Report.mkReport
    (AD.domain analysisData)
    (AD.url analysisData)
    (JStr "AI analysis unavailable. Manual privacy policy review recommended.")
    (JArr [JObj [("type", JStr "unknown"); ("purpose", JStr "unknown");
                 ("retention", JStr "unknown"); ("shared_with", JArr [])]])
    (JObj [("can_user_delete", JStr "unknown");
           ("how", JStr "Contact website support for data deletion requests");
           ("contacts_found", JArr [])])
    (JObj [("cookie_count", JNum cookieCount);
           ("third_party_cookies", JNum thirdPartyCount);
           ("tracking_cookies_detected", JBool (0 <? thirdPartyCount));
           ("cookies_summary", JArr [])])
    (JNum (Z.min riskScore 100))
    (JStr verdict)
    (JArr [JStr "AI analysis unavailable";
           JStr "High number of third-party cookies detected"])
    (JArr [JStr "Review privacy policy manually";
           JStr "Consider blocking third-party cookies"])
    0.3%Q
    Date_now.

(** The four steps in sequence, then the merge; anything thrown on the
    way is caught and answered with [generateFallbackAnalysis]. *)
Definition pipeline (analysisData : AD.AnalysisData) : Result Report.Report :=
  summarizerResult <- runSummarizer (AD.privacyPolicyText analysisData) ;;
  cookieResult <- runCookieAnalysis (AD.cookies analysisData) ;;
  deletionResult <- runDeletionAnalysis (AD.privacyPolicyText analysisData) ;;
  riskResult <- runRiskAssessment
    (mkRiskInput summarizerResult cookieResult deletionResult
                 (AD.domain analysisData) (AD.url analysisData)) ;;
  combineAnalysisResults
    (mkCombined (AD.domain analysisData) (AD.url analysisData)
                summarizerResult cookieResult deletionResult riskResult
                Date_now).

Definition analyzePrivacyPolicy (analysisData : AD.AnalysisData)
  : Report.Report :=
  match pipeline analysisData with
  | Ok finalResult => finalResult
  | Throw _ => generateFallbackAnalysis analysisData
  end.

End Environment.

End AIClient.

(** * The service worker's inline analysis *)

Module ServiceWorker.

Section Clock.

Variable Date_now : Z.

Definition analyzePrivacyPolicy (analysisData : AD.AnalysisData)
  : Report.Report :=
  let cookieCount :=
    or_zero (match AD.cookies analysisData with
             | Some c => AD.cookieCount c | None => None end) in
  let thirdPartyCount :=
    or_zero (match AD.cookies analysisData with
             | Some c => AD.thirdPartyCookies c | None => None end) in
  let thirdPartyDomains :=
    match AD.cookies analysisData with
    | Some c => match AD.thirdPartyDomains c with Some l => l | None => [] end
    | None => []
    end in
  let hasPrivacyPolicy :=
    match AD.privacyPolicyLinks analysisData with
    | Some links => 0 <? Z.of_nat (List.length links)
    | None => false
    end in
  let riskScore := 30 in
  let riskScore := if 5 <? thirdPartyCount then riskScore + 30 else riskScore in
  let riskScore := if 10 <? thirdPartyCount then riskScore + 20 else riskScore in
  let riskScore := if negb hasPrivacyPolicy then riskScore + 20 else riskScore in
  let riskScore :=
    if text_short (AD.privacyPolicyText analysisData)
    then riskScore + 15 else riskScore in
  let verdict :=
    if riskScore <? 40 then "SAFE"
    else if riskScore <? 70 then "CAUTION" else "UNSAFE" in
  let reasons : list JsValue := [] in
  let reasons :=
    if 5 <? thirdPartyCount
    then (reasons ++ [JStr "High number of tracking cookies"])%list else reasons in
  let reasons :=
    if negb hasPrivacyPolicy
    then (reasons ++ [JStr "No privacy policy found"])%list else reasons in
  let reasons :=
    match AD.cookieBannerData analysisData with
    | Some b =>
        if AD.hasBanner b && negb (AD.hasRejectButton b)
        then (reasons ++ [JStr "Cookie banner without reject option"])%list
        else reasons
    | None => reasons
    end in
  Report.mkReport
    (AD.domain analysisData)
    (AD.url analysisData)
    (JStr ("This site has " ++ string_of_Z cookieCount ++ " cookies ("
           ++ string_of_Z thirdPartyCount ++ " third-party). "
           ++ (if hasPrivacyPolicy then "Privacy policy found."
               else "No privacy policy detected.")))
    (JArr [JObj [("type", JStr "cookies");
                 ("purpose", JStr "tracking and analytics");
                 ("retention", JStr "varies");
                 ("shared_with",
                  JArr (if 0 <? thirdPartyCount
                        then [JStr "third parties"] else []))]])
    (JObj [("can_user_delete",
            JStr (if hasPrivacyPolicy then "unknown" else "no"));
           ("how",
            JStr (if hasPrivacyPolicy then "Check privacy policy for details"
                  else "No privacy policy available"));
           ("contacts_found", JArr [])])
    (JObj [("cookie_count", JNum cookieCount);
           ("third_party_cookies", JNum thirdPartyCount);
           ("thirdPartyDomains", JArr (map JStr thirdPartyDomains));
           ("tracking_cookies_detected", JBool (0 <? thirdPartyCount));
           ("cookies_summary", JArr [])])
    (JNum (Z.min riskScore 100))
    (JStr verdict)
    (JArr reasons)
    (JArr [JStr (if 0 <? thirdPartyCount
                 then "Consider blocking third-party cookies"
                 else "Cookie usage appears minimal");
           JStr (if hasPrivacyPolicy then "Review privacy policy manually"
                 else "Request privacy information from site")])
    0.6%Q
    Date_now.

End Clock.

End ServiceWorker.

(** * Strings: case folding and character classes (ASCII) *)

Definition lower_ascii (c : ascii) : ascii :=
  let n := nat_of_ascii c in
  if ((65 <=? n) && (n <=? 90))%nat then ascii_of_nat (n + 32) else c.

Fixpoint toLowerCase (s : string) : string :=
  match s with
  | EmptyString => EmptyString
  | String c s' => String (lower_ascii c) (toLowerCase s')
  end.

(** [/^p/i.test(s)] for a literal prefix [p]. *)
Definition test_prefix_i (p s : string) : bool :=
  prefix (toLowerCase p) (toLowerCase s).

(** [s.startsWith('.') ? s.substring(1) : s]. *)
Definition strip_leading_dot (s : string) : string :=
  match s with
  | String "."%char s' => s'
  | _ => s
  end.

Definition is_space (c : ascii) : bool :=
  let n := nat_of_ascii c in
  (((9 <=? n) && (n <=? 13)) || (n =? 32))%nat.

Definition is_word (c : ascii) : bool :=
  let n := nat_of_ascii c in
  (((48 <=? n) && (n <=? 57)) || ((65 <=? n) && (n <=? 90))
   || ((97 <=? n) && (n <=? 122)) || (n =? 95))%nat.

(** [s.replace(/\s+/g, ' ')]. *)
Fixpoint collapse_spaces (in_run : bool) (s : string) : string :=
  match s with
  | EmptyString => EmptyString
  | String c s' =>
      if is_space c then
        if in_run then collapse_spaces true s'
        else String " "%char (collapse_spaces true s')
      else String c (collapse_spaces false s')
  end.

(** [s.replace(/[^\w\s]/g, '')]. *)
Fixpoint strip_punctuation (s : string) : string :=
  match s with
  | EmptyString => EmptyString
  | String c s' =>
      if is_word c || is_space c then String c (strip_punctuation s')
      else strip_punctuation s'
  end.

(** * The cookie extractor *)

Module CookieExtractor.

Record ChromeCookie : Type := mkChromeCookie {
  c_name : string;
  c_value : string;
  c_domain : string;
  c_path : string;
  c_secure : bool;
  c_httpOnly : bool;
  c_sameSite : string;
  c_expirationDate : option Z
}.

Record Cookie : Type := mkCookie {
  name : string;
  value : string;
  domain : string;
  path : string;
  secure : bool;
  httpOnly : bool;
  sameSite : string;
  expirationDate : option Z;
  isThirdParty : bool
}.

(** One entry of a category list. *)
Record Entry : Type := mkEntry {
  e_name : string;
  e_domain : string;
  type : string;
  expires : string;
  e_secure : bool;
  e_httpOnly : bool;
  e_isThirdParty : bool
}.

Record Categories : Type := mkCategories {
  essential : list Entry;
  analytics : list Entry;
  advertising : list Entry;
  preferences : list Entry;
  social : list Entry;
  unknown : list Entry
}.

(** The [patterns] object: each group lists the prefixes of its
    [/^prefix/i] expressions, groups in the order of the literal. *)
Definition patterns : list (string * list string) :=
  [("essential",
    ["session"; "csrf"; "auth"; "login"; "security";
     "consent"; "necessary"; "required"]);
   ("analytics",
    ["_ga"; "_gid"; "_gtm"; "_gat"; "google";
     "analytics"; "tracking"; "stats"; "metrics";
     "utm"; "hotjar"; "mixpanel"; "amplitude"]);
   ("advertising",
    ["_fbp"; "_fbc"; "facebook"; "fb";
     "doubleclick"; "googleads"; "adsystem";
     "ad"; "marketing"; "retargeting"; "conversion"]);
   ("preferences",
    ["pref"; "settings"; "theme"; "language";
     "locale"; "timezone"; "currency"]);
   ("social",
    ["twitter"; "linkedin"; "instagram"; "youtube";
     "social"; "share"; "like"])].

(** The cookie built by [parseCookieString] for one [name=value] pair. *)
Definition documentCookie (name value currentDomain : string) : Cookie :=
  mkCookie name value currentDomain "/" false false "Lax" None false.

(** The cookie built from one result of [chrome.cookies.getAll]. *)
Definition chromeCookie (currentDomain : string) (cookie : ChromeCookie)
  : Cookie :=
  mkCookie (c_name cookie) (c_value cookie) (c_domain cookie) (c_path cookie)
           (c_secure cookie) (c_httpOnly cookie) (c_sameSite cookie)
           (c_expirationDate cookie)
           (negb (includes (c_domain cookie) currentDomain)).

(** The filter of the third-party count. *)
Definition countsAsThirdParty (currentDomain : string) (cookie : Cookie)
  : bool :=
  isThirdParty cookie || negb (includes (domain cookie) currentDomain).

Section Clock.

(** [formatExpiration] reads the clock. *)
Variable formatExpiration : option Z -> string.

Definition entry (category : string) (cookie : Cookie) : Entry :=
  mkEntry (name cookie) (domain cookie) category
          (formatExpiration (expirationDate cookie))
          (secure cookie) (httpOnly cookie) (isThirdParty cookie).

(** [categories[category].push(e)]. *)
Definition push (category : string) (e : Entry) (c : Categories)
  : Categories :=
  if (category =? "essential")%string then
    mkCategories (essential c ++ [e])%list (analytics c) (advertising c)
                 (preferences c) (social c) (unknown c)
  else if (category =? "analytics")%string then
    mkCategories (essential c) (analytics c ++ [e])%list (advertising c)
                 (preferences c) (social c) (unknown c)
  else if (category =? "advertising")%string then
    mkCategories (essential c) (analytics c) (advertising c ++ [e])%list
                 (preferences c) (social c) (unknown c)
  else if (category =? "preferences")%string then
    mkCategories (essential c) (analytics c) (advertising c)
                 (preferences c ++ [e])%list (social c) (unknown c)
  else if (category =? "social")%string then
    mkCategories (essential c) (analytics c) (advertising c)
                 (preferences c) (social c ++ [e])%list (unknown c)
  else
    mkCategories (essential c) (analytics c) (advertising c)
                 (preferences c) (social c) (unknown c ++ [e])%list.

(** The [for ... of Object.entries(patterns)] loop with its [break]:
    the first group one of whose patterns matches the name. *)
Fixpoint firstMatch (groups : list (string * list string)) (cookieName : string)
  : option string :=
  match groups with
  | [] => None
  | (category, categoryPatterns) :: rest =>
      if existsb (fun pattern => test_prefix_i pattern cookieName)
                 categoryPatterns
      then Some category
      else firstMatch rest cookieName
  end.

Definition categorizeOne (categories : Categories) (cookie : Cookie)
  : Categories :=
  match firstMatch patterns (name cookie) with
  | Some category => push category (entry category cookie) categories
  | None => push "unknown" (entry "unknown" cookie) categories
  end.

Definition categorizeCookies (cookies : list Cookie) : Categories :=
  fold_left categorizeOne cookies (mkCategories [] [] [] [] [] []).

Record CookieDataOut : Type := mkCookieDataOut {
  documentCookies : list Cookie;
  chromeCookies : list Cookie;
  cookieCount : Z;
  thirdPartyCookies : Z;
  summary : Categories
}.

(** [extractCookieData], from the parsed document cookies and the
    cookies the Chrome API returned. *)
Definition extractCookieData (currentDomain : string)
    (documentCookies : list Cookie) (apiCookies : list ChromeCookie)
  : CookieDataOut :=
  let chromeCookies := map (chromeCookie currentDomain) apiCookies in
  let allCookies := (documentCookies ++ chromeCookies)%list in
  mkCookieDataOut documentCookies chromeCookies
    (Z.of_nat (List.length allCookies))
    (Z.of_nat (List.length (filter (countsAsThirdParty currentDomain) allCookies)))
    (categorizeCookies allCookies).

End Clock.

End CookieExtractor.

(** * The content script *)

Module ContentScript.

Definition urlPatterns : list string :=
  ["privacy"; "privacy-policy"; "privacy_policy"; "privacypolicy";
   "data-protection"; "data-policy"; "cookie"; "cookies"; "cookie-policy";
   "terms"; "terms-of-service"; "terms-and-conditions"; "legal"; "gdpr"; "ccpa";
   "#privacy"; "#privacy-policy"; "#privacy_policy"; "#data-protection";
   "#developer_policy"; "#user_privacy"; "#privacy_notice"].

Definition textPatterns : list string :=
  ["privacy policy"; "privacy statement"; "privacy notice"; "privacy";
   "data protection"; "data policy"; "data usage"; "data handling";
   "cookie policy"; "cookie notice"; "cookies";
   "terms of service"; "terms and conditions"; "terms of use"; "terms";
   "legal"; "gdpr"; "ccpa"; "california privacy";
   "developer policy"; "api privacy"; "user privacy"].

(** [href] is the attribute as written, [linkText] the anchor's text,
    lowercased and trimmed. *)
Definition urlMatches (href : string) : bool :=
  let linkUrl := toLowerCase href in
  existsb (fun pattern =>
    if prefix "#" pattern
    then includes linkUrl pattern || includes href pattern
    else includes linkUrl pattern) urlPatterns.

Definition textMatches (linkText : string) : bool :=
  existsb (fun pattern =>
    if includes pattern " "
    then includes linkText pattern
         || includes (collapse_spaces false linkText) pattern
         || includes (strip_punctuation linkText) (strip_punctuation pattern)
    else includes linkText pattern) textPatterns.

Definition isLegalWithPrivacyFragment (href : string) : bool :=
  let linkUrl := toLowerCase href in
  (includes linkUrl "/legal" || includes linkUrl "legal")
  && (includes href "#privacy" || includes href "#developer_policy"
      || includes href "#data").

Definition isPrivacyLink (href linkText : string) : bool :=
  urlMatches href || textMatches linkText || isLegalWithPrivacyFragment href.

(** The priority of a qualifying link. *)
Definition priority (linkText absoluteUrl linkDomain currentDomain : string)
  : Z :=
  let priority := 0 in
  let priority :=
    if includes linkText "privacy policy" || includes absoluteUrl "privacy-policy"
    then priority + 10 else priority in
  let priority :=
    if includes linkText "privacy" || includes absoluteUrl "privacy"
    then priority + 5 else priority in
  let priority :=
    if includes linkText "legal" || includes absoluteUrl "legal"
    then priority + 1 else priority in
  let priority :=
    if (linkDomain =? currentDomain)%string
    then priority + 3 else priority in
  priority.

(** The filter of [extractCookieData] on the domain of a cookie. *)
Definition isThirdParty (currentDomain domain : string) : bool :=
  let cookieDomain := strip_leading_dot domain in
  negb (includes currentDomain cookieDomain)
  && negb (includes cookieDomain currentDomain).

Definition thirdPartyCookies (currentDomain : string) (domains : list string)
  : list string :=
  filter (isThirdParty currentDomain) domains.

End ContentScript.

(** * src/utils/privacy-scraper.js *)

Module PrivacyScraper.

Definition PRIVACY_PATTERNS : list string :=
  ["privacy"; "privacy-policy"; "privacy_policy"; "privacypolicy";
   "data-protection"; "data-policy"; "cookie"; "cookies"; "cookie-policy";
   "terms"; "terms-of-service"; "terms-and-conditions"; "legal"; "gdpr"; "ccpa"].

Definition isPrivacyLink (href linkText : string) : bool :=
  let linkUrl := toLowerCase href in
  existsb (fun pattern => includes linkText pattern || includes linkUrl pattern)
          PRIVACY_PATTERNS.

(** One [forEach] over a list of terms, each hit adding [bonus]. *)
Definition addTerms (bonus : Z) (terms : list string) (text url : string)
    (score : Z) : Z :=
  fold_left
    (fun score term =>
       if includes text term || includes url term then score + bonus else score)
    terms score.

Definition getPrivacyRelevanceScore (text url : string) : Z :=
  let score := 0 in
  let score :=
    addTerms 10 ["privacy policy"; "privacy-policy"; "data protection"]
             text url score in
  let score := addTerms 5 ["privacy"; "cookie"; "data"] text url score in
  let score := addTerms 1 ["legal"; "terms"] text url score in
  score.

End PrivacyScraper.

(** * Properties: vocabulary *)

Module PT := PromptTemplates.

Definition step_names : list string :=
  ["SUMMARIZER"; "COOKIE_ANALYZER"; "DELETION_ANALYZER"; "RISK_SCORER"].

(** Data that [JSON.stringify] writes and [JSON.parse] reads back
    unchanged: no undefined and no NaN anywhere inside. *)
Fixpoint json_data (v : JsValue) : bool :=
  match v with
  | JUndefined | JNaN => false
  | JNull | JBool _ | JNum _ | JStr _ => true
  | JArr items => forallb json_data items
  | JObj fields => forallb (fun '(_, x) => json_data x) fields
  end.

(** A parsed response that [validateResponse] accepts for a step. *)
Definition accepted (templateName : string) (parsed : JsValue) : Prop :=
  exists v, PT.validateParsed templateName parsed = Ok v /\ js_truthy v = true.

(** The verdict the thresholds [VERDICT_THRESHOLDS] give a score. *)
Definition verdict_consistent (score : Z) (verdict : string) : Prop :=
  (score <= PT.VERDICT_SAFE_max -> verdict = "SAFE")
  /\ (PT.VERDICT_CAUTION_min <= score <= PT.VERDICT_CAUTION_max ->
      verdict = "CAUTION")
  /\ (PT.VERDICT_UNSAFE_min <= score -> verdict = "UNSAFE").

Definition consistent_values (score verdict : JsValue) : Prop :=
  exists n v, score = JNum n /\ verdict = JStr v /\ verdict_consistent n v.

Definition report_consistent (r : Report.Report) : Prop :=
  consistent_values (Report.risk_score r) (Report.verdict r).

Definition score_in_range (score : JsValue) : Prop :=
  exists n, score = JNum n /\ 0 <= n <= 100.

Definition report_in_range (r : Report.Report) : Prop :=
  score_in_range (Report.risk_score r).

(** The confidence as the base and four optional bonuses. *)
Definition confidence_of (b1 b2 b3 b4 : bool) : Q :=
  let c := 0.5%Q in
  let c := if b1 then (c + 0.2)%Q else c in
  let c := if b2 then (c + 0.1)%Q else c in
  let c := if b3 then (c + 0.1)%Q else c in
  let c := if b4 then (c + 0.1)%Q else c in
  Qmin c 1.0%Q.

(** A risk result read from an accepted answer of the assistant, and a
    risk result made by the step fallback. *)
Definition ai_risk_result (JSON_parse : string -> option JsValue)
    (callAIPrompt : string -> AIClient.AIOptions -> Result string)
    (risk : JsValue) : Prop :=
  exists prompt options text,
    callAIPrompt prompt options = Ok text
    /\ JSON_parse text = Some risk
    /\ accepted "RISK_SCORER" risk.

Definition fallback_risk_result (risk : JsValue) : Prop :=
  exists d, PT.generateFallbackResponse "RISK_SCORER" (Some d) = Ok risk.

(** The value a fallback returns ([undefined] had it thrown). *)
Definition fallback_of (templateName : string) (d : PT.InputData) : JsValue :=
  match PT.generateFallbackResponse templateName (Some d) with
  | Ok r => r
  | Throw _ => JUndefined
  end.

Definition no_input : PT.InputData :=
  PT.mkInputData None None JUndefined JUndefined.

(** The four fallback results, ready to be merged. *)
Definition fallback_results : AIClient.Combined :=
  AIClient.mkCombined (JStr "example.com") (JStr "https://example.com/")
    (fallback_of "SUMMARIZER" no_input)
    (fallback_of "COOKIE_ANALYZER" no_input)
    (fallback_of "DELETION_ANALYZER" no_input)
    (fallback_of "RISK_SCORER" no_input)
    0.


(** [t] occurs in [s]. *)
Definition occurs_in (t s : string) : Prop :=
  exists a b, s = a ++ t ++ b.

(** The third-party rule in the words of the specification: neither
    domain, the cookie's without its leading dot, occurs in the other. *)
Definition disjoint_domains (cookieDomain pageDomain : string) : Prop :=
  ~ occurs_in (strip_leading_dot cookieDomain) pageDomain
  /\ ~ occurs_in pageDomain (strip_leading_dot cookieDomain).

(** The priority in the words of the specification: +10 for the exact
    phrase or URL match, +5 for a privacy term, +1 for a legal or terms
    term, +3 for the same host. *)
Definition stated_priority
    (linkText absoluteUrl linkDomain currentDomain : string) : Z :=
  10 * Z.b2z (includes linkText "privacy policy"
              || includes absoluteUrl "privacy-policy")
  + 5 * Z.b2z (includes linkText "privacy" || includes absoluteUrl "privacy")
  + 1 * Z.b2z (includes linkText "legal" || includes absoluteUrl "legal"
               || includes linkText "terms" || includes absoluteUrl "terms")
  + 3 * Z.b2z (linkDomain =? currentDomain)%string.

(** Number of the terms that occur in the text or in the URL. *)
Definition hits (terms : list string) (text url : string) : Z :=
  Z.of_nat (List.length
    (filter (fun term => includes text term || includes url term) terms)).

(** The six category names, and [categories[category]]. *)
Definition category_names : list string :=
  ["essential"; "analytics"; "advertising"; "preferences"; "social"; "unknown"].

Definition bucket (category : string) (c : CookieExtractor.Categories)
  : list CookieExtractor.Entry :=
  if (category =? "essential")%string then CookieExtractor.essential c
  else if (category =? "analytics")%string then CookieExtractor.analytics c
  else if (category =? "advertising")%string then CookieExtractor.advertising c
  else if (category =? "preferences")%string then CookieExtractor.preferences c
  else if (category =? "social")%string then CookieExtractor.social c
  else CookieExtractor.unknown c.

(** Number of entries in the six lists. *)
Definition total (c : CookieExtractor.Categories) : nat :=
  (List.length (CookieExtractor.essential c)
   + List.length (CookieExtractor.analytics c)
   + List.length (CookieExtractor.advertising c)
   + List.length (CookieExtractor.preferences c)
   + List.length (CookieExtractor.social c)
   + List.length (CookieExtractor.unknown c))%nat.

(** A name matches a group when one of the group's expressions does. *)
Definition matchesGroup (group cookieName : string) : bool :=
  match lookup group CookieExtractor.patterns with
  | Some categoryPatterns =>
      existsb (fun pattern => test_prefix_i pattern cookieName) categoryPatterns
  | None => false
  end.

(** The category in the words of the specification: the five groups in
    priority order, the first match wins, no match is unknown. *)
Definition categoryOf (cookieName : string) : string :=
  if matchesGroup "essential" cookieName then "essential"
  else if matchesGroup "analytics" cookieName then "analytics"
  else if matchesGroup "advertising" cookieName then "advertising"
  else if matchesGroup "preferences" cookieName then "preferences"
  else if matchesGroup "social" cookieName then "social"
  else "unknown".

(** ** Sample runs *)

Definition dquote : string := String "034"%char EmptyString.

(** The text of a risk response: a score, a verdict, one reason. *)
Definition risk_text (score : Z) (verdict : string) : string :=
  "{" ++ dquote ++ "risk_score" ++ dquote ++ ":" ++ string_of_Z score
  ++ "," ++ dquote ++ "verdict" ++ dquote ++ ":" ++ dquote ++ verdict ++ dquote
  ++ "," ++ dquote ++ "reasons" ++ dquote ++ ":[" ++ dquote ++ "tracking"
  ++ dquote ++ "]}".

Definition risk_value (score : Z) (verdict : string) : JsValue :=
  JObj [("risk_score", JNum score); ("verdict", JStr verdict);
        ("reasons", JArr [JStr "tracking"])].

(** An assistant that answers every prompt with one risk response and
    has no summarizer; [JSON.parse] restricted to that response. *)
Definition parse_risk (score : Z) (verdict : string) (s : string)
  : option JsValue :=
  if (s =? risk_text score verdict)%string
  then Some (risk_value score verdict) else None.

Definition answer_risk (score : Z) (verdict : string)
  : string -> AIClient.AIOptions -> Result string :=
  fun _ _ => Ok (risk_text score verdict).

Definition unavailable_summarizer : string -> Result string :=
  fun _ => Throw "Chrome AI APIs not available".


Definition no_text : string -> string := fun _ => "".
Definition no_substitution : string -> list (string * JsValue) -> string :=
  fun text _ => text.

Definition sample_request : AD.AnalysisData :=
  AD.mkAnalysisData (JStr "example.com") (JStr "https://example.com/")
    (Some "We collect data.") (Some ["https://example.com/privacy"])
    (Some (AD.mkCookieInfo (Some 3) (Some 1) (Some ["tracker.net"])))
    None.


Definition sample_cookies : list CookieExtractor.Cookie :=
  [CookieExtractor.documentCookie "session_id" "1" "example.com";
   CookieExtractor.documentCookie "googleads_x" "2" "example.com";
   CookieExtractor.documentCookie "ADVERT" "3" "example.com";
   CookieExtractor.documentCookie "xyz" "4" "example.com"].

(** * Further vocabulary *)

(** An object without one of its fields. *)
Fixpoint remove_key {A : Type} (k : string) (l : list (string * A))
  : list (string * A) :=
  match l with
  | [] => []
  | (k', a) :: l' =>
      if (k =? k')%string then remove_key k l' else (k', a) :: remove_key k l'
  end.

Definition without_field (k : string) (v : JsValue) : JsValue :=
  match v with
  | JObj fields => JObj (remove_key k fields)
  | _ => v
  end.

(** The fields each step requires of a response. *)
Definition required_fields (templateName : string) : list string :=
  if (templateName =? "SUMMARIZER")%string then ["summary"; "categories"]
  else if (templateName =? "COOKIE_ANALYZER")%string
       then ["first_party"; "third_party"]
  else if (templateName =? "DELETION_ANALYZER")%string then ["can_delete"]
  else if (templateName =? "RISK_SCORER")%string
       then ["risk_score"; "verdict"; "reasons"]
  else [].

(** The cookie categories the merge can summarize: nothing, or entries
    that are arrays whose first three elements are not null or undefined. *)
Definition summarizable_entry (e : string * JsValue) : bool :=
  match snd e with
  | JArr items => forallb (fun c => negb (js_nullish c)) (firstn 3 items)
  | _ => false
  end.

Definition summarizable (categories : JsValue) : bool :=
  if js_truthy categories
  then forallb summarizable_entry (AIClient.Object_entries categories)
  else true.

(** * The Chrome AI wrappers of the AI client *)

Module AIRuntime.

(** [chrome.ai] and [globalThis.mockAI], each present or not.  A session
    of the language model is created with a temperature and [topK] and
    prompted once; the summarizer is created with type, format and length
    and summarizes once. *)
Record Environment : Type := mkEnvironment {
  summarizer : option (string -> string -> string -> string -> Result string);
  languageModel : option (Q -> Z -> string -> Result string);
  mockAI : option (string -> Result string)
}.

Definition AI_CONFIG_temperature : Q := 0.1%Q.

Definition callAIPrompt (env : Environment) (prompt : string)
    (temperature : option Q) (topK : option Z) : Result string :=
  match languageModel env with
  | Some session =>
      session
        (match temperature with
         | Some t => if Qeq_bool t 0 then AI_CONFIG_temperature else t
         | None => AI_CONFIG_temperature
         end)
        (match topK with
         | Some k => if k =? 0 then 3 else k
         | None => 3
         end)
        prompt
  | None =>
      match mockAI env with
      | Some mock => mock prompt
      | None => Throw "Chrome AI APIs not available"
      end
  end.

Definition or_default (s default : string) : string :=
  if (s =? "")%string then default else s.

Definition callAISummarizer (env : Environment) (text : string)
    (type format length : string) : Result string :=
  match summarizer env with
  | Some summarize =>
      summarize (or_default type "key-points") (or_default format "markdown")
                (or_default length "medium") text
  | None =>
      match languageModel env with
      | Some _ =>
          callAIPrompt env
            ("Summarize this privacy policy in 2 sentences and list data categories as JSON: "
             ++ text) None None
      | None => Throw "Chrome AI APIs not available"
      end
  end.

(** The two calls as the steps of the AI client make them. *)
Definition summarizerCall (env : Environment) : string -> Result string :=
  fun text => callAISummarizer env text "key-points" "json" "short".

Definition promptCall (env : Environment)
  : string -> AIClient.AIOptions -> Result string :=
  fun prompt options =>
    callAIPrompt env prompt (Some (AIClient.temperature options)) None.


End AIRuntime.

Definition no_ai : AIRuntime.Environment :=
  AIRuntime.mkEnvironment None None None.

Definition cookie_answer_with_counts : JsValue :=
  JObj [("first_party", JNum 3); ("third_party", JNum 7);
        ("tracking", JBool true);
        ("categories", JObj [("analytics", JNum 4); ("advertising", JNum 3)])].

(** Whether a computation returns (does not throw). *)
Definition returns {A : Type} (m : Result A) : bool :=
  match m with Ok _ => true | Throw _ => false end.

(** * The service worker: site analysis, cache and rate limit *)

(** [Math.ceil(x / y)] for integers and a positive [y]. *)
Definition ceil_div (x y : Z) : Z := - ((- x) / y).

(** [s.split(/[.!?]+/)]: the pieces between the maximal runs of sentence
    marks; a run at either end leaves an empty piece there. *)
Definition is_sentence_mark (c : ascii) : bool :=
  (c =? ".")%char || (c =? "!")%char || (c =? "?")%char.

Fixpoint split_sentences_from (s piece : string) (in_run : bool)
  : list string :=
  match s with
  | EmptyString => [piece]
  | String c s' =>
      if is_sentence_mark c then
        if in_run then split_sentences_from s' EmptyString true
        else piece :: split_sentences_from s' EmptyString true
      else split_sentences_from s' (piece ++ String c EmptyString) false
  end.

Definition split_sentences (s : string) : list string :=
  split_sentences_from s EmptyString false.

(** [pieces.join(sep)]. *)
Definition join (sep : string) (pieces : list string) : string :=
  String.concat sep pieces.

Module SiteWorker.

Definition CACHE_TTL : Z := 24 * 60 * 60 * 1000.
Definition RATE_LIMIT_DELAY : Z := 10 * 1000.

Record CacheData : Type := mkCacheData {
  result : Report.Report;
  timestamp : Z
}.

(** [chrome.storage.local] as the worker uses it: the cache entries
    under their keys, and the object stored under [lastAnalysis]. *)
Record Storage : Type := mkStorage {
  entries : list (string * CacheData);
  lastAnalysis : option (list (string * Z))
}.

Definition put {A : Type} (k : string) (a : A) (l : list (string * A))
  : list (string * A) :=
  (k, a) :: remove_key k l.

Definition cacheKey (domain : string) : string := "cache_" ++ domain.

Definition getCachedResult (domain : string) (store : Storage)
  : option CacheData :=
  lookup (cacheKey domain) (entries store).

Definition cacheResult (domain : string) (result : Report.Report)
    (Date_now : Z) (store : Storage) : Storage :=
  mkStorage (put (cacheKey domain) (mkCacheData result Date_now) (entries store))
            (lastAnalysis store).

(** [clearCache(domain)]: one entry, or with a missing or empty
    [domain] every key that starts with [cache_]. *)
Definition clearCache (domain : option string) (store : Storage) : Storage :=
  match domain with
  | Some d =>
      if (d =? "")%string
      then mkStorage (filter (fun e => negb (prefix "cache_" (fst e)))
                             (entries store))
                     (lastAnalysis store)
      else mkStorage (remove_key (cacheKey d) (entries store))
                     (lastAnalysis store)
  | None =>
      mkStorage (filter (fun e => negb (prefix "cache_" (fst e)))
                        (entries store))
                (lastAnalysis store)
  end.

Definition isExpired (Date_now timestamp : Z) : bool :=
  CACHE_TTL <? Date_now - timestamp.

(** [data.lastAnalysis?.[domain] || null], as [analyzeSite] uses it: a
    number that is not zero, or nothing.  Under a name that is not a key
    of its own the object answers from its prototype ([__proto__],
    [constructor] and the like) with an object or a function; the
    subtraction in [analyzeSite] makes NaN of it and no limit applies,
    as with nothing. *)
Definition getLastAnalysisTime (domain : string) (store : Storage)
  : option Z :=
  match lastAnalysis store with
  | Some times =>
      if (domain =? "__proto__")%string then None
      else
        match lookup domain times with
        | Some t => if t =? 0 then None else Some t
        | None => None
        end
  | None => None
  end.

(** [lastAnalysis[domain] = timestamp]: assigning a number to
    [__proto__] changes nothing. *)
Definition updateLastAnalysisTime (domain : string) (timestamp : Z)
    (store : Storage) : Storage :=
  let times :=
    match lastAnalysis store with
    | Some times => times
    | None => []
    end in
  mkStorage (entries store)
            (Some (if (domain =? "__proto__")%string then times
                   else put domain timestamp times)).

Definition privacyKeywords : list string :=
  ["privacy policy"; "data protection"; "personal information";
   "cookies"; "tracking"; "data collection"; "third party";
   "gdpr"; "ccpa"; "personal data"; "data processing"].

Definition mentionsPrivacy (sentence : string) : bool :=
  existsb (fun keyword =>
             includes (toLowerCase sentence) (toLowerCase keyword))
          privacyKeywords.

Definition extractPrivacyTextFromPage (pageContent : string) : string :=
  let sentences := split_sentences pageContent in
  let privacySentences := filter mentionsPrivacy sentences in
  substring 0 2000 (join ". " privacySentences).

Record SiteData : Type := mkSiteData {
  domain : string;
  url : string;
  pageContent : string;
  privacyPolicyLinks : option (list string);
  cookies : option AD.CookieInfo;
  cookieBannerData : option AD.BannerData
}.

(** The readings of [Date.now()] during one call, in the order they are
    taken: in [analyzeSite], in [isExpired], for the report and in
    [cacheResult]. *)
Record Clock : Type := mkClock {
  now : Z;
  atExpiryCheck : Z;
  atReport : Z;
  atCaching : Z
}.

Definition rateLimitMessage (now lastAnalysis : Z) : string :=
  "Rate limited. Please wait "
  ++ string_of_Z (ceil_div (RATE_LIMIT_DELAY - (now - lastAnalysis)) 1000)
  ++ " seconds.".

Section Network.

(** [fetchPrivacyPolicyContent]: the text of a fetched page, or the
    error of the fetch. *)
Variable fetchPrivacyPolicyContent : string -> Result string.

Definition policyTextFor (siteData : SiteData) : string :=
  match privacyPolicyLinks siteData with
  | Some (first :: _) =>
      match fetchPrivacyPolicyContent first with
      | Ok text => text
      | Throw _ => extractPrivacyTextFromPage (pageContent siteData)
      end
  | _ => extractPrivacyTextFromPage (pageContent siteData)
  end.

Definition analysisDataFor (siteData : SiteData) : AD.AnalysisData :=
  AD.mkAnalysisData (JStr (domain siteData)) (JStr (url siteData))
    (Some (policyTextFor siteData))
    (privacyPolicyLinks siteData) (cookies siteData)
    (cookieBannerData siteData).

Definition analyzeSite (clock : Clock) (siteData : SiteData)
    (store : Storage) : Result (Report.Report * Storage) :=
  let rateLimited :=
    match getLastAnalysisTime (domain siteData) store with
    | Some lastAnalysis => now clock - lastAnalysis <? RATE_LIMIT_DELAY
    | None => false
    end in
  if rateLimited then
    Throw (rateLimitMessage (now clock)
             match getLastAnalysisTime (domain siteData) store with
             | Some lastAnalysis => lastAnalysis
             | None => 0
             end)
  else
    match getCachedResult (domain siteData) store with
    | Some cached =>
        if negb (isExpired (atExpiryCheck clock) (timestamp cached))
        then Ok (result cached, store)
        else
          let analysisResult :=
            ServiceWorker.analyzePrivacyPolicy (atReport clock)
              (analysisDataFor siteData) in
          Ok (analysisResult,
              updateLastAnalysisTime (domain siteData) (now clock)
                (cacheResult (domain siteData) analysisResult
                             (atCaching clock) store))
    | None =>
        let analysisResult :=
          ServiceWorker.analyzePrivacyPolicy (atReport clock)
            (analysisDataFor siteData) in
        Ok (analysisResult,
            updateLastAnalysisTime (domain siteData) (now clock)
              (cacheResult (domain siteData) analysisResult
                           (atCaching clock) store))
    end.

End Network.

End SiteWorker.

Definition sample_site : SiteWorker.SiteData :=
  SiteWorker.mkSiteData "example.com" "https://example.com/"
    "Welcome. We use cookies and tracking. Contact us!"
    (Some ["https://example.com/privacy"])
    (Some (AD.mkCookieInfo (Some 12) (Some 7) (Some ["tracker.net"])))
    None.

Definition empty_store : SiteWorker.Storage := SiteWorker.mkStorage [] None.

Definition unreachable : string -> Result string :=
  fun _ => Throw "TypeError: Failed to fetch".

(** Whether [analyzeSite] would answer from the cache. *)
Definition servedFromCache (clock : SiteWorker.Clock)
    (siteData : SiteWorker.SiteData) (store : SiteWorker.Storage) : bool :=
  match SiteWorker.getCachedResult (SiteWorker.domain siteData) store with
  | Some cached =>
      negb (SiteWorker.isExpired (SiteWorker.atExpiryCheck clock)
                                 (SiteWorker.timestamp cached))
  | None => false
  end.

(** The store and the report an analysis leaves. *)
Definition store_after (fetch : string -> Result string)
    (clock : SiteWorker.Clock) (siteData : SiteWorker.SiteData)
    (store : SiteWorker.Storage) : SiteWorker.Storage :=
  match SiteWorker.analyzeSite fetch clock siteData store with
  | Ok (_, store') => store'
  | Throw _ => store
  end.

Definition report_after (fetch : string -> Result string)
    (clock : SiteWorker.Clock) (siteData : SiteWorker.SiteData)
    (store : SiteWorker.Storage) : Report.Report :=
  match SiteWorker.analyzeSite fetch clock siteData store with
  | Ok (report, _) => report
  | Throw _ =>
      ServiceWorker.analyzePrivacyPolicy (SiteWorker.atReport clock)
        (SiteWorker.analysisDataFor fetch siteData)
  end.

Definition first_clock : SiteWorker.Clock :=
  SiteWorker.mkClock 1700000000000 1700000000001 1700000000002 1700000000003.

(** Four seconds, and one hour, after [first_clock]. *)
Definition later_clock : SiteWorker.Clock :=
  SiteWorker.mkClock 1700000004000 1700000004001 1700000004002 1700000004003.

Definition hour_later_clock : SiteWorker.Clock :=
  SiteWorker.mkClock 1700003600000 1700003600001 1700003600002 1700003600003.

(** A string without sentence marks. *)
Fixpoint no_marks (s : string) : bool :=
  match s with
  | EmptyString => true
  | String c s' => negb (is_sentence_mark c) && no_marks s'
  end.




(** * The content script: collecting the policy links *)

(** [s.trim()]. *)
Fixpoint trimStart (s : string) : string :=
  match s with
  | EmptyString => EmptyString
  | String c s' => if is_space c then trimStart s' else s
  end.

Fixpoint trimEnd (s : string) : string :=
  match s with
  | EmptyString => EmptyString
  | String c s' =>
      match trimEnd s' with
      | EmptyString => if is_space c then EmptyString else String c EmptyString
      | t => String c t
      end
  end.

Definition trim (s : string) : string := trimEnd (trimStart s).

Module LinkFinder.

(** An [a[href]] element of the page: the attribute as written and the
    text of the element. *)
Record Anchor : Type := mkAnchor {
  href : string;
  textContent : string
}.

Record Link : Type := mkLink {
  url : string;
  text : string;
  isSameDomain : bool;
  priority : Z
}.

(** [links.sort((a, b) => b.priority - a.priority)]: the sort of an array
    is stable, so the result is the one arrangement by falling priority
    that keeps links of equal priority in their order; insertion from the
    right computes it. *)
Fixpoint insert (x : Link) (sorted : list Link) : list Link :=
  match sorted with
  | [] => [x]
  | y :: rest =>
      if priority x <? priority y then y :: insert x rest
      else x :: sorted
  end.

Definition sort (links : list Link) : list Link :=
  fold_right insert [] links.

(** The loop over [links] with the set [seenUrls]. *)
Fixpoint unique (seenUrls : list string) (links : list Link) : list Link :=
  match links with
  | [] => []
  | link :: rest =>
      if existsb (String.eqb (url link)) seenUrls then unique seenUrls rest
      else link :: unique (url link :: seenUrls) rest
  end.

Section Page.

(** [window.location.hostname], and [new URL(href, window.location.href)]:
    the absolute URL with its host name, or nothing when the constructor
    throws. *)
Variable currentDomain : string.
Variable resolveURL : string -> option (string * string).

(** The body of [allLinks.forEach]: the link pushed for an anchor. *)
Definition pushed (link : Anchor) : option Link :=
  if (href link =? "")%string then None
  else
    let linkText := trim (toLowerCase (textContent link)) in
    if ContentScript.isPrivacyLink (href link) linkText then
      match resolveURL (href link) with
      | Some (absoluteUrl, linkDomain) =>
          Some (mkLink absoluteUrl linkText
                  (linkDomain =? currentDomain)%string
                  (ContentScript.priority linkText absoluteUrl linkDomain
                     currentDomain))
      | None => None
      end
    else None.

Fixpoint collect (allLinks : list Anchor) : list Link :=
  match allLinks with
  | [] => []
  | link :: rest =>
      match pushed link with
      | Some l => l :: collect rest
      | None => collect rest
      end
  end.

Definition findPrivacyPolicyLinks (allLinks : list Anchor) : list string :=
  let links := sort (collect allLinks) in
  let uniqueLinks := unique [] links in
  map url uniqueLinks.

End Page.

End LinkFinder.



(** * Reading [document.cookie] *)

(** [s.split(sep)] for a separator of one character. *)
Fixpoint split_on (sep : ascii) (s piece : string) : list string :=
  match s with
  | EmptyString => [piece]
  | String c s' =>
      if (c =? sep)%char then piece :: split_on sep s' EmptyString
      else split_on sep s' (piece ++ String c EmptyString)
  end.

Definition split (sep : ascii) (s : string) : list string :=
  split_on sep s EmptyString.

(** Whether a character occurs in a string. *)
Fixpoint has_char (c : ascii) (s : string) : bool :=
  match s with
  | EmptyString => false
  | String d s' => (d =? c)%char || has_char c s'
  end.

Module CookieParser.

(** The body of [cookiePairs.forEach]: [name] and [value] are the first
    two pieces of the trimmed pair, [value] being undefined when the pair
    has no equals sign. *)
Definition parsePair (currentDomain cookiePair : string)
  : option CookieExtractor.Cookie :=
  match split "=" (trim cookiePair) with
  | name :: value :: _ =>
      if (name =? "")%string then None
      else Some (CookieExtractor.documentCookie (trim name) (trim value)
                   currentDomain)
  | _ => None
  end.

Fixpoint parsePairs (currentDomain : string) (cookiePairs : list string)
  : list CookieExtractor.Cookie :=
  match cookiePairs with
  | [] => []
  | cookiePair :: rest =>
      match parsePair currentDomain cookiePair with
      | Some cookie => cookie :: parsePairs currentDomain rest
      | None => parsePairs currentDomain rest
      end
  end.

Definition parseCookieString (cookieString currentDomain : string)
  : list CookieExtractor.Cookie :=
  if (cookieString =? "")%string then []
  else parsePairs currentDomain (split ";" cookieString).

(** [extractCookieData] of the cookie extractor on the page's
    [document.cookie] and the cookies of the Chrome API. *)
Definition extractCookieData (formatExpiration : option Z -> string)
    (currentDomain documentCookieString : string)
    (apiCookies : list CookieExtractor.ChromeCookie)
  : CookieExtractor.CookieDataOut :=
  CookieExtractor.extractCookieData formatExpiration currentDomain
    (parseCookieString documentCookieString currentDomain) apiCookies.

End CookieParser.

(** * The content script: the cookie data *)

(** [[...new Set(items)]]: the items in the order of their first
    occurrence. *)
Fixpoint distinct_from (seen items : list string) : list string :=
  match items with
  | [] => []
  | item :: rest =>
      if existsb (String.eqb item) seen then distinct_from seen rest
      else item :: distinct_from (item :: seen) rest
  end.

Definition distinct (items : list string) : list string :=
  distinct_from [] items.

Module ContentCookies.

Record CookieData : Type := mkCookieData {
  documentCookies : list CookieExtractor.Cookie;
  allCookies : list CookieExtractor.ChromeCookie;
  cookieCount : Z;
  thirdPartyCookies : Z;
  thirdPartyDomains : list string
}.

(** The filter of the heuristic fallback. *)
Definition heuristic (cookie : CookieExtractor.Cookie) : bool :=
  prefix "_ga" (CookieExtractor.name cookie)
  || prefix "_fb" (CookieExtractor.name cookie)
  || includes (CookieExtractor.name cookie) "doubleclick"
  || includes (CookieExtractor.name cookie) "google"
  || includes (CookieExtractor.name cookie) "analytics".

(** The domains pushed to [estimatedDomains] for one cookie. *)
Definition estimated (cookie : CookieExtractor.Cookie) : list string :=
  ((if prefix "_ga" (CookieExtractor.name cookie)
    then ["google-analytics.com"] else [])
   ++ (if prefix "_fb" (CookieExtractor.name cookie)
       then ["facebook.com"] else [])
   ++ (if includes (CookieExtractor.name cookie) "doubleclick"
       then ["doubleclick.net"] else []))%list.

(** [extractCookieData] of the content script.  The document cookies are
    parsed as in the cookie extractor (the objects carry the name, the
    value, the domain and the first-party mark only); [getAll] is the
    outcome of [chrome.cookies.getAll], a failure sending the function to
    its heuristics. *)
Definition extractCookieData (currentDomain documentCookieString : string)
    (getAll : Result (list CookieExtractor.ChromeCookie)) : CookieData :=
  let documentCookies :=
    CookieParser.parseCookieString documentCookieString currentDomain in
  match getAll with
  | Ok allCookies =>
      let thirdPartyCookies :=
        filter (fun cookie =>
                  ContentScript.isThirdParty currentDomain
                    (CookieExtractor.c_domain cookie)) allCookies in
      let uniqueDomains :=
        distinct (map (fun cookie =>
                         strip_leading_dot (CookieExtractor.c_domain cookie))
                      thirdPartyCookies) in
      mkCookieData documentCookies allCookies
        (Z.of_nat (List.length allCookies))
        (Z.of_nat (List.length thirdPartyCookies))
        uniqueDomains
  | Throw _ =>
      let heuristicThirdParty := filter heuristic documentCookies in
      let estimatedDomains := flat_map estimated heuristicThirdParty in
      mkCookieData documentCookies []
        (Z.of_nat (List.length documentCookies))
        (Z.of_nat (List.length heuristicThirdParty))
        (distinct estimatedDomains)
  end.

End ContentCookies.

Definition api_unavailable : Result (list CookieExtractor.ChromeCookie) :=
  Throw "ReferenceError: chrome is not defined".

(** * The mock assistant of the AI client *)

Module MockAI.

Definition summarizer_answer : JsValue :=
  JObj [("summary",
         JStr "This site collects personal data for analytics and marketing. Data may be shared with third parties.");
        ("categories", JArr [JStr "email"; JStr "ip"; JStr "device"]);
        ("retention_clauses", JArr [JStr "24 months for analytics data"])].

Definition cookie_answer : JsValue :=
  JObj [("first_party", JNum 3); ("third_party", JNum 7);
        ("tracking", JBool true);
        ("categories", JObj [("analytics", JNum 4); ("advertising", JNum 3)])].

Definition deletion_answer : JsValue :=
  JObj [("can_delete", JStr "yes");
        ("instructions",
         JStr "Contact privacy@example.com to request data deletion");
        ("links", JArr [JStr "mailto:privacy@example.com"]);
        ("contacts", JArr [JStr "privacy@example.com"])].

Definition risk_answer : JsValue :=
  JObj [("risk_score", JNum 65); ("verdict", JStr "CAUTION");
        ("reasons", JArr [JStr "Third-party tracking detected";
                          JStr "Data sharing with partners"]);
        ("actions", JArr [JStr "Review privacy settings";
                          JStr "Consider ad blockers"])].

Section Stringify.

Variable JSON_stringify : JsValue -> string.

(** [globalThis.mockAI.prompt] as [enableMockAI] installs it. *)
Definition prompt (prompt : string) : Result string :=
  if includes prompt "summarizer" then Ok (JSON_stringify summarizer_answer)
  else if includes prompt "cookie" then Ok (JSON_stringify cookie_answer)
  else if includes prompt "deletion" then Ok (JSON_stringify deletion_answer)
  else if includes prompt "risk" then Ok (JSON_stringify risk_answer)
  else Ok "Mock AI response".

(** The mock enabled where [chrome.ai] is absent. *)
Definition environment : AIRuntime.Environment :=
  AIRuntime.mkEnvironment None None (Some prompt).

End Stringify.

End MockAI.


(** The first line of each template, and a printer and a parser that
    know the mock's cookie answer. *)
Definition first_lines : string -> string :=
  fun templateName =>
    if (templateName =? "SUMMARIZER")%string
    then "You are a concise privacy-policy summarizer."
    else if (templateName =? "COOKIE_ANALYZER")%string
    then "You are a cookie policy analyzer."
    else if (templateName =? "DELETION_ANALYZER")%string
    then "You are a privacy-rights assistant."
    else "You are a privacy risk scoring agent. Given the summarizer output".

Definition cookie_answer_text : string :=
  "{" ++ dquote ++ "first_party" ++ dquote ++ ":3,"
  ++ dquote ++ "third_party" ++ dquote ++ ":7,"
  ++ dquote ++ "tracking" ++ dquote ++ ":true,"
  ++ dquote ++ "categories" ++ dquote ++ ":{"
  ++ dquote ++ "analytics" ++ dquote ++ ":4,"
  ++ dquote ++ "advertising" ++ dquote ++ ":3}}".

Definition print_cookie_answer : JsValue -> string :=
  fun v =>
    match own v "first_party" with
    | JNum 3 => cookie_answer_text
    | _ => "{}"
    end.

Definition parse_cookie_answer : string -> option JsValue :=
  fun text =>
    if (text =? cookie_answer_text)%string then Some MockAI.cookie_answer
    else None.

(** * src/utils/privacy-scraper.js: collecting the policy links *)

Module ScraperLinks.

(** An [a[href]] element: the attribute as written, the text of the
    element and the selector [getElementSelector] gives it. *)
Record Anchor : Type := mkAnchor {
  href : string;
  textContent : string;
  selector : string
}.

Record Link : Type := mkLink {
  url : string;
  text : string;
  isSameDomain : bool;
  element : string
}.

(** The comparator of [links.sort]. *)
Definition compare (a b : Link) : Z :=
  if isSameDomain a && negb (isSameDomain b) then -1
  else if negb (isSameDomain a) && isSameDomain b then 1
  else
    let aScore := PrivacyScraper.getPrivacyRelevanceScore (text a) (url a) in
    let bScore := PrivacyScraper.getPrivacyRelevanceScore (text b) (url b) in
    bScore - aScore.

(** The stable sort by that comparator, by insertion from the right: a
    link passes the links that the comparator puts before it. *)
Fixpoint insert (x : Link) (sorted : list Link) : list Link :=
  match sorted with
  | [] => [x]
  | y :: rest =>
      if 0 <? compare x y then y :: insert x rest
      else x :: sorted
  end.

Definition sort (links : list Link) : list Link :=
  fold_right insert [] links.

Fixpoint unique (seenUrls : list string) (links : list Link) : list Link :=
  match links with
  | [] => []
  | link :: rest =>
      if existsb (String.eqb (url link)) seenUrls then unique seenUrls rest
      else link :: unique (url link :: seenUrls) rest
  end.

Section Page.

Variable currentDomain : string.
Variable resolveURL : string -> option (string * string).

Definition pushed (link : Anchor) : option Link :=
  if (href link =? "")%string then None
  else
    let linkText := trim (toLowerCase (textContent link)) in
    if PrivacyScraper.isPrivacyLink (href link) linkText then
      match resolveURL (href link) with
      | Some (absoluteUrl, linkDomain) =>
          Some (mkLink absoluteUrl linkText
                  (linkDomain =? currentDomain)%string (selector link))
      | None => None
      end
    else None.

Fixpoint collect (allLinks : list Anchor) : list Link :=
  match allLinks with
  | [] => []
  | link :: rest =>
      match pushed link with
      | Some l => l :: collect rest
      | None => collect rest
      end
  end.

Definition findPrivacyPolicyLinks (allLinks : list Anchor) : list Link :=
  let links := sort (collect allLinks) in
  unique [] links.

End Page.

End ScraperLinks.

(** The relevance score of a collected link. *)
Definition relevance (link : ScraperLinks.Link) : Z :=
  PrivacyScraper.getPrivacyRelevanceScore
    (ScraperLinks.text link) (ScraperLinks.url link).

(** A resolver that knows two hosts, and a page whose first policy link
    leaves the site. *)
Definition two_hosts : string -> option (string * string) :=
  fun href =>
    if prefix "https://example.com/" href then Some (href, "example.com")
    else if prefix "https://policies.example.net/" href
         then Some (href, "policies.example.net")
         else None.

Definition scraper_anchors : list ScraperLinks.Anchor :=
  [ScraperLinks.mkAnchor "https://policies.example.net/privacy-policy"
     "Privacy Policy" "a";
   ScraperLinks.mkAnchor "https://example.com/legal" "Legal" "#legal"].

(** What the scraper returns for that page: the link of the page's own
    host first, although the other link scores higher. *)
Definition scraper_first : ScraperLinks.Link :=
  ScraperLinks.mkLink "https://example.com/legal" "legal" true "#legal".

Definition scraper_others : list ScraperLinks.Link :=
  [ScraperLinks.mkLink "https://policies.example.net/privacy-policy"
     "privacy policy" false "a"].

(** * Cleaning the text of a policy *)

Definition newline : ascii := "010"%char.

(** A text whose only white space is the space character. *)
Fixpoint plain_spaces (s : string) : bool :=
  match s with
  | EmptyString => true
  | String c s' => (negb (is_space c) || (c =? " ")%char) && plain_spaces s'
  end.

(** [s.replace(/[abc]/g, to)] for a class of single characters. *)
Fixpoint replace_each (from : list ascii) (to : ascii) (s : string) : string :=
  match s with
  | EmptyString => EmptyString
  | String c s' =>
      String (if existsb (Ascii.eqb c) from then to else c)
             (replace_each from to s')
  end.

(** [s.replace(/\n\s*\n\s*\n/g, '\n\n')].  A match starts at a line feed
    and, the quantifiers being greedy, runs to the last line feed of the
    white space that follows; it exists when that white space holds three
    line feeds or more, counting the first.  [blank_lines] rewrites one
    maximal run of white space. *)
Fixpoint count_char (c : ascii) (s : string) : nat :=
  match s with
  | EmptyString => 0
  | String d s' => (if (d =? c)%char then 1 else 0) + count_char c s'
  end.

Fixpoint after_last (c : ascii) (s : string) : string :=
  match s with
  | EmptyString => EmptyString
  | String d s' => if has_char c s' then after_last c s' else s'
  end.

Fixpoint blank_lines (run : string) : string :=
  match run with
  | EmptyString => EmptyString
  | String c run' =>
      if (c =? newline)%char then
        if (3 <=? count_char newline run)%nat
        then String newline (String newline (after_last newline run))
        else run
      else String c (blank_lines run')
  end.

Fixpoint collapse_blank_lines_from (run s : string) : string :=
  match s with
  | EmptyString => blank_lines run
  | String c s' =>
      if is_space c
      then collapse_blank_lines_from (run ++ String c EmptyString) s'
      else blank_lines run ++ String c (collapse_blank_lines_from EmptyString s')
  end.

Definition collapse_blank_lines (s : string) : string :=
  collapse_blank_lines_from EmptyString s.

(** [s.replace(/\s+([.,;:!?])/g, '$1')]: a run of white space is dropped
    when one of the six marks follows it. *)
Definition is_mark (c : ascii) : bool :=
  existsb (Ascii.eqb c) ["."; ","; ";"; ":"; "!"; "?"]%char.

Fixpoint close_up_marks_from (run s : string) : string :=
  match s with
  | EmptyString => run
  | String c s' =>
      if is_space c then close_up_marks_from (run ++ String c EmptyString) s'
      else if is_mark c then String c (close_up_marks_from EmptyString s')
      else run ++ String c (close_up_marks_from EmptyString s')
  end.

Definition close_up_marks (s : string) : string :=
  close_up_marks_from EmptyString s.

Module PolicyText.

(** [cleanPolicyText] of the scraper. *)
Definition cleanPolicyText (text : string) : string :=
  let text := collapse_spaces false text in
  let text := collapse_blank_lines text in
  let text := close_up_marks text in
  let text := replace_each ["034"%char] "034"%char text in
  let text := replace_each ["'"%char] "'"%char text in
  substring 0 (Z.to_nat 50000) (trim text).

End PolicyText.

(** * The service worker: fetching the policy *)

(** [s.substring(n)]. *)
Fixpoint drop (n : nat) (s : string) : string :=
  match n, s with
  | O, _ => s
  | S n', String _ s' => drop n' s'
  | S _, EmptyString => EmptyString
  end.

(** The offset of the first [c] in [s]. *)
Fixpoint offset_of_char (c : ascii) (s : string) : option nat :=
  match s with
  | EmptyString => None
  | String d s' =>
      if (d =? c)%char then Some O
      else option_map S (offset_of_char c s')
  end.

(** The offset of the first place where [s] continues with [p], letter
    case ignored. *)
Fixpoint offset_of_i (p s : string) : option nat :=
  if test_prefix_i p s then Some O
  else match s with
       | EmptyString => None
       | String _ s' => option_map S (offset_of_i p s')
       end.

(** The length of the match of [/<tag[^>]*>.*?<\/tag>/is] at the start of
    [s]: the opening runs to the first [>], the body to the first closing
    tag after it. *)
Definition block_length (opening closing s : string) : option nat :=
  if test_prefix_i opening s then
    match offset_of_char ">" (drop (String.length opening) s) with
    | Some j =>
        let head := (String.length opening + j + 1)%nat in
        match offset_of_i closing (drop head s) with
        | Some k => Some (head + k + String.length closing)%nat
        | None => None
        end
    | None => None
    end
  else None.

(** [s.replace(/<tag[^>]*>.*?<\/tag>/gis, '')]; [skip] counts the
    characters of a match still to be passed. *)
Fixpoint strip_blocks_from (opening closing : string) (skip : nat)
    (s : string) : string :=
  match s with
  | EmptyString => EmptyString
  | String c s' =>
      match skip with
      | S n => strip_blocks_from opening closing n s'
      | O =>
          match block_length opening closing s with
          | Some (S n) => strip_blocks_from opening closing n s'
          | _ => String c (strip_blocks_from opening closing O s')
          end
      end
  end.

Definition strip_blocks (opening closing s : string) : string :=
  strip_blocks_from opening closing O s.

(** [s.replace(/<[^>]*>/g, ' ')]: from a [<] to the first [>] after it. *)
Fixpoint replace_tags_from (inside : bool) (s : string) : string :=
  match s with
  | EmptyString => EmptyString
  | String c s' =>
      if inside then
        if (c =? ">")%char then String " "%char (replace_tags_from false s')
        else replace_tags_from true s'
      else if (c =? "<")%char && has_char ">" s'
           then replace_tags_from true s'
           else String c (replace_tags_from false s')
  end.

Definition replace_tags (s : string) : string := replace_tags_from false s.

(** Whether a [<] is followed, anywhere later, by a [>]. *)
Fixpoint has_tag (s : string) : bool :=
  match s with
  | EmptyString => false
  | String c s' => ((c =? "<")%char && has_char ">" s') || has_tag s'
  end.

Module PolicyFetch.

(** What the worker reads of the response of [fetch]. *)
Record Response : Type := mkResponse {
  ok : bool;
  status : Z;
  text : Result string
}.

Section Network.

Variable fetch : string -> Result Response.

Definition fetchPrivacyPolicyContent (url : string) : Result string :=
  response <- fetch url ;;
  if negb (ok response) then Throw ("HTTP " ++ string_of_Z (status response))
  else
    html <- text response ;;
    let cleanHtml := strip_blocks "<script" "</script>" html in
    let cleanHtml := strip_blocks "<style" "</style>" cleanHtml in
    let cleanHtml := replace_tags cleanHtml in
    let cleanHtml := collapse_spaces false cleanHtml in
    Ok (trim cleanHtml).

End Network.

End PolicyFetch.

(** A server that answers with one page. *)
Definition sample_page : string :=
  "<html><head><STYLE>p { color: red }</STYLE></head><body><p>We use  cookies.</p><script>track()</script></body></html>".

Definition one_page : string -> Result PolicyFetch.Response :=
  fun _ => Ok (PolicyFetch.mkResponse true 200 (Ok sample_page)).

(** * The cookie extractor: the expiry of a cookie *)

Module Expiry.

Definition DAY : Z := 1000 * 60 * 60 * 24.

(** The largest time value of a [Date]. *)
Definition MAX_TIME : Z := 8640000000000000.

(** [formatExpiration], [now] being the reading of [new Date()], a
    number of milliseconds that is not negative, and [expirationDate] a
    whole number of seconds, missing or zero when the cookie ends with
    the session.  On whole numbers in this range the divisions of the
    source are those of the integers, rounded up.  A date outside the
    range of [Date] is invalid: its difference to [now] is NaN, no
    comparison holds and the last template prints NaN. *)
Definition formatExpiration (now : Z) (expirationDate : option Z) : string :=
  match expirationDate with
  | None => "Session"
  | Some seconds =>
      if seconds =? 0 then "Session"
      else if MAX_TIME <? Z.abs (seconds * 1000) then "NaN years"
      else
        let diffTime := seconds * 1000 - now in
        if diffTime <=? 0 then "Expired"
        else
          let diffDays := ceil_div diffTime DAY in
          if diffDays =? 1 then "1 day"
          else if diffDays <? 30 then string_of_Z diffDays ++ " days"
          else if diffDays <? 365
               then string_of_Z (ceil_div diffDays 30) ++ " months"
               else string_of_Z (ceil_div diffDays 365) ++ " years"
  end.

End Expiry.

(** * Properties: the fallback generator and the validator *)

Lemma bind_Ok {A B : Type} (m : Result A) (k : A -> Result B) (b : B) :
  bind m k = Ok b -> exists a, m = Ok a /\ k a = Ok b.
Proof.
  destruct m as [a | e]; simpl; intro H.
  - exists a. split; [reflexivity | exact H].
  - discriminate H.
Qed.

Lemma js_get_Ok (v : JsValue) (k : string) (x : JsValue) :
  js_get v k = Ok x -> js_nullish v = false /\ x = own v k.
Proof.
  unfold js_get. destruct (js_nullish v); intro H.
  - discriminate H.
  - inversion H. split; reflexivity.
Qed.

Lemma js_get_object (v : JsValue) (k : string) :
  js_nullish v = false -> js_get v k = Ok (own v k).
Proof. unfold js_get. intros ->. reflexivity. Qed.

(** The RISK_SCORER fallback, as a function of its two tests. *)
Lemma riskFallback_value (d : PT.InputData) :
  PT.generateFallbackResponse "RISK_SCORER" (Some d) =
  Ok (JObj
    [("risk_score",
      JNum (50
            + (if js_gt (js_optget (PT.cookies d) "third_party") 5 then 20 else 0)
            + (if js_is_string (js_optget (PT.deletion d) "can_delete") "no"
               then 15 else 0)));
     ("verdict",
      JStr (if js_gt (js_optget (PT.cookies d) "third_party") 5
            then "UNSAFE" else "CAUTION"));
     ("reasons", JArr [JStr "AI analysis unavailable"; JStr "Manual review recommended"]);
     ("actions", JArr [JStr "Review privacy policy manually";
                       JStr "Contact site for data practices"])]).
Proof.
  unfold PT.generateFallbackResponse. simpl.
  destruct (js_gt _ 5); destruct (js_is_string _ "no"); reflexivity.
Qed.

(** C9. For every input the RISK_SCORER fallback returns a risk score
    that is 50, plus 20 when more than five third-party cookies are
    reported, plus 15 when deletion is reported impossible; the score lies
    in [50, 85] and the verdict is never SAFE. *)
Theorem riskFallback_score_range : forall d : PT.InputData,
  exists (n : Z) (verdict : string) (rest : list (string * JsValue)),
    PT.generateFallbackResponse "RISK_SCORER" (Some d)
    = Ok (JObj (("risk_score", JNum n) :: ("verdict", JStr verdict) :: rest))
    /\ n = 50
           + (if js_gt (js_optget (PT.cookies d) "third_party") 5 then 20 else 0)
           + (if js_is_string (js_optget (PT.deletion d) "can_delete") "no"
              then 15 else 0)
    /\ 50 <= n <= 85
    /\ verdict <> "SAFE".
Proof.
  intro d. rewrite riskFallback_value.
  do 3 eexists. split; [reflexivity |]. split; [reflexivity |].
  destruct (js_gt _ 5); destruct (js_is_string _ "no");
    (split; [lia | discriminate]).
Qed.


Lemma step_names_cases (templateName : string) :
  In templateName step_names ->
  templateName = "SUMMARIZER" \/ templateName = "COOKIE_ANALYZER"
  \/ templateName = "DELETION_ANALYZER" \/ templateName = "RISK_SCORER".
Proof.
  simpl. intros [H | [H | [H | [H | []]]]]; subst; auto.
Qed.

(** Each fallback, with the value [validateResponse] computes on it. *)
Lemma fallback_accepted (templateName : string) (d : PT.InputData) :
  In templateName step_names ->
  exists r, PT.generateFallbackResponse templateName (Some d) = Ok r
            /\ json_data r = true
            /\ PT.validateParsed templateName r = Ok (JBool true).
Proof.
  intro H. apply step_names_cases in H.
  destruct H as [-> | [-> | [-> | ->]]].
  - eexists. split; [reflexivity |]. split; reflexivity.
  - eexists. split; [reflexivity |]. split; reflexivity.
  - eexists. split; [reflexivity |]. split; reflexivity.
  - rewrite riskFallback_value. eexists. split; [reflexivity |].
    split; [reflexivity |].
    destruct (js_gt _ 5); reflexivity.
Qed.






(** * Properties: confidence *)

Lemma confidence_of_range (b1 b2 b3 b4 : bool) :
  (0.5 <= confidence_of b1 b2 b3 b4)%Q /\ (confidence_of b1 b2 b3 b4 <= 1.0)%Q.
Proof.
  destruct b1, b2, b3, b4; split; vm_compute; intro H; discriminate H.
Qed.


Lemma calculateConfidence_Ok (data : AIClient.Combined) (c : Q) :
  AIClient.calculateConfidence data = Ok c ->
  c = confidence_of
        (js_truthy (own (AIClient.summarizer data) "summary")
         && js_gt (own (own (AIClient.summarizer data) "summary") "length") 50)
        (js_gt (js_add (own (AIClient.cookies data) "first_party")
                       (own (AIClient.cookies data) "third_party")) 0)
        (negb (js_is_string (own (AIClient.deletion data) "can_delete") "unknown"))
        (js_truthy (own (AIClient.risk data) "reasons")
         && js_gt (own (own (AIClient.risk data) "reasons") "length") 1).
Proof.
  unfold AIClient.calculateConfidence. intro H.
  apply bind_Ok in H. destruct H as (summary & H1 & H).
  apply bind_Ok in H. destruct H as (fp & H2 & H).
  apply bind_Ok in H. destruct H as (tp & H3 & H).
  apply bind_Ok in H. destruct H as (cd & H4 & H).
  apply bind_Ok in H. destruct H as (reasons & H5 & H).
  apply js_get_Ok in H1. destruct H1 as (_ & ->).
  apply js_get_Ok in H2. destruct H2 as (_ & ->).
  apply js_get_Ok in H3. destruct H3 as (_ & ->).
  apply js_get_Ok in H4. destruct H4 as (_ & ->).
  apply js_get_Ok in H5. destruct H5 as (_ & ->).
  inversion H. reflexivity.
Qed.

Lemma calculateConfidence_total (data : AIClient.Combined) :
  js_nullish (AIClient.summarizer data) = false ->
  js_nullish (AIClient.cookies data) = false ->
  js_nullish (AIClient.deletion data) = false ->
  js_nullish (AIClient.risk data) = false ->
  exists c, AIClient.calculateConfidence data = Ok c.
Proof.
  intros H1 H2 H3 H4. unfold AIClient.calculateConfidence.
  rewrite (js_get_object _ _ H1). simpl.
  rewrite !(js_get_object _ _ H2). simpl.
  rewrite (js_get_object _ _ H3). simpl.
  rewrite (js_get_object _ _ H4). simpl.
  eexists. reflexivity.
Qed.

(** What [combineAnalysisResults] copies into the report. *)
Lemma combine_fields (data : AIClient.Combined) (r : Report.Report) :
  AIClient.combineAnalysisResults data = Ok r ->
  Report.risk_score r = own (AIClient.risk data) "risk_score"
  /\ Report.verdict r = own (AIClient.risk data) "verdict"
  /\ Report.reasons r = own (AIClient.risk data) "reasons"
  /\ AIClient.calculateConfidence data = Ok (Report.confidence r).
Proof.
  unfold AIClient.combineAnalysisResults. intro H.
  apply bind_Ok in H. destruct H as (categories & _ & H).
  apply bind_Ok in H. destruct H as (cookieSummary & _ & H).
  apply bind_Ok in H. destruct H as (summary & _ & H).
  apply bind_Ok in H. destruct H as (data_use & _ & H).
  apply bind_Ok in H. destruct H as (can_delete & _ & H).
  apply bind_Ok in H. destruct H as (risk_score & Hs & H).
  apply bind_Ok in H. destruct H as (confidence & Hc & H).
  apply js_get_Ok in Hs. destruct Hs as (_ & ->).
  inversion H. simpl. repeat split; try reflexivity. exact Hc.
Qed.

(** C8. The confidence computed from four step results, none of them
    null or undefined, is returned; it is the base 0.5 plus some of the
    bonuses 0.2, 0.1, 0.1 and 0.1, clamped at 1.0, and lies in
    [0.5, 1.0].  Every report that [combineAnalysisResults] returns
    carries a confidence in that range, so never one below 0.5. *)
Theorem calculateConfidence_range : forall data : AIClient.Combined,
  (js_nullish (AIClient.summarizer data) = false ->
   js_nullish (AIClient.cookies data) = false ->
   js_nullish (AIClient.deletion data) = false ->
   js_nullish (AIClient.risk data) = false ->
   exists c, AIClient.calculateConfidence data = Ok c
             /\ (exists b1 b2 b3 b4, c = confidence_of b1 b2 b3 b4)
             /\ (0.5 <= c)%Q /\ (c <= 1.0)%Q)
  /\ (forall r, AIClient.combineAnalysisResults data = Ok r ->
                (0.5 <= Report.confidence r)%Q
                /\ (Report.confidence r <= 1.0)%Q).
Proof.
  intro data. split.
  - intros H1 H2 H3 H4.
    destruct (calculateConfidence_total data H1 H2 H3 H4) as (c & Hc).
    exists c. split; [exact Hc |].
    rewrite (calculateConfidence_Ok data c Hc).
    split; [do 4 eexists; reflexivity | apply confidence_of_range].
  - intros r Hr. apply combine_fields in Hr.
    destruct Hr as (_ & _ & _ & Hc).
    rewrite (calculateConfidence_Ok data _ Hc). apply confidence_of_range.
Qed.

Lemma calculateConfidence_range_witness :
  exists c, AIClient.calculateConfidence fallback_results = Ok c
            /\ (exists b1 b2 b3 b4, c = confidence_of b1 b2 b3 b4)
            /\ (0.5 <= c)%Q /\ (c <= 1.0)%Q.
Proof.
  apply (proj1 (calculateConfidence_range fallback_results)); reflexivity.
Defined.

(** * Properties: the steps and the merge *)

Lemma parsed_or_fallback_cases (JSON_parse : string -> option JsValue)
    (templateName : string) (response : Result string)
    (fallback : Result JsValue) (r : JsValue) :
  AIClient.parsed_or_fallback JSON_parse templateName response fallback = Ok r ->
  fallback = Ok r
  \/ exists text, response = Ok text /\ JSON_parse text = Some r
                  /\ accepted templateName r.
Proof.
  unfold AIClient.parsed_or_fallback, PT.validateResponse.
  destruct response as [text | e]; [| auto].
  destruct (JSON_parse text) as [parsed |] eqn:Hp.
  - destruct (PT.validateParsed templateName parsed) as [v | e] eqn:Hv.
    + destruct (js_truthy v) eqn:Ht; [| auto].
      intro H. inversion H; subst. right. exists text.
      split; [reflexivity |]. split; [exact Hp |].
      exists v. split; assumption.
    + simpl. auto.
  - simpl. auto.
Qed.

Lemma runRiskAssessment_cases
    (JSON_parse : string -> option JsValue)
    (TEMPLATE_TEXT : string -> string)
    (substitute : string -> list (string * JsValue) -> string)
    (callAIPrompt : string -> AIClient.AIOptions -> Result string)
    (combinedData : AIClient.RiskInput) (r : JsValue) :
  AIClient.runRiskAssessment JSON_parse TEMPLATE_TEXT substitute callAIPrompt
    combinedData = Ok r ->
  fallback_risk_result r \/ ai_risk_result JSON_parse callAIPrompt r.
Proof.
  unfold AIClient.runRiskAssessment. intro H.
  apply bind_Ok in H. destruct H as (p & _ & H).
  apply parsed_or_fallback_cases in H.
  destruct H as [H | (text & Hc & Hp & Ha)].
  - left. eexists. exact H.
  - right. do 3 eexists. split; [exact Hc |]. split; assumption.
Qed.

(** Every report of the AI client is the complete fallback, or carries
    the score and the verdict of its risk result. *)
Lemma analyze_cases
    (JSON_parse : string -> option JsValue)
    (TEMPLATE_TEXT : string -> string)
    (substitute : string -> list (string * JsValue) -> string)
    (callAISummarizer : string -> Result string)
    (callAIPrompt : string -> AIClient.AIOptions -> Result string)
    (Date_now : Z) (analysisData : AD.AnalysisData) :
  let report :=
    AIClient.analyzePrivacyPolicy JSON_parse TEMPLATE_TEXT substitute
      callAISummarizer callAIPrompt Date_now analysisData in
  report = AIClient.generateFallbackAnalysis Date_now analysisData
  \/ exists risk,
       (fallback_risk_result risk \/ ai_risk_result JSON_parse callAIPrompt risk)
       /\ Report.risk_score report = own risk "risk_score"
       /\ Report.verdict report = own risk "verdict".
Proof.
  unfold AIClient.analyzePrivacyPolicy.
  destruct (AIClient.pipeline _ _ _ _ _ _ _) as [finalResult | e] eqn:H;
    [| left; reflexivity].
  right. unfold AIClient.pipeline in H.
  apply bind_Ok in H. destruct H as (summarizerResult & _ & H).
  apply bind_Ok in H. destruct H as (cookieResult & _ & H).
  apply bind_Ok in H. destruct H as (deletionResult & _ & H).
  apply bind_Ok in H. destruct H as (riskResult & Hr & H).
  apply runRiskAssessment_cases in Hr.
  apply combine_fields in H. simpl in H. destruct H as (Hs & Hv & _).
  exists riskResult. split; [exact Hr |]. split; assumption.
Qed.

(** The cookie step always returns, and its two counts are numbers:
    checked with [typeof] on an answer of the assistant, computed by the
    fallback.  These are the operands of the numeric comparisons of the
    risk fallback and of the confidence. *)
Lemma runCookieAnalysis_numeric
    (JSON_parse : string -> option JsValue)
    (TEMPLATE_TEXT : string -> string)
    (substitute : string -> list (string * JsValue) -> string)
    (callAIPrompt : string -> AIClient.AIOptions -> Result string)
    (cookieData : option AD.CookieInfo) :
  exists r,
    AIClient.runCookieAnalysis JSON_parse TEMPLATE_TEXT substitute callAIPrompt
      cookieData = Ok r
    /\ js_typeof (own r "first_party") = "number"
    /\ js_typeof (own r "third_party") = "number".
Proof.
  destruct (AIClient.runCookieAnalysis JSON_parse TEMPLATE_TEXT substitute
              callAIPrompt cookieData) as [r | e] eqn:H.
  - exists r. split; [reflexivity |].
    unfold AIClient.runCookieAnalysis in H.
    apply bind_Ok in H. destruct H as (p & _ & H).
    apply parsed_or_fallback_cases in H.
    destruct H as [H | (text & _ & _ & (v & Hv & Ht))].
    + inversion H. split; reflexivity.
    + unfold PT.validateParsed in Hv. simpl in Hv.
      apply bind_Ok in Hv. destruct Hv as (fp & Hf & Hv).
      apply js_get_Ok in Hf. destruct Hf as (Hn & ->).
      destruct (js_typeof (own r "first_party") =? "number")%string eqn:E1.
      * apply bind_Ok in Hv. destruct Hv as (tp & Hp & Hv).
        apply js_get_Ok in Hp. destruct Hp as (_ & ->).
        inversion Hv; subst v. simpl in Ht.
        apply String.eqb_eq in E1. apply String.eqb_eq in Ht. split; assumption.
      * inversion Hv; subst v. discriminate Ht.
  - exfalso. unfold AIClient.runCookieAnalysis in H. simpl bind in H.
    unfold AIClient.parsed_or_fallback in H.
    destruct (callAIPrompt _ _) as [text | e'].
    + destruct (js_truthy _); [destruct (JSON_parse text) |]; discriminate H.
    + discriminate H.
Qed.

Lemma accepted_risk_iff (parsed : JsValue) :
  accepted "RISK_SCORER" parsed <->
  js_nullish parsed = false
  /\ js_typeof (own parsed "risk_score") = "number"
  /\ includes_literal ["SAFE"; "CAUTION"; "UNSAFE"] (own parsed "verdict") = true
  /\ Array_isArray (own parsed "reasons") = true.
Proof.
  unfold accepted.
  change (PT.validateParsed "RISK_SCORER" parsed) with
    (risk_score <- js_get parsed "risk_score" ;;
     if (js_typeof risk_score =? "number")%string then
       verdict <- js_get parsed "verdict" ;;
       if includes_literal ["SAFE"; "CAUTION"; "UNSAFE"] verdict then
         reasons <- js_get parsed "reasons" ;;
         Ok (JBool (Array_isArray reasons))
       else Ok (JBool false)
     else Ok (JBool false)).
  unfold js_get.
  destruct (js_nullish parsed).
  - split.
    + intros (v & H & _). discriminate H.
    + intros (H & _). discriminate H.
  - cbn [bind].
    destruct (js_typeof (own parsed "risk_score") =? "number")%string eqn:E1.
    + apply String.eqb_eq in E1.
      destruct (includes_literal ["SAFE"; "CAUTION"; "UNSAFE"]
                  (own parsed "verdict")) eqn:E2.
      * split.
        -- intros (v & H & Ht). inversion H; subst. simpl in Ht. auto.
        -- intros (_ & _ & _ & H). exists (JBool true). rewrite H. auto.
      * split.
        -- intros (v & H & Ht). inversion H; subst. discriminate Ht.
        -- intros (_ & _ & H & _). discriminate H.
    + split.
      * intros (v & H & Ht). inversion H; subst. discriminate Ht.
      * intros (_ & H & _). apply String.eqb_neq in E1. contradiction.
Qed.

(** * Properties: risk score and verdict *)

Ltac thresholds :=
  unfold verdict_consistent, PT.VERDICT_SAFE_max, PT.VERDICT_CAUTION_min,
    PT.VERDICT_CAUTION_max, PT.VERDICT_UNSAFE_min;
  repeat split; intro; first [reflexivity | exfalso; lia].

Lemma complete_fallback_values (Date_now : Z) (analysisData : AD.AnalysisData) :
  exists n v,
    Report.risk_score (AIClient.generateFallbackAnalysis Date_now analysisData)
    = JNum n
    /\ Report.verdict (AIClient.generateFallbackAnalysis Date_now analysisData)
       = JStr v
    /\ 30 <= n <= 100
    /\ verdict_consistent n v.
Proof.
  unfold AIClient.generateFallbackAnalysis. simpl.
  generalize (or_zero match AD.cookies analysisData with
                      | Some c => AD.thirdPartyCookies c | None => None end).
  intro t.
  destruct (Z.ltb_spec 5 t); destruct (Z.ltb_spec 10 t); try lia;
    destruct (text_missing _);
    do 2 eexists; (split; [reflexivity |]); (split; [reflexivity |]);
    (split; [simpl; lia | simpl; thresholds]).
Qed.

Lemma service_worker_values (Date_now : Z) (analysisData : AD.AnalysisData) :
  exists n v,
    Report.risk_score (ServiceWorker.analyzePrivacyPolicy Date_now analysisData)
    = JNum n
    /\ Report.verdict (ServiceWorker.analyzePrivacyPolicy Date_now analysisData)
       = JStr v
    /\ 30 <= n <= 100
    /\ verdict_consistent n v.
Proof.
  unfold ServiceWorker.analyzePrivacyPolicy. simpl.
  generalize (or_zero match AD.cookies analysisData with
                      | Some c => AD.thirdPartyCookies c | None => None end).
  intro t.
  match goal with
  | |- context [negb ?b] => generalize b
  end.
  intro has.
  destruct (Z.ltb_spec 5 t); destruct (Z.ltb_spec 10 t); try lia;
    destruct has; destruct (text_short _);
    do 2 eexists; (split; [reflexivity |]); (split; [reflexivity |]);
    (split; [simpl; lia | simpl; thresholds]).
Qed.

Lemma step_fallback_values (d : PT.InputData) :
  exists n v rest,
    PT.generateFallbackResponse "RISK_SCORER" (Some d)
    = Ok (JObj (("risk_score", JNum n) :: ("verdict", JStr v) :: rest))
    /\ 50 <= n <= 85
    /\ (n <> 70 -> verdict_consistent n v).
Proof.
  rewrite riskFallback_value.
  destruct (js_gt _ 5); destruct (js_is_string _ "no");
    do 3 eexists; (split; [reflexivity |]); (split; [simpl; lia |]);
    simpl; intro Hn; first [thresholds | exfalso; apply Hn; reflexivity].
Qed.

Lemma fallback_risk_fields (risk : JsValue) :
  fallback_risk_result risk ->
  exists n v, own risk "risk_score" = JNum n /\ own risk "verdict" = JStr v
              /\ 50 <= n <= 85 /\ (n <> 70 -> verdict_consistent n v).
Proof.
  intros (d & Hd).
  destruct (step_fallback_values d) as (n & v & rest & E & Hr & Hc).
  rewrite E in Hd. inversion Hd; subst.
  exists n, v. split; [reflexivity |]. split; [reflexivity |].
  split; [lia | exact Hc].
Qed.

(** C1, as amended.  The verdict agrees with the score under the
    thresholds in every report of the complete fallback of the AI client
    and of the service worker's heuristic.  The step fallback of the risk
    scorer agrees whenever its score is not 70.  A risk result of the
    assistant is accepted exactly when it is an object with a numeric
    score, a verdict among SAFE, CAUTION and UNSAFE and an array of
    reasons: score and verdict are not compared.  So every report of the
    AI client either carries score and verdict of an accepted answer, or
    has a score and a verdict that agree unless the score is 70. *)
Theorem verdict_consistency_by_path :
  (forall Date_now analysisData,
     report_consistent (AIClient.generateFallbackAnalysis Date_now analysisData))
  /\ (forall Date_now analysisData,
        report_consistent (ServiceWorker.analyzePrivacyPolicy Date_now analysisData))
  /\ (forall d, exists n v rest,
        PT.generateFallbackResponse "RISK_SCORER" (Some d)
        = Ok (JObj (("risk_score", JNum n) :: ("verdict", JStr v) :: rest))
        /\ (n <> 70 -> verdict_consistent n v))
  /\ (forall parsed,
        accepted "RISK_SCORER" parsed <->
        js_nullish parsed = false
        /\ js_typeof (own parsed "risk_score") = "number"
        /\ includes_literal ["SAFE"; "CAUTION"; "UNSAFE"] (own parsed "verdict")
           = true
        /\ Array_isArray (own parsed "reasons") = true)
  /\ (forall JSON_parse TEMPLATE_TEXT substitute callAISummarizer callAIPrompt
             Date_now analysisData,
        let report :=
          AIClient.analyzePrivacyPolicy JSON_parse TEMPLATE_TEXT substitute
            callAISummarizer callAIPrompt Date_now analysisData in
        (exists risk,
           ai_risk_result JSON_parse callAIPrompt risk
           /\ Report.risk_score report = own risk "risk_score"
           /\ Report.verdict report = own risk "verdict")
        \/ (exists n v,
              Report.risk_score report = JNum n
              /\ Report.verdict report = JStr v
              /\ (n <> 70 -> verdict_consistent n v))).
Proof.
  split; [| split; [| split; [| split]]].
  - intros Date_now analysisData.
    destruct (complete_fallback_values Date_now analysisData)
      as (n & v & Hn & Hv & _ & Hc).
    exists n, v. auto.
  - intros Date_now analysisData.
    destruct (service_worker_values Date_now analysisData)
      as (n & v & Hn & Hv & _ & Hc).
    exists n, v. auto.
  - intro d. destruct (step_fallback_values d) as (n & v & rest & E & _ & Hc).
    exists n, v, rest. auto.
  - exact accepted_risk_iff.
  - intros JSON_parse TEMPLATE_TEXT substitute callAISummarizer callAIPrompt
           Date_now analysisData report.
    destruct (analyze_cases JSON_parse TEMPLATE_TEXT substitute
                callAISummarizer callAIPrompt Date_now analysisData)
      as [E | (risk & [Hf | Ha] & Hs & Hv)]; fold report in E || fold report in Hs, Hv.
    + right. rewrite E.
      destruct (complete_fallback_values Date_now analysisData)
        as (n & v & Hn & Hv & _ & Hc).
      exists n, v. auto.
    + right. destruct (fallback_risk_fields risk Hf) as (n & v & En & Ev & _ & Hc).
      exists n, v. rewrite Hs, Hv. auto.
    + left. exists risk. auto.
Qed.

Lemma verdict_consistency_by_path_witness :
  exists n v rest,
    PT.generateFallbackResponse "RISK_SCORER" (Some no_input)
    = Ok (JObj (("risk_score", JNum n) :: ("verdict", JStr v) :: rest))
    /\ verdict_consistent n v.
Proof.
  destruct verdict_consistency_by_path as (_ & _ & H & _).
  destruct (H no_input) as (n & v & rest & E & Hc).
  exists n, v, rest. split; [exact E |].
  apply Hc. vm_compute in E. inversion E. discriminate.
Defined.

(** C1 fails as stated: the assistant answers the risk prompt with score
    10 and verdict UNSAFE; the answer is accepted and the report carries
    both. *)
Lemma ai_verdict_not_consistent :
  let report :=
    AIClient.analyzePrivacyPolicy (parse_risk 10 "UNSAFE") no_text
      no_substitution unavailable_summarizer (answer_risk 10 "UNSAFE")
      0 sample_request in
  Report.risk_score report = JNum 10
  /\ Report.verdict report = JStr "UNSAFE"
  /\ ~ report_consistent report.
Proof.
  intro report.
  assert (Es : Report.risk_score report = JNum 10) by (vm_compute; reflexivity).
  assert (Ev : Report.verdict report = JStr "UNSAFE") by (vm_compute; reflexivity).
  split; [exact Es |]. split; [exact Ev |].
  unfold report_consistent, consistent_values. rewrite Es, Ev.
  intros (n & v & Hn & Hv & Hsafe & _).
  inversion Hn; subst n. inversion Hv; subst v.
  unfold PT.VERDICT_SAFE_max in Hsafe.
  assert (E : "UNSAFE" = "SAFE") by (apply Hsafe; lia).
  discriminate E.
Qed.

(** The step fallback at its boundary: six third-party cookies and
    deletion possible give score 70 with verdict UNSAFE. *)
Lemma riskFallback_at_boundary :
  PT.generateFallbackResponse "RISK_SCORER"
    (Some (PT.mkInputData None None
             (JObj [("third_party", JNum 6)])
             (JObj [("can_delete", JStr "yes")])))
  = Ok (JObj
      [("risk_score", JNum 70);
       ("verdict", JStr "UNSAFE");
       ("reasons", JArr [JStr "AI analysis unavailable"; JStr "Manual review recommended"]);
       ("actions", JArr [JStr "Review privacy policy manually";
                         JStr "Contact site for data practices"])]).
Proof. reflexivity. Qed.

(** C3, as amended.  The risk score lies in [0, 100] in every report of
    the complete fallback and of the service worker's heuristic, and in
    every result of the risk scorer's step fallback, which the merge
    copies unchanged.  A risk result of the assistant is accepted exactly
    when it is an object with a numeric score, a verdict among the three
    and an array of reasons: the score is not bounded.  So every report of
    the AI client has a score in [0, 100] or carries the score of an
    accepted answer. *)
Theorem risk_score_range_by_path :
  (forall Date_now analysisData,
     report_in_range (AIClient.generateFallbackAnalysis Date_now analysisData))
  /\ (forall Date_now analysisData,
        report_in_range (ServiceWorker.analyzePrivacyPolicy Date_now analysisData))
  /\ (forall risk, fallback_risk_result risk ->
                   score_in_range (own risk "risk_score"))
  /\ (forall data r, AIClient.combineAnalysisResults data = Ok r ->
                     Report.risk_score r = own (AIClient.risk data) "risk_score")
  /\ (forall parsed,
        accepted "RISK_SCORER" parsed <->
        js_nullish parsed = false
        /\ js_typeof (own parsed "risk_score") = "number"
        /\ includes_literal ["SAFE"; "CAUTION"; "UNSAFE"] (own parsed "verdict")
           = true
        /\ Array_isArray (own parsed "reasons") = true)
  /\ (forall JSON_parse TEMPLATE_TEXT substitute callAISummarizer callAIPrompt
             Date_now analysisData,
        let report :=
          AIClient.analyzePrivacyPolicy JSON_parse TEMPLATE_TEXT substitute
            callAISummarizer callAIPrompt Date_now analysisData in
        report_in_range report
        \/ exists risk,
             ai_risk_result JSON_parse callAIPrompt risk
             /\ Report.risk_score report = own risk "risk_score").
Proof.
  assert (Hcomplete : forall Date_now analysisData,
            report_in_range (AIClient.generateFallbackAnalysis Date_now analysisData)).
  { intros Date_now analysisData.
    destruct (complete_fallback_values Date_now analysisData)
      as (n & v & Hn & _ & Hr & _).
    exists n. split; [exact Hn | lia]. }
  assert (Hstep : forall risk, fallback_risk_result risk ->
                               score_in_range (own risk "risk_score")).
  { intros risk Hf.
    destruct (fallback_risk_fields risk Hf) as (n & v & En & _ & Hr & _).
    exists n. split; [exact En | lia]. }
  split; [exact Hcomplete |]. split; [| split; [exact Hstep | split; [| split]]].
  - intros Date_now analysisData.
    destruct (service_worker_values Date_now analysisData)
      as (n & v & Hn & _ & Hr & _).
    exists n. split; [exact Hn | lia].
  - intros data r Hr. apply combine_fields in Hr. tauto.
  - exact accepted_risk_iff.
  - intros JSON_parse TEMPLATE_TEXT substitute callAISummarizer callAIPrompt
           Date_now analysisData report.
    destruct (analyze_cases JSON_parse TEMPLATE_TEXT substitute
                callAISummarizer callAIPrompt Date_now analysisData)
      as [E | (risk & [Hf | Ha] & Hs & _)]; fold report in E || fold report in Hs.
    + left. rewrite E. apply Hcomplete.
    + left. unfold report_in_range. rewrite Hs. apply Hstep. exact Hf.
    + right. exists risk. auto.
Qed.

Lemma risk_score_range_by_path_witness :
  score_in_range (own (fallback_of "RISK_SCORER" no_input) "risk_score").
Proof.
  destruct risk_score_range_by_path as (_ & _ & H & _).
  apply H. exists no_input. reflexivity.
Defined.

(** C3 fails as stated: the assistant answers the risk prompt with score
    150; the answer is accepted and the report carries the score. *)
Lemma ai_score_out_of_range :
  let report :=
    AIClient.analyzePrivacyPolicy (parse_risk 150 "UNSAFE") no_text
      no_substitution unavailable_summarizer (answer_risk 150 "UNSAFE")
      0 sample_request in
  Report.risk_score report = JNum 150
  /\ ~ report_in_range report.
Proof.
  intro report.
  assert (Es : Report.risk_score report = JNum 150) by (vm_compute; reflexivity).
  split; [exact Es |].
  unfold report_in_range, score_in_range. rewrite Es.
  intros (n & Hn & Hr). inversion Hn; subst n. lia.
Qed.

(** * Properties: a request without signals *)









(** * Properties: third-party cookies *)

Lemma prefix_occurs (t s : string) :
  prefix t s = true <-> exists b, s = t ++ b.
Proof.
  revert s. induction t as [| c t IH]; intro s.
  - split; intro H.
    + exists s. reflexivity.
    + destruct s; reflexivity.
  - destruct s as [| c' s].
    + split; intro H; [discriminate H |].
      destruct H as (b & H). discriminate H.
    + simpl. destruct (Ascii.ascii_dec c c') as [-> | Hne].
      * rewrite IH. split; intros (b & H); exists b.
        -- rewrite H. reflexivity.
        -- inversion H. reflexivity.
      * split; intro H; [discriminate H |].
        destruct H as (b & H). inversion H. congruence.
Qed.

Lemma includes_unfold (s t : string) :
  includes s t
  = if prefix t s then true
    else match s with
         | EmptyString => false
         | String _ s' => includes s' t
         end.
Proof. destruct s; reflexivity. Qed.

Lemma includes_occurs (s t : string) :
  includes s t = true <-> occurs_in t s.
Proof.
  split.
  - induction s as [| c s IH]; rewrite includes_unfold.
    + destruct (prefix t "") eqn:E; intro H; [| discriminate H].
      apply prefix_occurs in E. destruct E as (b & E).
      exists "", b. exact E.
    + destruct (prefix t (String c s)) eqn:E; intro H.
      * apply prefix_occurs in E. destruct E as (b & E).
        exists "", b. exact E.
      * destruct (IH H) as (a & b & E').
        exists (String c a), b. rewrite E'. reflexivity.
  - intros (a & b & E). revert s E.
    induction a as [| c a IH]; intros s E; rewrite includes_unfold.
    + assert (P : prefix t s = true) by (apply prefix_occurs; exists b; exact E).
      rewrite P. reflexivity.
    + subst s.
      destruct (prefix t (String c a ++ t ++ b)); [reflexivity |].
      simpl. apply IH. reflexivity.
Qed.

Lemma includes_false (s t : string) :
  includes s t = false <-> ~ occurs_in t s.
Proof.
  rewrite <- includes_occurs. destruct (includes s t); split; intro H;
    try reflexivity; try discriminate; try (intro E; discriminate E).
  exfalso. apply H. reflexivity.
Qed.

Lemma prefix_refl (s : string) : prefix s s = true.
Proof.
  induction s as [| c s IH]; simpl; [reflexivity |].
  destruct (Ascii.ascii_dec c c) as [_ | Hne]; [exact IH | congruence].
Qed.

Lemma includes_self (s : string) : includes s s = true.
Proof. rewrite includes_unfold, prefix_refl. reflexivity. Qed.

(** C5, as amended.  The content script counts a cookie as third-party
    exactly when neither domain, the cookie's without its leading dot,
    occurs in the other.  The cookie-extractor utility marks a cookie of
    the Chrome API third-party exactly when the page domain does not
    occur in the cookie's domain as written, counts exactly those, and
    never a cookie read from [document.cookie]. *)
Theorem third_party_rules :
  (forall currentDomain domain,
     ContentScript.isThirdParty currentDomain domain = true
     <-> disjoint_domains domain currentDomain)
  /\ (forall currentDomain cookie,
        CookieExtractor.isThirdParty
          (CookieExtractor.chromeCookie currentDomain cookie) = true
        <-> ~ occurs_in currentDomain (CookieExtractor.c_domain cookie))
  /\ (forall currentDomain cookie,
        CookieExtractor.countsAsThirdParty currentDomain
          (CookieExtractor.chromeCookie currentDomain cookie) = true
        <-> ~ occurs_in currentDomain (CookieExtractor.c_domain cookie))
  /\ (forall name value currentDomain,
        CookieExtractor.isThirdParty
          (CookieExtractor.documentCookie name value currentDomain) = false
        /\ CookieExtractor.countsAsThirdParty currentDomain
             (CookieExtractor.documentCookie name value currentDomain) = false).
Proof.
  split; [| split; [| split]].
  - intros currentDomain domain.
    unfold ContentScript.isThirdParty, disjoint_domains.
    rewrite andb_true_iff, !negb_true_iff, !includes_false. reflexivity.
  - intros currentDomain cookie. simpl.
    rewrite negb_true_iff, includes_false. reflexivity.
  - intros currentDomain cookie.
    unfold CookieExtractor.countsAsThirdParty. simpl.
    rewrite orb_diag, negb_true_iff, includes_false. reflexivity.
  - intros name value currentDomain. split; [reflexivity |].
    unfold CookieExtractor.countsAsThirdParty. simpl.
    rewrite includes_self. reflexivity.
Qed.

Lemma third_party_rules_witness :
  ContentScript.isThirdParty "example.com" ".tracker.net" = true
  /\ disjoint_domains ".tracker.net" "example.com".
Proof.
  split; [reflexivity |].
  apply (proj1 third_party_rules "example.com" ".tracker.net").
  reflexivity.
Defined.

(** C5 fails as stated: on the page shop.example.com the utility marks
    the cookie of .example.com third-party, although example.com occurs
    in the page domain. *)
Lemma parent_domain_cookie_marked_third_party :
  CookieExtractor.isThirdParty
    (CookieExtractor.chromeCookie "shop.example.com"
       (CookieExtractor.mkChromeCookie "id" "1" ".example.com" "/"
          false false "Lax" None)) = true
  /\ ~ disjoint_domains ".example.com" "shop.example.com".
Proof.
  split; [reflexivity |].
  intros (H & _). apply H. exists "shop.", "". reflexivity.
Qed.

(** * Properties: link scores *)

Lemma addTerms_hits (bonus : Z) (terms : list string) (text url : string)
    (score : Z) :
  PrivacyScraper.addTerms bonus terms text url score
  = score + bonus * hits terms text url.
Proof.
  unfold PrivacyScraper.addTerms, hits. revert score.
  induction terms as [| term terms IH]; intro score; simpl.
  - lia.
  - rewrite IH. destruct (includes text term || includes url term); simpl length;
      lia.
Qed.

Lemma hits_bounds (terms : list string) (text url : string) :
  0 <= hits terms text url <= Z.of_nat (List.length terms).
Proof.
  unfold hits. split; [lia |].
  apply Nat2Z.inj_le. apply filter_length_le.
Qed.

(** C6, as amended.  The content script's priority is the sum of four
    independent bonuses: 10 for the phrase privacy policy in the text or
    privacy-policy in the URL, 5 for privacy in either, 1 for legal in
    either, 3 for the same host; it lies in [0, 19].  The scraper's
    relevance score adds 10 for each of three high-priority terms, 5 for
    each of three medium ones and 1 for each of legal and terms that
    occurs in the text or the URL, without a host bonus; it lies in
    [0, 47]. *)
Theorem link_scores :
  (forall linkText absoluteUrl linkDomain currentDomain,
     ContentScript.priority linkText absoluteUrl linkDomain currentDomain
     = 10 * Z.b2z (includes linkText "privacy policy"
                   || includes absoluteUrl "privacy-policy")
       + 5 * Z.b2z (includes linkText "privacy" || includes absoluteUrl "privacy")
       + 1 * Z.b2z (includes linkText "legal" || includes absoluteUrl "legal")
       + 3 * Z.b2z (linkDomain =? currentDomain)%string
     /\ 0 <= ContentScript.priority linkText absoluteUrl linkDomain currentDomain
        <= 19)
  /\ (forall text url,
        PrivacyScraper.getPrivacyRelevanceScore text url
        = 10 * hits ["privacy policy"; "privacy-policy"; "data protection"] text url
          + 5 * hits ["privacy"; "cookie"; "data"] text url
          + 1 * hits ["legal"; "terms"] text url
        /\ 0 <= PrivacyScraper.getPrivacyRelevanceScore text url <= 47).
Proof.
  split.
  - intros linkText absoluteUrl linkDomain currentDomain.
    unfold ContentScript.priority.
    destruct (includes linkText "privacy policy"
              || includes absoluteUrl "privacy-policy");
      destruct (includes linkText "privacy" || includes absoluteUrl "privacy");
      destruct (includes linkText "legal" || includes absoluteUrl "legal");
      destruct (linkDomain =? currentDomain)%string;
      simpl; split; lia.
  - intros text url.
    assert (E : PrivacyScraper.getPrivacyRelevanceScore text url
                = 10 * hits ["privacy policy"; "privacy-policy"; "data protection"]
                         text url
                  + 5 * hits ["privacy"; "cookie"; "data"] text url
                  + 1 * hits ["legal"; "terms"] text url).
    { unfold PrivacyScraper.getPrivacyRelevanceScore.
      rewrite !addTerms_hits. lia. }
    split; [exact E |]. rewrite E.
    pose proof (hits_bounds ["privacy policy"; "privacy-policy"; "data protection"]
                  text url) as H1.
    pose proof (hits_bounds ["privacy"; "cookie"; "data"] text url) as H2.
    pose proof (hits_bounds ["legal"; "terms"] text url) as H3.
    simpl List.length in H1, H2, H3. lia.
Qed.

(** C6 fails as stated: a link reading terms of service qualifies, and
    its priority is 0 where the stated sum gives 1 for the term. *)
Lemma terms_link_earns_no_bonus :
  ContentScript.isPrivacyLink "https://other.example/tos" "terms of service"
  = true
  /\ ContentScript.priority "terms of service" "https://other.example/tos"
       "other.example" "example.com" = 0
  /\ stated_priority "terms of service" "https://other.example/tos"
       "other.example" "example.com" = 1
  /\ ContentScript.priority "terms of service" "https://other.example/tos"
       "other.example" "example.com"
     <> stated_priority "terms of service" "https://other.example/tos"
          "other.example" "example.com".
Proof.
  split; [reflexivity |]. split; [reflexivity |]. split; [reflexivity |].
  vm_compute. intro H. discriminate H.
Qed.

(** * Properties: cookie categories *)

Lemma category_names_cases (category : string) :
  In category category_names ->
  category = "essential" \/ category = "analytics" \/ category = "advertising"
  \/ category = "preferences" \/ category = "social" \/ category = "unknown".
Proof.
  simpl. intros [H | [H | [H | [H | [H | [H | []]]]]]]; subst; auto 6.
Qed.

(** The loop over the groups computes the stated category. *)
Lemma firstMatch_categoryOf (cookieName : string) :
  CookieExtractor.firstMatch CookieExtractor.patterns cookieName
  = if (categoryOf cookieName =? "unknown")%string then None
    else Some (categoryOf cookieName).
Proof.
  unfold categoryOf.
  change (CookieExtractor.firstMatch CookieExtractor.patterns cookieName) with
    (if matchesGroup "essential" cookieName then Some "essential"
     else if matchesGroup "analytics" cookieName then Some "analytics"
     else if matchesGroup "advertising" cookieName then Some "advertising"
     else if matchesGroup "preferences" cookieName then Some "preferences"
     else if matchesGroup "social" cookieName then Some "social"
     else None).
  destruct (matchesGroup "essential" cookieName); [reflexivity |].
  destruct (matchesGroup "analytics" cookieName); [reflexivity |].
  destruct (matchesGroup "advertising" cookieName); [reflexivity |].
  destruct (matchesGroup "preferences" cookieName); [reflexivity |].
  destruct (matchesGroup "social" cookieName); reflexivity.
Qed.

Lemma categoryOf_name (cookieName : string) :
  In (categoryOf cookieName) category_names.
Proof.
  unfold categoryOf.
  destruct (matchesGroup "essential" cookieName); [simpl; auto |].
  destruct (matchesGroup "analytics" cookieName); [simpl; auto |].
  destruct (matchesGroup "advertising" cookieName); [simpl; auto |].
  destruct (matchesGroup "preferences" cookieName); [simpl; auto 6 |].
  destruct (matchesGroup "social" cookieName); simpl; auto 7.
Qed.

Lemma categorizeOne_bucket (formatExpiration : option Z -> string)
    (categories : CookieExtractor.Categories)
    (cookie : CookieExtractor.Cookie) (category : string) :
  In category category_names ->
  bucket category
    (CookieExtractor.categorizeOne formatExpiration categories cookie)
  = (bucket category categories
     ++ if (categoryOf (CookieExtractor.name cookie) =? category)%string
        then [CookieExtractor.entry formatExpiration category cookie]
        else [])%list.
Proof.
  intro Hc. unfold CookieExtractor.categorizeOne.
  rewrite firstMatch_categoryOf.
  pose proof (categoryOf_name (CookieExtractor.name cookie)) as Hk.
  apply category_names_cases in Hk. apply category_names_cases in Hc.
  destruct Hk as [-> | [-> | [-> | [-> | [-> | ->]]]]];
    destruct Hc as [-> | [-> | [-> | [-> | [-> | ->]]]]];
    simpl; rewrite ?app_nil_r; reflexivity.
Qed.

(** One cookie goes to the list of its category and to no other; so
    does each cookie of the loop. *)
Lemma fold_bucket (formatExpiration : option Z -> string)
    (cookies : list CookieExtractor.Cookie)
    (categories : CookieExtractor.Categories) (category : string) :
  In category category_names ->
  bucket category
    (fold_left (CookieExtractor.categorizeOne formatExpiration) cookies
               categories)
  = (bucket category categories
     ++ map (CookieExtractor.entry formatExpiration category)
          (filter (fun cookie =>
                     (categoryOf (CookieExtractor.name cookie) =? category)%string)
                  cookies))%list.
Proof.
  intro Hc. revert categories.
  induction cookies as [| cookie cookies IH]; intro categories; simpl.
  - rewrite app_nil_r. reflexivity.
  - rewrite IH, (categorizeOne_bucket _ _ _ _ Hc), <- app_assoc.
    destruct (categoryOf (CookieExtractor.name cookie) =? category)%string;
      reflexivity.
Qed.

Lemma push_total (category : string) (e : CookieExtractor.Entry)
    (c : CookieExtractor.Categories) :
  total (CookieExtractor.push category e c) = S (total c).
Proof.
  unfold CookieExtractor.push, total.
  destruct (category =? "essential")%string;
    [simpl; rewrite length_app; simpl; lia |].
  destruct (category =? "analytics")%string;
    [simpl; rewrite length_app; simpl; lia |].
  destruct (category =? "advertising")%string;
    [simpl; rewrite length_app; simpl; lia |].
  destruct (category =? "preferences")%string;
    [simpl; rewrite length_app; simpl; lia |].
  destruct (category =? "social")%string;
    simpl; rewrite length_app; simpl; lia.
Qed.

Lemma fold_total (formatExpiration : option Z -> string)
    (cookies : list CookieExtractor.Cookie)
    (categories : CookieExtractor.Categories) :
  total (fold_left (CookieExtractor.categorizeOne formatExpiration) cookies
                   categories)
  = (total categories + List.length cookies)%nat.
Proof.
  revert categories.
  induction cookies as [| cookie cookies IH]; intro categories; simpl.
  - lia.
  - rewrite IH. unfold CookieExtractor.categorizeOne.
    destruct (CookieExtractor.firstMatch _ _); rewrite push_total; lia.
Qed.

Lemma categorizeCookies_bucket (formatExpiration : option Z -> string)
    (cookies : list CookieExtractor.Cookie) (category : string) :
  In category category_names ->
  bucket category (CookieExtractor.categorizeCookies formatExpiration cookies)
  = map (CookieExtractor.entry formatExpiration category)
      (filter (fun cookie =>
                 (categoryOf (CookieExtractor.name cookie) =? category)%string)
              cookies).
Proof.
  intro Hc. unfold CookieExtractor.categorizeCookies.
  rewrite (fold_bucket _ _ _ _ Hc).
  apply category_names_cases in Hc.
  destruct Hc as [-> | [-> | [-> | [-> | [-> | ->]]]]]; reflexivity.
Qed.

Lemma categorizeCookies_member (formatExpiration : option Z -> string)
    (cookies : list CookieExtractor.Cookie)
    (cookie : CookieExtractor.Cookie) (category : string) :
  In cookie cookies -> In category category_names ->
  (In (CookieExtractor.entry formatExpiration category cookie)
      (bucket category (CookieExtractor.categorizeCookies formatExpiration cookies))
   <-> category = categoryOf (CookieExtractor.name cookie)).
Proof.
  intros Hcookie Hc.
  rewrite (categorizeCookies_bucket _ _ _ Hc), in_map_iff. split.
  - intros (c' & He & Hf). apply filter_In in Hf. destruct Hf as (_ & Hf).
    apply String.eqb_eq in Hf.
    assert (En : CookieExtractor.name c' = CookieExtractor.name cookie).
    { change (CookieExtractor.e_name
                (CookieExtractor.entry formatExpiration category c')
              = CookieExtractor.e_name
                  (CookieExtractor.entry formatExpiration category cookie)).
      rewrite He. reflexivity. }
    rewrite <- En. symmetry. exact Hf.
  - intro E. exists cookie. split; [reflexivity |].
    apply filter_In. split; [exact Hcookie |].
    apply String.eqb_eq. symmetry. exact E.
Qed.

(** C4. Every cookie is filed once, under exactly one of the six
    categories: the list of a category holds the entries of the cookies
    whose name has that category, in order, and the six lists together
    have as many entries as there are cookies.  The category is the first
    of essential, analytics, advertising, preferences and social one of
    whose expressions matches the name, unknown when none does; a name
    that matches an essential expression is filed as essential whatever
    else it matches. *)
Theorem categorizeCookies_first_match :
  forall (formatExpiration : option Z -> string)
         (cookies : list CookieExtractor.Cookie),
    let result := CookieExtractor.categorizeCookies formatExpiration cookies in
    (forall category, In category category_names ->
       bucket category result
       = map (CookieExtractor.entry formatExpiration category)
           (filter (fun cookie =>
                      (categoryOf (CookieExtractor.name cookie) =? category)%string)
                   cookies))
    /\ total result = List.length cookies
    /\ (forall cookie category,
          In cookie cookies -> In category category_names ->
          (In (CookieExtractor.entry formatExpiration category cookie)
              (bucket category result)
           <-> category = categoryOf (CookieExtractor.name cookie)))
    /\ (forall cookieName,
          In (categoryOf cookieName) category_names
          /\ CookieExtractor.firstMatch CookieExtractor.patterns cookieName
             = if (categoryOf cookieName =? "unknown")%string then None
               else Some (categoryOf cookieName))
    /\ (forall cookie,
          In cookie cookies ->
          matchesGroup "essential" (CookieExtractor.name cookie) = true ->
          In (CookieExtractor.entry formatExpiration "essential" cookie)
             (CookieExtractor.essential result)).
Proof.
  intros formatExpiration cookies result. subst result.
  split; [| split; [| split; [| split]]].
  - intros category Hc. apply categorizeCookies_bucket. exact Hc.
  - unfold CookieExtractor.categorizeCookies. rewrite fold_total. reflexivity.
  - intros cookie category Hcookie Hc.
    apply categorizeCookies_member; assumption.
  - intro cookieName.
    split; [apply categoryOf_name | apply firstMatch_categoryOf].
  - intros cookie Hcookie Hm.
    change (In (CookieExtractor.entry formatExpiration "essential" cookie)
               (bucket "essential"
                  (CookieExtractor.categorizeCookies formatExpiration cookies))).
    apply categorizeCookies_member; [exact Hcookie | simpl; auto |].
    unfold categoryOf. rewrite Hm. reflexivity.
Qed.

Lemma categorizeCookies_first_match_witness :
  In (CookieExtractor.entry (fun _ => "Session") "essential"
        (CookieExtractor.documentCookie "session_id" "1" "example.com"))
     (CookieExtractor.essential
        (CookieExtractor.categorizeCookies (fun _ => "Session") sample_cookies)).
Proof.
  apply (categorizeCookies_first_match (fun _ => "Session") sample_cookies).
  - simpl. left. reflexivity.
  - reflexivity.
Defined.

(** * Further properties: the response validator *)

Lemma accepted_summarizer_iff (parsed : JsValue) :
  accepted "SUMMARIZER" parsed <->
  js_nullish parsed = false
  /\ js_truthy (own parsed "summary") = true
  /\ Array_isArray (own parsed "categories") = true.
Proof.
  unfold accepted.
  change (PT.validateParsed "SUMMARIZER" parsed) with
    (summary <- js_get parsed "summary" ;;
     if js_truthy summary then
       categories <- js_get parsed "categories" ;;
       Ok (JBool (Array_isArray categories))
     else Ok summary).
  unfold js_get. destruct (js_nullish parsed).
  - split.
    + intros (v & H & _). discriminate H.
    + intros (H & _). discriminate H.
  - cbn [bind]. destruct (js_truthy (own parsed "summary")) eqn:E1.
    + split.
      * intros (v & H & Ht). inversion H; subst. simpl in Ht. auto.
      * intros (_ & _ & H). exists (JBool true). rewrite H. auto.
    + split.
      * intros (v & H & Ht). inversion H; subst. congruence.
      * intros (_ & H & _). discriminate H.
Qed.

Lemma accepted_cookie_iff (parsed : JsValue) :
  accepted "COOKIE_ANALYZER" parsed <->
  js_nullish parsed = false
  /\ js_typeof (own parsed "first_party") = "number"
  /\ js_typeof (own parsed "third_party") = "number".
Proof.
  unfold accepted.
  change (PT.validateParsed "COOKIE_ANALYZER" parsed) with
    (first_party <- js_get parsed "first_party" ;;
     if (js_typeof first_party =? "number")%string then
       third_party <- js_get parsed "third_party" ;;
       Ok (JBool (js_typeof third_party =? "number")%string)
     else Ok (JBool false)).
  unfold js_get. destruct (js_nullish parsed).
  - split.
    + intros (v & H & _). discriminate H.
    + intros (H & _). discriminate H.
  - cbn [bind].
    destruct (js_typeof (own parsed "first_party") =? "number")%string eqn:E1.
    + apply String.eqb_eq in E1. split.
      * intros (v & H & Ht). inversion H; subst. simpl in Ht.
        apply String.eqb_eq in Ht. auto.
      * intros (_ & _ & H). exists (JBool true). rewrite H. auto.
    + apply String.eqb_neq in E1. split.
      * intros (v & H & Ht). inversion H; subst. discriminate Ht.
      * intros (_ & H & _). contradiction.
Qed.

Lemma accepted_deletion_iff (parsed : JsValue) :
  accepted "DELETION_ANALYZER" parsed <->
  js_nullish parsed = false
  /\ includes_literal ["yes"; "no"; "partial"; "unknown"]
       (own parsed "can_delete") = true.
Proof.
  unfold accepted.
  change (PT.validateParsed "DELETION_ANALYZER" parsed) with
    (can_delete <- js_get parsed "can_delete" ;;
     Ok (JBool (includes_literal ["yes"; "no"; "partial"; "unknown"] can_delete))).
  unfold js_get. destruct (js_nullish parsed).
  - split.
    + intros (v & H & _). discriminate H.
    + intros (H & _). discriminate H.
  - cbn [bind]. split.
    + intros (v & H & Ht). inversion H; subst. simpl in Ht. auto.
    + intros (_ & H). exists (JBool true). rewrite H. auto.
Qed.

Lemma lookup_remove_same {A : Type} (k : string) (l : list (string * A)) :
  lookup k (remove_key k l) = None.
Proof.
  induction l as [| (k', a) l IH]; simpl; [reflexivity |].
  destruct (k =? k')%string eqn:E; [exact IH |].
  simpl. rewrite E. exact IH.
Qed.

Lemma lookup_remove_other {A : Type} (k k' : string) (l : list (string * A)) :
  k <> k' -> lookup k' (remove_key k l) = lookup k' l.
Proof.
  intro Hne. induction l as [| (k0, a) l IH]; simpl; [reflexivity |].
  destruct (k =? k0)%string eqn:E.
  - apply String.eqb_eq in E. subst k0.
    destruct (k' =? k)%string eqn:E'; [| exact IH].
    apply String.eqb_eq in E'. congruence.
  - simpl. rewrite IH. reflexivity.
Qed.

Lemma own_without_same (k : string) (fields : list (string * JsValue)) :
  own (without_field k (JObj fields)) k = JUndefined.
Proof. simpl. rewrite lookup_remove_same. reflexivity. Qed.

Lemma own_without_other (k k' : string) (fields : list (string * JsValue)) :
  k <> k' ->
  own (without_field k (JObj fields)) k' = own (JObj fields) k'.
Proof. intro H. simpl. rewrite (lookup_remove_other _ _ _ H). reflexivity. Qed.

(** An accepted response is an object. *)
Lemma accepted_object (templateName : string) (parsed : JsValue) :
  In templateName step_names -> accepted templateName parsed ->
  exists fields, parsed = JObj fields.
Proof.
  intros Hn Ha. apply step_names_cases in Hn.
  destruct Hn as [-> | [-> | [-> | ->]]].
  - apply accepted_summarizer_iff in Ha. destruct Ha as (Hn & Hs & _).
    destruct parsed; try discriminate; eauto.
  - apply accepted_cookie_iff in Ha. destruct Ha as (Hn & Hs & _).
    destruct parsed; try discriminate; eauto.
  - apply accepted_deletion_iff in Ha. destruct Ha as (Hn & Hs).
    destruct parsed; try discriminate; eauto.
  - apply accepted_risk_iff in Ha. destruct Ha as (Hn & Hs & _).
    destruct parsed; try discriminate; eauto.
Qed.

(** X1. A response accepted for a step is no longer accepted once any
    one of the step's required fields is removed from it. *)
Theorem required_field_needed :
  forall (templateName : string) (parsed : JsValue) (field : string),
    In templateName step_names ->
    accepted templateName parsed ->
    In field (required_fields templateName) ->
    ~ accepted templateName (without_field field parsed).
Proof.
  intros templateName parsed field Hn Ha Hf.
  destruct (accepted_object _ _ Hn Ha) as (fields & ->).
  apply step_names_cases in Hn.
  destruct Hn as [-> | [-> | [-> | ->]]]; simpl in Hf.
  - rewrite accepted_summarizer_iff.
    destruct Hf as [<- | [<- | []]]; intros (_ & H1 & H2).
    + rewrite own_without_same in H1. discriminate H1.
    + rewrite own_without_same in H2. discriminate H2.
  - rewrite accepted_cookie_iff.
    destruct Hf as [<- | [<- | []]]; intros (_ & H1 & H2).
    + rewrite own_without_same in H1. discriminate H1.
    + rewrite own_without_same in H2. discriminate H2.
  - rewrite accepted_deletion_iff.
    destruct Hf as [<- | []]; intros (_ & H1).
    rewrite own_without_same in H1. discriminate H1.
  - rewrite accepted_risk_iff.
    destruct Hf as [<- | [<- | [<- | []]]]; intros (_ & H1 & H2 & H3).
    + rewrite own_without_same in H1. discriminate H1.
    + rewrite own_without_same in H2. discriminate H2.
    + rewrite own_without_same in H3. discriminate H3.
Qed.

Lemma required_field_needed_witness :
  ~ accepted "RISK_SCORER" (without_field "reasons" (risk_value 65 "CAUTION")).
Proof.
  apply (required_field_needed "RISK_SCORER" (risk_value 65 "CAUTION") "reasons").
  - simpl. auto.
  - exists (JBool true). split; reflexivity.
  - simpl. auto.
Defined.

(** X2. For each of the four steps [validateResponse] returns a falsy
    value, without throwing, on a response that does not parse and on one
    that parses to anything but an object (null, a number, a string, a
    boolean, an array). *)
Theorem validateResponse_rejects_non_objects :
  forall (JSON_parse : string -> option JsValue)
         (templateName response : string),
    In templateName step_names ->
    (JSON_parse response = None
     \/ exists parsed, JSON_parse response = Some parsed
                       /\ forall fields, parsed <> JObj fields) ->
    js_truthy (PT.validateResponse JSON_parse templateName response) = false.
Proof.
  intros JSON_parse templateName response Hn [Hp | (parsed & Hp & Ho)];
    unfold PT.validateResponse; rewrite Hp; [reflexivity |].
  destruct (PT.validateParsed templateName parsed) as [v | e] eqn:Hv;
    [| reflexivity].
  destruct (js_truthy v) eqn:Ht; [| reflexivity].
  exfalso.
  destruct (accepted_object templateName parsed Hn) as (fields & E).
  - exists v. split; assumption.
  - exact (Ho fields E).
Qed.

Lemma validateResponse_rejects_non_objects_witness :
  js_truthy (PT.validateResponse (fun _ => Some JNull) "SUMMARIZER" "null")
  = false.
Proof.
  apply validateResponse_rejects_non_objects.
  - simpl. auto.
  - right. exists JNull. split; [reflexivity |].
    intros fields H. discriminate H.
Defined.

(** * Further properties: the steps and the merge *)

Lemma parsed_or_fallback_result (JSON_parse : string -> option JsValue)
    (templateName : string) (response : Result string) (f : JsValue) :
  exists r,
    AIClient.parsed_or_fallback JSON_parse templateName response (Ok f) = Ok r
    /\ (r = f \/ accepted templateName r).
Proof.
  destruct (AIClient.parsed_or_fallback JSON_parse templateName response (Ok f))
    as [r | e] eqn:H.
  - exists r. split; [reflexivity |].
    apply parsed_or_fallback_cases in H.
    destruct H as [H | (text & _ & _ & Ha)]; [left | right; exact Ha].
    inversion H. reflexivity.
  - exfalso. unfold AIClient.parsed_or_fallback in H.
    destruct response as [text | e']; [| discriminate H].
    destruct (js_truthy _); [destruct (JSON_parse text) |]; discriminate H.
Qed.

Lemma fallback_of_accepted (templateName : string) (d : PT.InputData) :
  In templateName step_names ->
  PT.generateFallbackResponse templateName (Some d)
  = Ok (fallback_of templateName d)
  /\ accepted templateName (fallback_of templateName d).
Proof.
  intro Hn. unfold fallback_of.
  destruct (fallback_accepted templateName d Hn) as (r & -> & _ & Hv).
  split; [reflexivity |]. exists (JBool true). split; [exact Hv | reflexivity].
Qed.

Lemma runSummarizer_accepted
    (JSON_parse : string -> option JsValue)
    (TEMPLATE_TEXT : string -> string)
    (substitute : string -> list (string * JsValue) -> string)
    (callAISummarizer : string -> Result string)
    (policyText : option string) :
  exists r,
    AIClient.runSummarizer JSON_parse TEMPLATE_TEXT substitute callAISummarizer
      policyText = Ok r
    /\ accepted "SUMMARIZER" r.
Proof.
  unfold AIClient.runSummarizer.
  set (d := PT.mkInputData policyText None JUndefined JUndefined).
  destruct (fallback_of_accepted "SUMMARIZER" d) as (E & Ha); [simpl; auto |].
  destruct (text_short policyText).
  - exists (fallback_of "SUMMARIZER" d). split; assumption.
  - simpl bind. rewrite E.
    destruct (parsed_or_fallback_result JSON_parse "SUMMARIZER"
                (callAISummarizer match policyText with
                                  | Some s => s | None => "" end)
                (fallback_of "SUMMARIZER" d)) as (r & Hr & [-> | H]);
      exists r || exists (fallback_of "SUMMARIZER" d); split; assumption.
Qed.

Lemma runCookieAnalysis_accepted
    (JSON_parse : string -> option JsValue)
    (TEMPLATE_TEXT : string -> string)
    (substitute : string -> list (string * JsValue) -> string)
    (callAIPrompt : string -> AIClient.AIOptions -> Result string)
    (cookieData : option AD.CookieInfo) :
  exists r,
    AIClient.runCookieAnalysis JSON_parse TEMPLATE_TEXT substitute callAIPrompt
      cookieData = Ok r
    /\ (r = fallback_of "COOKIE_ANALYZER"
              (PT.mkInputData None (AIClient.fallback_cookieData cookieData)
                              JUndefined JUndefined)
        \/ accepted "COOKIE_ANALYZER" r)
    /\ accepted "COOKIE_ANALYZER" r.
Proof.
  unfold AIClient.runCookieAnalysis.
  set (d := PT.mkInputData None (AIClient.fallback_cookieData cookieData)
                           JUndefined JUndefined).
  destruct (fallback_of_accepted "COOKIE_ANALYZER" d) as (E & Ha);
    [simpl; auto |].
  simpl bind. rewrite E.
  match goal with
  | |- context [AIClient.parsed_or_fallback _ _ ?resp _] =>
      destruct (parsed_or_fallback_result JSON_parse "COOKIE_ANALYZER" resp
                  (fallback_of "COOKIE_ANALYZER" d)) as (r & Hr & Hc)
  end.
  exists r. split; [exact Hr |]. split; [exact Hc |].
  destruct Hc as [-> | H]; assumption.
Qed.

Lemma runDeletionAnalysis_accepted
    (JSON_parse : string -> option JsValue)
    (TEMPLATE_TEXT : string -> string)
    (substitute : string -> list (string * JsValue) -> string)
    (callAIPrompt : string -> AIClient.AIOptions -> Result string)
    (policyText : option string) :
  exists r,
    AIClient.runDeletionAnalysis JSON_parse TEMPLATE_TEXT substitute
      callAIPrompt policyText = Ok r
    /\ accepted "DELETION_ANALYZER" r.
Proof.
  unfold AIClient.runDeletionAnalysis.
  set (d := PT.mkInputData policyText None JUndefined JUndefined).
  destruct (fallback_of_accepted "DELETION_ANALYZER" d) as (E & Ha);
    [simpl; auto |].
  simpl bind. rewrite E.
  match goal with
  | |- context [AIClient.parsed_or_fallback _ _ ?resp _] =>
      destruct (parsed_or_fallback_result JSON_parse "DELETION_ANALYZER" resp
                  (fallback_of "DELETION_ANALYZER" d)) as (r & Hr & Hc)
  end.
  exists r. split; [exact Hr |]. destruct Hc as [-> | H]; assumption.
Qed.

Lemma runRiskAssessment_accepted
    (JSON_parse : string -> option JsValue)
    (TEMPLATE_TEXT : string -> string)
    (substitute : string -> list (string * JsValue) -> string)
    (callAIPrompt : string -> AIClient.AIOptions -> Result string)
    (combinedData : AIClient.RiskInput) :
  exists r,
    AIClient.runRiskAssessment JSON_parse TEMPLATE_TEXT substitute
      callAIPrompt combinedData = Ok r
    /\ accepted "RISK_SCORER" r.
Proof.
  unfold AIClient.runRiskAssessment.
  set (d := PT.mkInputData None None (AIClient.ri_cookies combinedData)
                           (AIClient.ri_deletion combinedData)).
  destruct (fallback_of_accepted "RISK_SCORER" d) as (E & Ha); [simpl; auto |].
  simpl bind. rewrite E.
  match goal with
  | |- context [AIClient.parsed_or_fallback _ _ ?resp _] =>
      destruct (parsed_or_fallback_result JSON_parse "RISK_SCORER" resp
                  (fallback_of "RISK_SCORER" d)) as (r & Hr & Hc)
  end.
  exists r. split; [exact Hr |]. destruct Hc as [-> | H]; assumption.
Qed.

(** X3. Whatever the assistant does (fail, answer with text that does
    not parse, answer with a rejected or an accepted response), each of
    the four steps returns without throwing, and what it returns
    satisfies the schema of its step. *)
Theorem steps_return_accepted_results :
  forall (JSON_parse : string -> option JsValue)
         (TEMPLATE_TEXT : string -> string)
         (substitute : string -> list (string * JsValue) -> string)
         (callAISummarizer : string -> Result string)
         (callAIPrompt : string -> AIClient.AIOptions -> Result string),
    (forall policyText, exists r,
        AIClient.runSummarizer JSON_parse TEMPLATE_TEXT substitute
          callAISummarizer policyText = Ok r
        /\ accepted "SUMMARIZER" r)
    /\ (forall cookieData, exists r,
           AIClient.runCookieAnalysis JSON_parse TEMPLATE_TEXT substitute
             callAIPrompt cookieData = Ok r
           /\ accepted "COOKIE_ANALYZER" r)
    /\ (forall policyText, exists r,
           AIClient.runDeletionAnalysis JSON_parse TEMPLATE_TEXT substitute
             callAIPrompt policyText = Ok r
           /\ accepted "DELETION_ANALYZER" r)
    /\ (forall combinedData, exists r,
           AIClient.runRiskAssessment JSON_parse TEMPLATE_TEXT substitute
             callAIPrompt combinedData = Ok r
           /\ accepted "RISK_SCORER" r).
Proof.
  intros JSON_parse TEMPLATE_TEXT substitute callAISummarizer callAIPrompt.
  split; [| split; [| split]].
  - intro policyText. apply runSummarizer_accepted.
  - intro cookieData.
    destruct (runCookieAnalysis_accepted JSON_parse TEMPLATE_TEXT substitute
                callAIPrompt cookieData) as (r & Hr & _ & Ha).
    exists r. split; assumption.
  - intro policyText. apply runDeletionAnalysis_accepted.
  - intro combinedData. apply runRiskAssessment_accepted.
Qed.

Lemma map_result_returns {A B : Type} (f : A -> Result B) (l : list A) :
  returns (map_result f l) = forallb (fun a => returns (f a)) l.
Proof.
  induction l as [| a l IH]; simpl; [reflexivity |].
  destruct (f a) as [b | e]; simpl; [| reflexivity].
  rewrite <- IH. destruct (map_result f l); reflexivity.
Qed.

Lemma forallb_same {A : Type} (f g : A -> bool) (l : list A) :
  (forall a, f a = g a) -> forallb f l = forallb g l.
Proof.
  intro H. induction l as [| a l IH]; simpl; [reflexivity |].
  rewrite H, IH. reflexivity.
Qed.

Lemma summary_entry_returns (e : string * JsValue) :
  returns (AIClient.summary_entry e) = summarizable_entry e.
Proof.
  destruct e as (category, cookies). unfold summarizable_entry. simpl snd.
  unfold AIClient.summary_entry.
  destruct cookies; try reflexivity.
  unfold js_get at 1. cbn [js_nullish bind].
  generalize (firstn 3 items). intro l.
  match goal with
  | |- returns (bind ?m _) = _ =>
      assert (E : returns m = forallb (fun c => negb (js_nullish c)) l)
  end.
  { rewrite map_result_returns. apply forallb_same. intro c.
    unfold js_get. destruct (js_nullish c); reflexivity. }
  rewrite <- E. destruct (map_result _ l); reflexivity.
Qed.

Lemma combine_returns (data : AIClient.Combined) :
  accepted "SUMMARIZER" (AIClient.summarizer data) ->
  accepted "COOKIE_ANALYZER" (AIClient.cookies data) ->
  accepted "DELETION_ANALYZER" (AIClient.deletion data) ->
  accepted "RISK_SCORER" (AIClient.risk data) ->
  returns (AIClient.combineAnalysisResults data)
  = summarizable (own (AIClient.cookies data) "categories").
Proof.
  intros Hs Hc Hd Hr.
  apply accepted_summarizer_iff in Hs. destruct Hs as (Ns & _ & Hcat).
  apply accepted_cookie_iff in Hc. destruct Hc as (Nc & _).
  apply accepted_deletion_iff in Hd. destruct Hd as (Nd & _).
  apply accepted_risk_iff in Hr. destruct Hr as (Nr & _).
  destruct (calculateConfidence_total data Ns Nc Nd Nr) as (c & Ec).
  unfold AIClient.combineAnalysisResults, AIClient.extractDataUseFromSummary.
  rewrite Ec.
  rewrite !(js_get_object _ _ Ns), !(js_get_object _ _ Nc),
    !(js_get_object _ _ Nd), !(js_get_object _ _ Nr).
  cbn [bind].
  destruct (own (AIClient.summarizer data) "categories"); try discriminate Hcat.
  unfold summarizable.
  destruct (js_truthy (own (AIClient.cookies data) "categories")).
  - rewrite <- (forallb_same _ _ _ summary_entry_returns), <- map_result_returns.
    destruct (map_result _ _); reflexivity.
  - reflexivity.
Qed.

(** X4. When the four step results satisfy their schemas, the merge
    returns a report exactly when the cookie result's categories are
    absent (falsy) or every category holds an array whose first three
    elements are not null; otherwise it throws. *)
Theorem merge_returns_iff_summarizable :
  forall data : AIClient.Combined,
    accepted "SUMMARIZER" (AIClient.summarizer data) ->
    accepted "COOKIE_ANALYZER" (AIClient.cookies data) ->
    accepted "DELETION_ANALYZER" (AIClient.deletion data) ->
    accepted "RISK_SCORER" (AIClient.risk data) ->
    ((exists r, AIClient.combineAnalysisResults data = Ok r)
     <-> summarizable (own (AIClient.cookies data) "categories") = true).
Proof.
  intros data Hs Hc Hd Hr.
  rewrite <- (combine_returns data Hs Hc Hd Hr).
  destruct (AIClient.combineAnalysisResults data) as [r | e]; simpl; split.
  - reflexivity.
  - intros _. exists r. reflexivity.
  - intros (r & H). discriminate H.
  - intro H. discriminate H.
Qed.

Lemma merge_returns_iff_summarizable_witness :
  (exists r, AIClient.combineAnalysisResults fallback_results = Ok r)
  <-> summarizable (own (AIClient.cookies fallback_results) "categories") = true.
Proof.
  apply (merge_returns_iff_summarizable fallback_results);
    exists (JBool true); split; reflexivity.
Defined.

Lemma runCookieAnalysis_cases
    (JSON_parse : string -> option JsValue)
    (TEMPLATE_TEXT : string -> string)
    (substitute : string -> list (string * JsValue) -> string)
    (callAIPrompt : string -> AIClient.AIOptions -> Result string)
    (cookieData : option AD.CookieInfo) (r : JsValue) :
  AIClient.runCookieAnalysis JSON_parse TEMPLATE_TEXT substitute callAIPrompt
    cookieData = Ok r ->
  r = fallback_of "COOKIE_ANALYZER"
        (PT.mkInputData None (AIClient.fallback_cookieData cookieData)
                        JUndefined JUndefined)
  \/ exists prompt options text,
       callAIPrompt prompt options = Ok text /\ JSON_parse text = Some r.
Proof.
  unfold AIClient.runCookieAnalysis. intro H.
  apply bind_Ok in H. destruct H as (p & _ & H).
  apply parsed_or_fallback_cases in H.
  destruct H as [H | (text & Hc & Hp & _)].
  - left. unfold fallback_of. rewrite H. reflexivity.
  - right. do 3 eexists. split; [exact Hc | exact Hp].
Qed.

Lemma cookie_fallback_summarizable (d : PT.InputData) :
  summarizable (own (fallback_of "COOKIE_ANALYZER" d) "categories") = true.
Proof. reflexivity. Qed.

(** X5. The AI client answers with the complete fallback report exactly
    when the merge throws, and the merge throws exactly when the cookie
    step returned categories that cannot be summarized; such a cookie
    result is never the step's fallback but an accepted answer of the
    assistant (for instance one that gives a count per category). *)
Theorem complete_fallback_iff_unsummarizable :
  forall (JSON_parse : string -> option JsValue)
         (TEMPLATE_TEXT : string -> string)
         (substitute : string -> list (string * JsValue) -> string)
         (callAISummarizer : string -> Result string)
         (callAIPrompt : string -> AIClient.AIOptions -> Result string)
         (Date_now : Z) (analysisData : AD.AnalysisData),
  exists cookieResult,
    AIClient.runCookieAnalysis JSON_parse TEMPLATE_TEXT substitute
      callAIPrompt (AD.cookies analysisData) = Ok cookieResult
    /\ returns (AIClient.pipeline JSON_parse TEMPLATE_TEXT substitute
                  callAISummarizer callAIPrompt Date_now analysisData)
       = summarizable (own cookieResult "categories")
    /\ (summarizable (own cookieResult "categories") = false ->
        AIClient.analyzePrivacyPolicy JSON_parse TEMPLATE_TEXT substitute
          callAISummarizer callAIPrompt Date_now analysisData
        = AIClient.generateFallbackAnalysis Date_now analysisData
        /\ exists prompt options text,
             callAIPrompt prompt options = Ok text
             /\ JSON_parse text = Some cookieResult).
Proof.
  intros JSON_parse TEMPLATE_TEXT substitute callAISummarizer callAIPrompt
         Date_now analysisData.
  destruct (runSummarizer_accepted JSON_parse TEMPLATE_TEXT substitute
              callAISummarizer (AD.privacyPolicyText analysisData))
    as (s & Es & Hs).
  destruct (runCookieAnalysis_accepted JSON_parse TEMPLATE_TEXT substitute
              callAIPrompt (AD.cookies analysisData)) as (c & Ec & _ & Hc).
  destruct (runDeletionAnalysis_accepted JSON_parse TEMPLATE_TEXT substitute
              callAIPrompt (AD.privacyPolicyText analysisData))
    as (d & Ed & Hd).
  destruct (runRiskAssessment_accepted JSON_parse TEMPLATE_TEXT substitute
              callAIPrompt
              (AIClient.mkRiskInput s c d (AD.domain analysisData)
                                    (AD.url analysisData)))
    as (r & Er & Hr).
  assert (Ep : AIClient.pipeline JSON_parse TEMPLATE_TEXT substitute
                 callAISummarizer callAIPrompt Date_now analysisData
               = AIClient.combineAnalysisResults
                   (AIClient.mkCombined (AD.domain analysisData)
                      (AD.url analysisData) s c d r Date_now)).
  { unfold AIClient.pipeline. rewrite Es. cbn [bind]. rewrite Ec. cbn [bind].
    rewrite Ed. cbn [bind]. rewrite Er. reflexivity. }
  assert (Eret : returns (AIClient.pipeline JSON_parse TEMPLATE_TEXT substitute
                            callAISummarizer callAIPrompt Date_now analysisData)
                 = summarizable (own c "categories")).
  { rewrite Ep. apply (combine_returns
      (AIClient.mkCombined (AD.domain analysisData) (AD.url analysisData)
                           s c d r Date_now)); assumption. }
  exists c. split; [exact Ec |]. split; [exact Eret |].
  intro Hf. split.
  - unfold AIClient.analyzePrivacyPolicy. rewrite Hf in Eret.
    destruct (AIClient.pipeline _ _ _ _ _ _ _); [discriminate Eret | reflexivity].
  - destruct (runCookieAnalysis_cases _ _ _ _ _ _ Ec) as [E | H]; [| exact H].
    rewrite E, cookie_fallback_summarizable in Hf. discriminate Hf.
Qed.

Lemma complete_fallback_iff_unsummarizable_witness :
  AIClient.analyzePrivacyPolicy (fun _ => Some cookie_answer_with_counts)
    no_text no_substitution unavailable_summarizer
    (fun _ _ => Ok "cookie answer") 0 sample_request
  = AIClient.generateFallbackAnalysis 0 sample_request.
Proof.
  destruct (complete_fallback_iff_unsummarizable
              (fun _ => Some cookie_answer_with_counts)
              no_text no_substitution unavailable_summarizer
              (fun _ _ => Ok "cookie answer") 0 sample_request)
    as (c & Ec & _ & H).
  vm_compute in Ec. inversion Ec; subst c.
  apply H. reflexivity.
Defined.

(** Without [chrome.ai] and without a mock both calls throw. *)
Lemma no_ai_calls_throw :
  (forall text, AIRuntime.summarizerCall no_ai text
                = Throw "Chrome AI APIs not available")
  /\ (forall prompt options, AIRuntime.promptCall no_ai prompt options
                             = Throw "Chrome AI APIs not available").
Proof. split; reflexivity. Qed.



(** * Further properties: cache and rate limit of the service worker *)

Lemma lookup_put_same {A : Type} (k : string) (a : A) (l : list (string * A)) :
  lookup k (SiteWorker.put k a l) = Some a.
Proof. unfold SiteWorker.put. simpl. rewrite String.eqb_refl. reflexivity. Qed.

Lemma lookup_put_other {A : Type} (k k' : string) (a : A)
    (l : list (string * A)) :
  k <> k' -> lookup k' (SiteWorker.put k a l) = lookup k' l.
Proof.
  intro H. unfold SiteWorker.put. simpl.
  destruct (k' =? k)%string eqn:E.
  - apply String.eqb_eq in E. congruence.
  - apply lookup_remove_other. exact H.
Qed.

Lemma cacheKey_injective (d d' : string) :
  SiteWorker.cacheKey d = SiteWorker.cacheKey d' -> d = d'.
Proof. unfold SiteWorker.cacheKey. simpl. intro H. inversion H. reflexivity. Qed.

(** What an analysis that is not served from the cache leaves behind. *)
Lemma analyzeSite_performed (fetch : string -> Result string)
    (clock : SiteWorker.Clock) (siteData : SiteWorker.SiteData)
    (store : SiteWorker.Storage) (report : Report.Report)
    (store' : SiteWorker.Storage) :
  SiteWorker.analyzeSite fetch clock siteData store = Ok (report, store') ->
  servedFromCache clock siteData store = false ->
  report = ServiceWorker.analyzePrivacyPolicy (SiteWorker.atReport clock)
             (SiteWorker.analysisDataFor fetch siteData)
  /\ store' = SiteWorker.updateLastAnalysisTime (SiteWorker.domain siteData)
                (SiteWorker.now clock)
                (SiteWorker.cacheResult (SiteWorker.domain siteData) report
                   (SiteWorker.atCaching clock) store).
Proof.
  unfold SiteWorker.analyzeSite, servedFromCache.
  destruct (match SiteWorker.getLastAnalysisTime _ store with
            | Some lastAnalysis => _ | None => false end);
    [intro H; discriminate H |].
  destruct (SiteWorker.getCachedResult _ store) as [cached |].
  - intros H Hc. rewrite Hc in H. inversion H; subst. split; reflexivity.
  - intros H _. inversion H; subst. split; reflexivity.
Qed.

Lemma ceil_div_bounds (x : Z) :
  0 < x <= 10000 -> 1 <= ceil_div x 1000 <= 10.
Proof.
  intro H. unfold ceil_div.
  assert (H1 : -10 <= (- x) / 1000) by (apply Z.div_le_lower_bound; lia).
  assert (H2 : (- x) / 1000 < 0) by (apply Z.div_lt_upper_bound; lia).
  lia.
Qed.

(** X7. After an analysis that was not served from the cache, a further
    request for the same domain (any but [__proto__], under which no time
    can be recorded) less than ten seconds later is refused,
    whatever the page now contains and although a fresh result is in the
    cache: [analyzeSite] throws the rate-limit error, which asks to wait
    between 1 and 10 seconds. *)
Theorem repeat_within_ten_seconds_refused :
  forall (fetch fetch' : string -> Result string)
         (clock clock' : SiteWorker.Clock)
         (siteData siteData' : SiteWorker.SiteData)
         (store store' : SiteWorker.Storage) (report : Report.Report),
    SiteWorker.analyzeSite fetch clock siteData store = Ok (report, store') ->
    servedFromCache clock siteData store = false ->
    SiteWorker.now clock <> 0 ->
    SiteWorker.domain siteData <> "__proto__" ->
    SiteWorker.domain siteData' = SiteWorker.domain siteData ->
    SiteWorker.now clock <= SiteWorker.now clock'
      < SiteWorker.now clock + SiteWorker.RATE_LIMIT_DELAY ->
    exists seconds,
      SiteWorker.analyzeSite fetch' clock' siteData' store'
      = Throw ("Rate limited. Please wait " ++ string_of_Z seconds ++ " seconds.")
      /\ 1 <= seconds <= 10
      /\ SiteWorker.getCachedResult (SiteWorker.domain siteData) store'
         = Some (SiteWorker.mkCacheData report (SiteWorker.atCaching clock)).
Proof.
  intros fetch fetch' clock clock' siteData siteData' store store' report
         H Hc Hnow Hproto Hd Ht.
  apply String.eqb_neq in Hproto.
  destruct (analyzeSite_performed _ _ _ _ _ _ H Hc) as (_ & ->).
  assert (El : SiteWorker.getLastAnalysisTime (SiteWorker.domain siteData)
                 (SiteWorker.updateLastAnalysisTime (SiteWorker.domain siteData)
                    (SiteWorker.now clock)
                    (SiteWorker.cacheResult (SiteWorker.domain siteData) report
                       (SiteWorker.atCaching clock) store))
               = Some (SiteWorker.now clock)).
  { unfold SiteWorker.getLastAnalysisTime, SiteWorker.updateLastAnalysisTime.
    cbn [SiteWorker.lastAnalysis]. rewrite Hproto, lookup_put_same.
    destruct (SiteWorker.now clock =? 0) eqn:E; [| reflexivity].
    apply Z.eqb_eq in E. contradiction. }
  unfold SiteWorker.RATE_LIMIT_DELAY in Ht.
  exists (ceil_div (SiteWorker.RATE_LIMIT_DELAY
                    - (SiteWorker.now clock' - SiteWorker.now clock)) 1000).
  split; [| split].
  - unfold SiteWorker.analyzeSite. rewrite Hd, El.
    assert (E : (SiteWorker.now clock' - SiteWorker.now clock
                 <? SiteWorker.RATE_LIMIT_DELAY) = true).
    { apply Z.ltb_lt. unfold SiteWorker.RATE_LIMIT_DELAY. lia. }
    rewrite E. reflexivity.
  - apply ceil_div_bounds. unfold SiteWorker.RATE_LIMIT_DELAY. lia.
  - unfold SiteWorker.getCachedResult, SiteWorker.updateLastAnalysisTime,
      SiteWorker.cacheResult.
    cbn [SiteWorker.entries]. apply lookup_put_same.
Qed.

Lemma repeat_within_ten_seconds_refused_witness :
  exists seconds,
    SiteWorker.analyzeSite unreachable later_clock sample_site
      (store_after unreachable first_clock sample_site empty_store)
    = Throw ("Rate limited. Please wait " ++ string_of_Z seconds ++ " seconds.")
    /\ 1 <= seconds <= 10.
Proof.
  destruct (repeat_within_ten_seconds_refused unreachable unreachable
              first_clock later_clock sample_site sample_site empty_store
              (store_after unreachable first_clock sample_site empty_store)
              (report_after unreachable first_clock sample_site empty_store))
    as (seconds & H & Hs & _).
  - reflexivity.
  - reflexivity.
  - simpl. lia.
  - simpl. discriminate.
  - reflexivity.
  - unfold SiteWorker.RATE_LIMIT_DELAY. simpl. lia.
  - exists seconds. split; assumption.
Defined.

(** X8. After an analysis that was not served from the cache, a request
    for the same domain ten seconds or more later is answered with the
    stored report for as long as the entry is at most 24 hours old: the
    page is not fetched or scored again, whatever it now contains, and
    the store is left as it was. *)
Theorem cached_report_served_for_a_day :
  forall (fetch fetch' : string -> Result string)
         (clock clock' : SiteWorker.Clock)
         (siteData siteData' : SiteWorker.SiteData)
         (store store' : SiteWorker.Storage) (report : Report.Report),
    SiteWorker.analyzeSite fetch clock siteData store = Ok (report, store') ->
    servedFromCache clock siteData store = false ->
    SiteWorker.domain siteData' = SiteWorker.domain siteData ->
    SiteWorker.RATE_LIMIT_DELAY
      <= SiteWorker.now clock' - SiteWorker.now clock ->
    SiteWorker.atExpiryCheck clock' - SiteWorker.atCaching clock
      <= SiteWorker.CACHE_TTL ->
    SiteWorker.analyzeSite fetch' clock' siteData' store' = Ok (report, store').
Proof.
  intros fetch fetch' clock clock' siteData siteData' store store' report
         H Hc Hd Hrate Hfresh.
  destruct (analyzeSite_performed _ _ _ _ _ _ H Hc) as (_ & E).
  assert (Ecache : SiteWorker.getCachedResult (SiteWorker.domain siteData) store'
                   = Some (SiteWorker.mkCacheData report
                             (SiteWorker.atCaching clock))).
  { rewrite E. unfold SiteWorker.getCachedResult,
      SiteWorker.updateLastAnalysisTime, SiteWorker.cacheResult.
    cbn [SiteWorker.entries]. apply lookup_put_same. }
  assert (Elast : match SiteWorker.getLastAnalysisTime
                          (SiteWorker.domain siteData) store' with
                  | Some lastAnalysis =>
                      SiteWorker.now clock' - lastAnalysis
                      <? SiteWorker.RATE_LIMIT_DELAY
                  | None => false
                  end = false).
  { rewrite E. unfold SiteWorker.getLastAnalysisTime,
      SiteWorker.updateLastAnalysisTime.
    cbn [SiteWorker.lastAnalysis].
    destruct (SiteWorker.domain siteData =? "__proto__")%string;
      [reflexivity |].
    rewrite lookup_put_same.
    destruct (SiteWorker.now clock =? 0); [reflexivity |].
    apply Z.ltb_ge. exact Hrate. }
  unfold SiteWorker.analyzeSite. rewrite Hd, Elast, Ecache.
  cbn [SiteWorker.timestamp SiteWorker.result].
  assert (Ex : SiteWorker.isExpired (SiteWorker.atExpiryCheck clock')
                 (SiteWorker.atCaching clock) = false).
  { unfold SiteWorker.isExpired. apply Z.ltb_ge. exact Hfresh. }
  rewrite Ex. reflexivity.
Qed.

Lemma cached_report_served_for_a_day_witness :
  SiteWorker.analyzeSite unreachable hour_later_clock sample_site
    (store_after unreachable first_clock sample_site empty_store)
  = Ok (report_after unreachable first_clock sample_site empty_store,
        store_after unreachable first_clock sample_site empty_store).
Proof.
  apply (cached_report_served_for_a_day unreachable unreachable
           first_clock hour_later_clock sample_site sample_site empty_store).
  - reflexivity.
  - reflexivity.
  - reflexivity.
  - unfold SiteWorker.RATE_LIMIT_DELAY. simpl. lia.
  - unfold SiteWorker.CACHE_TTL. simpl. lia.
Defined.

(** X9. An analysis touches the cache entry and the last-analysis time
    of its own domain only: for every other domain both read as before. *)
Theorem analyzeSite_other_domains_untouched :
  forall (fetch : string -> Result string) (clock : SiteWorker.Clock)
         (siteData : SiteWorker.SiteData)
         (store store' : SiteWorker.Storage) (report : Report.Report)
         (other : string),
    SiteWorker.analyzeSite fetch clock siteData store = Ok (report, store') ->
    other <> SiteWorker.domain siteData ->
    SiteWorker.getCachedResult other store'
    = SiteWorker.getCachedResult other store
    /\ SiteWorker.getLastAnalysisTime other store'
       = SiteWorker.getLastAnalysisTime other store.
Proof.
  intros fetch clock siteData store store' report other H Hne.
  destruct (servedFromCache clock siteData store) eqn:Hc.
  - unfold SiteWorker.analyzeSite in H. unfold servedFromCache in Hc.
    destruct (match SiteWorker.getLastAnalysisTime _ store with
              | Some lastAnalysis => _ | None => false end);
      [discriminate H |].
    destruct (SiteWorker.getCachedResult _ store) as [cached |];
      [| discriminate Hc].
    rewrite Hc in H. inversion H; subst. split; reflexivity.
  - destruct (analyzeSite_performed _ _ _ _ _ _ H Hc) as (_ & ->).
    split.
    + unfold SiteWorker.getCachedResult, SiteWorker.updateLastAnalysisTime,
        SiteWorker.cacheResult.
      cbn [SiteWorker.entries]. apply lookup_put_other.
      intro E. apply cacheKey_injective in E. congruence.
    + unfold SiteWorker.getLastAnalysisTime, SiteWorker.updateLastAnalysisTime,
        SiteWorker.cacheResult.
      cbn [SiteWorker.lastAnalysis].
      destruct (other =? "__proto__")%string;
        [destruct (SiteWorker.lastAnalysis store); reflexivity |].
      destruct (SiteWorker.domain siteData =? "__proto__")%string;
        [destruct (SiteWorker.lastAnalysis store); reflexivity |].
      rewrite lookup_put_other by congruence.
      destruct (SiteWorker.lastAnalysis store); reflexivity.
Qed.

Lemma analyzeSite_other_domains_untouched_witness :
  SiteWorker.getCachedResult "other.org"
    (store_after unreachable first_clock sample_site empty_store)
  = SiteWorker.getCachedResult "other.org" empty_store
  /\ SiteWorker.getLastAnalysisTime "other.org"
       (store_after unreachable first_clock sample_site empty_store)
     = SiteWorker.getLastAnalysisTime "other.org" empty_store.
Proof.
  apply (analyzeSite_other_domains_untouched unreachable first_clock
           sample_site empty_store
           (store_after unreachable first_clock sample_site empty_store)
           (report_after unreachable first_clock sample_site empty_store)).
  - reflexivity.
  - simpl. discriminate.
Defined.

Lemma lookup_filter_out {A : Type} (keep : string * A -> bool) (k : string)
    (l : list (string * A)) :
  (forall a, keep (k, a) = false) -> lookup k (filter keep l) = None.
Proof.
  intro H. induction l as [| (k', a) l IH]; simpl; [reflexivity |].
  destruct (keep (k', a)) eqn:E.
  - simpl. destruct (k =? k')%string eqn:E'; [| exact IH].
    apply String.eqb_eq in E'. subst k'. rewrite H in E. discriminate E.
  - exact IH.
Qed.

(** X10. Clearing the cache of a domain removes that domain's entry and
    no other, and clearing without a domain removes every entry; in both
    cases the last-analysis times stay, so the next request for the
    domain is analysed anew but is still subject to the rate limit. *)
Theorem clearCache_keeps_rate_limit :
  forall (store : SiteWorker.Storage) (domain : string),
    domain <> "" ->
    SiteWorker.getCachedResult domain (SiteWorker.clearCache (Some domain) store)
    = None
    /\ (forall other, other <> domain ->
          SiteWorker.getCachedResult other
            (SiteWorker.clearCache (Some domain) store)
          = SiteWorker.getCachedResult other store)
    /\ (forall any, SiteWorker.getCachedResult any
                      (SiteWorker.clearCache None store) = None)
    /\ (forall any cleared,
          SiteWorker.getLastAnalysisTime any
            (SiteWorker.clearCache cleared store)
          = SiteWorker.getLastAnalysisTime any store)
    /\ (forall clock siteData,
          SiteWorker.domain siteData = domain ->
          servedFromCache clock siteData
            (SiteWorker.clearCache (Some domain) store) = false).
Proof.
  intros store domain Hd.
  assert (E : (domain =? "")%string = false) by (apply String.eqb_neq; exact Hd).
  assert (H1 : SiteWorker.getCachedResult domain
                 (SiteWorker.clearCache (Some domain) store) = None).
  { unfold SiteWorker.clearCache, SiteWorker.getCachedResult. rewrite E.
    cbn [SiteWorker.entries]. apply lookup_remove_same. }
  split; [exact H1 |]. split; [| split; [| split]].
  - intros other Hne.
    unfold SiteWorker.clearCache, SiteWorker.getCachedResult. rewrite E.
    cbn [SiteWorker.entries]. apply lookup_remove_other.
    intro K. apply cacheKey_injective in K. congruence.
  - intro any. unfold SiteWorker.clearCache, SiteWorker.getCachedResult.
    cbn [SiteWorker.entries]. apply lookup_filter_out.
    intro a. unfold SiteWorker.cacheKey. simpl. destruct any; reflexivity.
  - intros any cleared. unfold SiteWorker.clearCache.
    destruct cleared as [d |]; [destruct (d =? "")%string |]; reflexivity.
  - intros clock siteData Hs. unfold servedFromCache. rewrite Hs, H1.
    reflexivity.
Qed.

Lemma clearCache_keeps_rate_limit_witness :
  SiteWorker.getCachedResult "example.com"
    (SiteWorker.clearCache (Some "example.com")
       (store_after unreachable first_clock sample_site empty_store)) = None
  /\ SiteWorker.getLastAnalysisTime "example.com"
       (SiteWorker.clearCache (Some "example.com")
          (store_after unreachable first_clock sample_site empty_store))
     = Some 1700000000000.
Proof.
  destruct (clearCache_keeps_rate_limit
              (store_after unreachable first_clock sample_site empty_store)
              "example.com") as (H1 & _ & _ & H4 & _).
  - discriminate.
  - split; [exact H1 |]. rewrite H4. reflexivity.
Defined.

(** * Properties: the text taken from the page *)

Lemma append_empty_r (s : string) : s ++ "" = s.
Proof. induction s as [| c s IH]; simpl; [| rewrite IH]; reflexivity. Qed.

Lemma append_assoc3 (a b c : string) : (a ++ b) ++ c = a ++ b ++ c.
Proof. induction a as [| x a IH]; simpl; [| rewrite IH]; reflexivity. Qed.

Lemma toLowerCase_app (a b : string) :
  toLowerCase (a ++ b) = toLowerCase a ++ toLowerCase b.
Proof. induction a as [| x a IH]; simpl; [| rewrite IH]; reflexivity. Qed.

Lemma occurs_in_trans (t p s : string) :
  occurs_in t p -> occurs_in p s -> occurs_in t s.
Proof.
  intros (a & b & ->) (a' & b' & ->).
  exists (a' ++ a), (b ++ b').
  rewrite !append_assoc3. reflexivity.
Qed.

Lemma occurs_in_lower (t s : string) :
  occurs_in t s -> occurs_in (toLowerCase t) (toLowerCase s).
Proof.
  intros (a & b & ->). exists (toLowerCase a), (toLowerCase b).
  rewrite !toLowerCase_app. reflexivity.
Qed.

Lemma occurs_in_tail (t s : string) (c : ascii) :
  occurs_in t s -> occurs_in t (String c s).
Proof. intros (a & b & ->). exists (String c a), b. reflexivity. Qed.

Lemma occurs_in_empty (t : string) : occurs_in t "" -> t = "".
Proof.
  intros (a & b & E). destruct a; [| discriminate E].
  destruct t; [reflexivity | discriminate E].
Qed.

Lemma length_substring_le (n : nat) (s : string) :
  (String.length (substring 0 n s) <= n)%nat.
Proof.
  revert s. induction n as [| n IH]; intro s.
  - destruct s; simpl; lia.
  - destruct s as [| c s]; simpl; [lia |]. specialize (IH s). lia.
Qed.

Lemma lower_keeps_marks (c : ascii) :
  is_sentence_mark (lower_ascii c) = is_sentence_mark c.
Proof. destruct c as [[] [] [] [] [] [] [] []]; reflexivity. Qed.

(** Every piece of a split is a part of the text. *)
Lemma split_pieces_occur (s piece : string) (in_run : bool) (p : string) :
  In p (split_sentences_from s piece in_run) -> occurs_in p (piece ++ s).
Proof.
  revert piece in_run. induction s as [| c s IH]; intros piece in_run H.
  - simpl in H. destruct H as [<- | []]. exists "", "". reflexivity.
  - simpl in H. destruct (is_sentence_mark c).
    + assert (Htail : In p (split_sentences_from s "" true)
                      -> occurs_in p (piece ++ String c s)).
      { intro K. apply IH in K. destruct K as (a & b & E). simpl in E.
        exists (piece ++ String c a), b. rewrite append_assoc3. simpl.
        rewrite E. reflexivity. }
      destruct in_run; [exact (Htail H) |].
      destruct H as [<- | H]; [| exact (Htail H)].
      exists "", (String c s). reflexivity.
    + apply IH in H. rewrite append_assoc3 in H. exact H.
Qed.

Lemma mark_free_prefix (t x : string) (c : ascii) (y b : string) :
  no_marks t = true -> is_sentence_mark c = true ->
  t ++ b = x ++ String c y -> exists r, x = t ++ r.
Proof.
  revert x. induction t as [| d t IH]; intros x Ht Hc E.
  - exists x. reflexivity.
  - simpl in Ht. apply andb_prop in Ht. destruct Ht as (Hd & Ht).
    destruct x as [| e x]; simpl in E.
    + inversion E; subst. rewrite Hc in Hd. discriminate Hd.
    + inversion E; subst.
      destruct (IH x Ht Hc H1) as (r & ->). exists r. reflexivity.
Qed.

Lemma mark_free_side (a t b x : string) (c : ascii) (y : string) :
  no_marks t = true -> is_sentence_mark c = true ->
  a ++ t ++ b = x ++ String c y -> occurs_in t x \/ occurs_in t y.
Proof.
  revert x. induction a as [| d a IH]; intros x Ht Hc E.
  - simpl in E. destruct (mark_free_prefix _ _ _ _ _ Ht Hc E) as (r & ->).
    left. exists "", r. reflexivity.
  - destruct x as [| e x]; simpl in E.
    + inversion E; subst. right. exists a, b. reflexivity.
    + inversion E; subst. destruct (IH x Ht Hc H1) as [H | H].
      * left. apply occurs_in_tail. exact H.
      * right. exact H.
Qed.

(** A mark-free, non-empty part of the lowered text lies in one piece. *)
Lemma mark_free_in_a_piece (s piece : string) (in_run : bool) (t : string) :
  no_marks t = true -> t <> "" ->
  (in_run = true -> piece = "") ->
  occurs_in t (toLowerCase (piece ++ s)) ->
  exists p, In p (split_sentences_from s piece in_run)
            /\ occurs_in t (toLowerCase p).
Proof.
  intros Ht Hne. revert piece in_run.
  induction s as [| c s IH]; intros piece in_run Hrun H.
  - rewrite append_empty_r in H. exists piece. split; [left; reflexivity | exact H].
  - simpl. destruct (is_sentence_mark c) eqn:Hc.
    + rewrite toLowerCase_app in H. simpl in H.
      destruct H as (a & b & E).
      assert (Hc' : is_sentence_mark (lower_ascii c) = true)
        by (rewrite lower_keeps_marks; exact Hc).
      symmetry in E.
      destruct (mark_free_side _ _ _ _ _ _ Ht Hc' E) as [H | H].
      * destruct in_run.
        -- rewrite (Hrun eq_refl) in H. simpl in H.
           apply occurs_in_empty in H. contradiction.
        -- exists piece. split; [left; reflexivity | exact H].
      * destruct (IH "" true (fun _ => eq_refl) H) as (p & Hp & Ho).
        exists p. split; [| exact Ho].
        destruct in_run; [exact Hp | right; exact Hp].
    + apply (IH (piece ++ String c "") false).
      * intro K. discriminate K.
      * rewrite append_assoc3. exact H.
Qed.

Lemma keywords_mark_free :
  forall keyword, In keyword SiteWorker.privacyKeywords ->
    no_marks (toLowerCase keyword) = true /\ toLowerCase keyword <> "".
Proof.
  assert (H : forallb (fun keyword =>
                 no_marks (toLowerCase keyword)
                 && negb (toLowerCase keyword =? "")%string)
                SiteWorker.privacyKeywords = true) by reflexivity.
  intros keyword Hin.
  pose proof (proj1 (forallb_forall _ _) H keyword Hin) as K.
  apply andb_prop in K. destruct K as (K1 & K2). split; [exact K1 |].
  apply String.eqb_neq. apply negb_true_iff. exact K2.
Qed.

(** The page mentions a keyword exactly when one of its sentences does. *)
Lemma mentionsPrivacy_some_sentence (pageContent : string) :
  SiteWorker.mentionsPrivacy pageContent = true
  <-> exists sentence, In sentence (split_sentences pageContent)
                       /\ SiteWorker.mentionsPrivacy sentence = true.
Proof.
  unfold SiteWorker.mentionsPrivacy. split.
  - intro H. apply existsb_exists in H. destruct H as (keyword & Hin & H).
    apply includes_occurs in H.
    destruct (keywords_mark_free keyword Hin) as (Hm & Hne).
    destruct (mark_free_in_a_piece pageContent "" false _ Hm Hne
                (fun K => eq_refl) H) as (p & Hp & Ho).
    exists p. split; [exact Hp |].
    apply existsb_exists. exists keyword. split; [exact Hin |].
    apply includes_occurs. exact Ho.
  - intros (sentence & Hs & H).
    apply existsb_exists in H. destruct H as (keyword & Hin & H).
    apply existsb_exists. exists keyword. split; [exact Hin |].
    apply includes_occurs. apply includes_occurs in H.
    apply (occurs_in_trans _ (toLowerCase sentence)); [exact H |].
    apply occurs_in_lower.
    apply (split_pieces_occur pageContent "" false). exact Hs.
Qed.

(** X11. The text taken from the page when no policy could be fetched is
    at most 2000 characters long, and it is empty exactly when the page
    mentions none of the privacy keywords, in any letter case. *)
Theorem extractPrivacyTextFromPage_bounded :
  forall pageContent : string,
    (String.length (SiteWorker.extractPrivacyTextFromPage pageContent)
     <= 2000)%nat
    /\ (SiteWorker.extractPrivacyTextFromPage pageContent = ""
        <-> SiteWorker.mentionsPrivacy pageContent = false).
Proof.
  intro pageContent. split.
  - apply length_substring_le.
  - unfold SiteWorker.extractPrivacyTextFromPage.
    destruct (filter SiteWorker.mentionsPrivacy (split_sentences pageContent))
      as [| p rest] eqn:F.
    + split; [intros _ | intros _; reflexivity].
      destruct (SiteWorker.mentionsPrivacy pageContent) eqn:M; [| reflexivity].
      apply mentionsPrivacy_some_sentence in M.
      destruct M as (sentence & Hs & M).
      assert (K : In sentence (filter SiteWorker.mentionsPrivacy
                                 (split_sentences pageContent)))
        by (apply filter_In; split; assumption).
      rewrite F in K. destruct K.
    + assert (K : In p (filter SiteWorker.mentionsPrivacy
                          (split_sentences pageContent)))
        by (rewrite F; left; reflexivity).
      apply filter_In in K. destruct K as (Hs & M).
      assert (Hp : SiteWorker.mentionsPrivacy pageContent = true)
        by (apply mentionsPrivacy_some_sentence; exists p; split; assumption).
      rewrite Hp. split; [| intro K; discriminate K].
      intro E. exfalso.
      destruct p as [| c p]; [discriminate M |].
      unfold join in E. destruct rest; simpl in E; discriminate E.
Qed.

(** * Properties: the service worker's score *)


(** * Properties: the links the content script returns *)



Lemma seen_In (u : string) (seen : list string) :
  existsb (String.eqb u) seen = true <-> In u seen.
Proof.
  rewrite existsb_exists. split.
  - intros (v & Hv & E). apply String.eqb_eq in E. subst v. exact Hv.
  - intro H. exists u. split; [exact H | apply String.eqb_refl].
Qed.











(** * Properties: the cookies read from [document.cookie] *)

Lemma trimEnd_idempotent (s : string) : trimEnd (trimEnd s) = trimEnd s.
Proof.
  induction s as [| c s IH]; [reflexivity |].
  simpl. destruct (trimEnd s) as [| d u] eqn:E.
  - destruct (is_space c) eqn:Hc; simpl; [reflexivity |].
    rewrite Hc. reflexivity.
  - change (trimEnd (String c (String d u))) with
      (match trimEnd (String d u) with
       | EmptyString => if is_space c then EmptyString else String c EmptyString
       | t => String c t
       end).
    rewrite IH. reflexivity.
Qed.

Lemma trimStart_shape (s : string) :
  trimStart s = "" \/ exists c r, trimStart s = String c r /\ is_space c = false.
Proof.
  induction s as [| c s IH]; simpl; [left; reflexivity |].
  destruct (is_space c) eqn:Hc; [exact IH |].
  right. exists c, s. split; [reflexivity | exact Hc].
Qed.

Lemma trimEnd_first (c : ascii) (r : string) :
  is_space c = false -> exists r', trimEnd (String c r) = String c r'.
Proof.
  intro Hc. simpl. destruct (trimEnd r) as [| d u].
  - rewrite Hc. exists "". reflexivity.
  - exists (String d u). reflexivity.
Qed.

Lemma trim_shape (s : string) :
  trim s = "" \/ exists c r, trim s = String c r /\ is_space c = false.
Proof.
  unfold trim. destruct (trimStart_shape s) as [-> | (c & r & -> & Hc)].
  - left. reflexivity.
  - right. destruct (trimEnd_first c r Hc) as (r' & E).
    exists c, r'. split; assumption.
Qed.

Lemma trim_idempotent (s : string) : trim (trim s) = trim s.
Proof.
  destruct (trim_shape s) as [E | (c & r & E & Hc)].
  - rewrite E. reflexivity.
  - unfold trim at 1. rewrite E. simpl trimStart. rewrite Hc.
    rewrite <- E. unfold trim. apply trimEnd_idempotent.
Qed.

Lemma has_char_app (c : ascii) (a b : string) :
  has_char c (a ++ b) = has_char c a || has_char c b.
Proof.
  induction a as [| d a IH]; simpl; [reflexivity |].
  rewrite IH. apply orb_assoc.
Qed.

Lemma trimStart_absent (c : ascii) (s : string) :
  has_char c s = false -> has_char c (trimStart s) = false.
Proof.
  induction s as [| d s IH]; simpl; intro H; [reflexivity |].
  apply orb_false_iff in H. destruct H as (H1 & H2).
  destruct (is_space d); [apply IH; exact H2 |].
  simpl. rewrite H1, H2. reflexivity.
Qed.

Lemma trimEnd_absent (c : ascii) (s : string) :
  has_char c s = false -> has_char c (trimEnd s) = false.
Proof.
  induction s as [| d s IH]; simpl; intro H; [reflexivity |].
  apply orb_false_iff in H. destruct H as (H1 & H2).
  specialize (IH H2). destruct (trimEnd s) as [| e u].
  - destruct (is_space d); simpl; [reflexivity |]. rewrite H1. reflexivity.
  - change (has_char c (String d (String e u)))
      with ((d =? c)%char || has_char c (String e u)).
    rewrite H1, IH. reflexivity.
Qed.

Lemma trim_absent (c : ascii) (s : string) :
  has_char c s = false -> has_char c (trim s) = false.
Proof. intro H. apply trimEnd_absent, trimStart_absent, H. Qed.

(** The pieces of a split hold no separator, and no character that the
    text does not hold. *)
Lemma split_on_absent (sep c : ascii) (s piece p : string) :
  has_char c piece = false ->
  (has_char c s = false \/ c = sep) ->
  In p (split_on sep s piece) -> has_char c p = false.
Proof.
  revert piece. induction s as [| d s IH]; intros piece Hp Hs H; simpl in H.
  - destruct H as [<- | []]. exact Hp.
  - assert (Hs' : has_char c s = false \/ c = sep).
    { destruct Hs as [Hs | Hs]; [| right; exact Hs].
      simpl in Hs. apply orb_false_iff in Hs. left. apply Hs. }
    destruct (Ascii.eqb_spec d sep) as [Hd | Hd].
    + destruct H as [<- | H]; [exact Hp |].
      apply (IH ""); [reflexivity | exact Hs' | exact H].
    + apply (IH (piece ++ String d "")); [| exact Hs' | exact H].
      rewrite has_char_app, Hp. simpl.
      destruct Hs as [Hs | Hs].
      * simpl in Hs. apply orb_false_iff in Hs. destruct Hs as (Hs & _).
        rewrite Hs. reflexivity.
      * subst c. destruct (Ascii.eqb_spec d sep); [contradiction | reflexivity].
Qed.

Lemma split_on_head (sep : ascii) (s piece : string) :
  exists r rest, split_on sep s piece = (piece ++ r) :: rest.
Proof.
  revert piece. induction s as [| d s IH]; intro piece; simpl.
  - exists "", []. rewrite append_empty_r. reflexivity.
  - destruct (d =? sep)%char.
    + exists "", (split_on sep s ""). rewrite append_empty_r. reflexivity.
    + destruct (IH (piece ++ String d "")) as (r & rest & E).
      exists (String d r), rest. rewrite E, append_assoc3. reflexivity.
Qed.

Lemma trim_nonempty (c : ascii) (r : string) :
  is_space c = false -> trim (String c r) <> "".
Proof.
  intro Hc. unfold trim. simpl trimStart. rewrite Hc.
  destruct (trimEnd_first c r Hc) as (r' & ->). discriminate.
Qed.

Lemma parsePair_fields (currentDomain cookiePair : string)
    (cookie : CookieExtractor.Cookie) :
  has_char ";" cookiePair = false ->
  CookieParser.parsePair currentDomain cookiePair = Some cookie ->
  exists name value,
    cookie = CookieExtractor.documentCookie name value currentDomain
    /\ name <> "" /\ trim name = name /\ trim value = value
    /\ has_char ";" name = false /\ has_char "=" name = false
    /\ has_char ";" value = false /\ has_char "=" value = false.
Proof.
  intros Hsemi H. unfold CookieParser.parsePair in H.
  destruct (split "=" (trim cookiePair)) as [| name [| value rest]] eqn:E;
    try discriminate H.
  destruct (String.eqb_spec name "") as [| Hne]; [discriminate H |].
  inversion H; subst cookie. clear H.
  assert (Hin1 : In name (split "=" (trim cookiePair)))
    by (rewrite E; left; reflexivity).
  assert (Hin2 : In value (split "=" (trim cookiePair)))
    by (rewrite E; right; left; reflexivity).
  assert (Hsemi' : has_char ";" (trim cookiePair) = false)
    by (apply trim_absent; exact Hsemi).
  exists (trim name), (trim value).
  split; [reflexivity |]. split.
  - destruct (trim_shape cookiePair) as [Et | (c & r & Et & Hc)].
    + rewrite Et in E. simpl in E. inversion E.
    + rewrite Et in E. unfold split in E. simpl in E.
      destruct (c =? "=")%char.
      * inversion E. congruence.
      * destruct (split_on_head "=" r (String c "")) as (r' & rest' & E').
        simpl in E'. rewrite E' in E. inversion E; subst name.
        apply trim_nonempty. exact Hc.
  - split; [apply trim_idempotent |]. split; [apply trim_idempotent |].
    split; [| split; [| split]]; apply trim_absent.
    + apply (split_on_absent "=" ";" (trim cookiePair) "" name);
        [reflexivity | left; exact Hsemi' | exact Hin1].
    + apply (split_on_absent "=" "=" (trim cookiePair) "" name);
        [reflexivity | right; reflexivity | exact Hin1].
    + apply (split_on_absent "=" ";" (trim cookiePair) "" value);
        [reflexivity | left; exact Hsemi' | exact Hin2].
    + apply (split_on_absent "=" "=" (trim cookiePair) "" value);
        [reflexivity | right; reflexivity | exact Hin2].
Qed.

Lemma parsePairs_In (currentDomain : string) (cookiePairs : list string)
    (cookie : CookieExtractor.Cookie) :
  In cookie (CookieParser.parsePairs currentDomain cookiePairs) ->
  exists cookiePair, In cookiePair cookiePairs
               /\ CookieParser.parsePair currentDomain cookiePair = Some cookie.
Proof.
  induction cookiePairs as [| cookiePair rest IH]; simpl; [intros [] |].
  destruct (CookieParser.parsePair currentDomain cookiePair) as [c |] eqn:E.
  - intros [<- | H].
    + exists cookiePair. split; [left; reflexivity | exact E].
    + destruct (IH H) as (p & Hp & Ep). exists p.
      split; [right; exact Hp | exact Ep].
  - intro H. destruct (IH H) as (p & Hp & Ep). exists p.
    split; [right; exact Hp | exact Ep].
Qed.

Lemma parseCookieString_fields (cookieString currentDomain : string)
    (cookie : CookieExtractor.Cookie) :
  In cookie (CookieParser.parseCookieString cookieString currentDomain) ->
  exists name value,
    cookie = CookieExtractor.documentCookie name value currentDomain
    /\ name <> "" /\ trim name = name /\ trim value = value
    /\ has_char ";" name = false /\ has_char "=" name = false
    /\ has_char ";" value = false /\ has_char "=" value = false.
Proof.
  unfold CookieParser.parseCookieString.
  destruct (cookieString =? "")%string; [intros [] |].
  intro H. apply parsePairs_In in H. destruct H as (cookiePair & Hp & E).
  apply (parsePair_fields currentDomain cookiePair); [| exact E].
  apply (split_on_absent ";" ";" cookieString "" cookiePair);
    [reflexivity | right; reflexivity | exact Hp].
Qed.

(** X15. Every cookie read from [document.cookie] has a non-empty name;
    its name and its value are free of surrounding white space and hold
    neither a semicolon nor an equals sign, so a value is recorded only up
    to its first equals sign; and the cookie is marked first-party, of the
    page's own domain. *)
Theorem parseCookieString_cookies :
  forall (cookieString currentDomain : string)
         (cookie : CookieExtractor.Cookie),
    In cookie (CookieParser.parseCookieString cookieString currentDomain) ->
    CookieExtractor.name cookie <> ""
    /\ trim (CookieExtractor.name cookie) = CookieExtractor.name cookie
    /\ trim (CookieExtractor.value cookie) = CookieExtractor.value cookie
    /\ has_char ";" (CookieExtractor.name cookie) = false
    /\ has_char "=" (CookieExtractor.name cookie) = false
    /\ has_char ";" (CookieExtractor.value cookie) = false
    /\ has_char "=" (CookieExtractor.value cookie) = false
    /\ CookieExtractor.domain cookie = currentDomain
    /\ CookieExtractor.isThirdParty cookie = false.
Proof.
  intros cookieString currentDomain cookie H.
  destruct (parseCookieString_fields _ _ _ H)
    as (name & value & -> & H1 & H2 & H3 & H4 & H5 & H6 & H7).
  simpl. repeat split; assumption.
Qed.

Lemma parseCookieString_cookies_witness :
  CookieExtractor.name
    (CookieExtractor.documentCookie "token" "YWJj" "example.com") <> ""
  /\ has_char "="
       (CookieExtractor.value
          (CookieExtractor.documentCookie "token" "YWJj" "example.com"))
     = false.
Proof.
  destruct (parseCookieString_cookies
              "theme=dark; token = YWJj== ;flag" "example.com"
              (CookieExtractor.documentCookie "token" "YWJj" "example.com"))
    as (H1 & _ & _ & _ & _ & _ & H7 & _).
  - simpl. right. left. reflexivity.
  - split; assumption.
Defined.

Lemma document_cookies_not_counted (currentDomain : string)
    (cookies : list CookieExtractor.Cookie) :
  (forall cookie, In cookie cookies ->
     exists name value,
       cookie = CookieExtractor.documentCookie name value currentDomain) ->
  filter (CookieExtractor.countsAsThirdParty currentDomain) cookies = [].
Proof.
  induction cookies as [| c rest IH]; intro H; simpl; [reflexivity |].
  destruct (H c (or_introl eq_refl)) as (name & value & ->).
  unfold CookieExtractor.countsAsThirdParty at 1. simpl.
  rewrite includes_self. simpl. apply IH.
  intros cookie Hin. apply H. right. exact Hin.
Qed.

(** X16. The cookie extractor counts every cookie it read, those of
    [document.cookie] and those of the Chrome API one after the other, so
    a cookie seen both ways is counted twice; its third-party count is the
    number of API cookies whose domain does not contain the page's host
    name, whatever [document.cookie] holds. *)
Theorem extractCookieData_counts :
  forall (formatExpiration : option Z -> string)
         (currentDomain documentCookieString : string)
         (apiCookies : list CookieExtractor.ChromeCookie),
    let cookieData :=
      CookieParser.extractCookieData formatExpiration currentDomain
        documentCookieString apiCookies in
    CookieExtractor.cookieCount cookieData
    = Z.of_nat (List.length
                  (CookieParser.parseCookieString documentCookieString
                     currentDomain))
      + Z.of_nat (List.length apiCookies)
    /\ CookieExtractor.thirdPartyCookies cookieData
       = Z.of_nat (List.length
                     (filter (fun cookie =>
                                negb (includes (CookieExtractor.c_domain cookie)
                                        currentDomain))
                             apiCookies))
    /\ 0 <= CookieExtractor.thirdPartyCookies cookieData
         <= Z.of_nat (List.length apiCookies).
Proof.
  intros formatExpiration currentDomain documentCookieString apiCookies.
  unfold CookieParser.extractCookieData, CookieExtractor.extractCookieData.
  cbn [CookieExtractor.cookieCount CookieExtractor.thirdPartyCookies].
  assert (E : filter (CookieExtractor.countsAsThirdParty currentDomain)
                (CookieParser.parseCookieString documentCookieString
                   currentDomain
                 ++ map (CookieExtractor.chromeCookie currentDomain) apiCookies)
              = map (CookieExtractor.chromeCookie currentDomain)
                  (filter (fun cookie =>
                             negb (includes (CookieExtractor.c_domain cookie)
                                     currentDomain))
                          apiCookies)).
  { rewrite filter_app, document_cookies_not_counted.
    - simpl. induction apiCookies as [| c rest IH]; simpl; [reflexivity |].
      unfold CookieExtractor.countsAsThirdParty at 1. simpl.
      rewrite orb_diag.
      destruct (negb (includes (CookieExtractor.c_domain c) currentDomain));
        simpl; rewrite IH; reflexivity.
    - intros cookie H.
      destruct (parseCookieString_fields _ _ _ H) as (name & value & -> & _).
      exists name, value. reflexivity. }
  rewrite E. rewrite length_app, !length_map. split; [lia |].
  split; [reflexivity |].
  pose proof (filter_length_le
                (fun cookie =>
                   negb (includes (CookieExtractor.c_domain cookie)
                           currentDomain)) apiCookies).
  lia.
Qed.

(** * Properties: the cookie data of the content script *)

Lemma distinct_from_In (x : string) (seen items : list string) :
  In x (distinct_from seen items) -> In x items /\ ~ In x seen.
Proof.
  revert seen. induction items as [| y items IH]; intros seen H; simpl in H.
  - destruct H.
  - destruct (existsb (String.eqb y) seen) eqn:E.
    + destruct (IH _ H) as (H1 & H2). split; [right; exact H1 | exact H2].
    + destruct H as [<- | H].
      * split; [left; reflexivity |].
        intro K. apply seen_In in K. congruence.
      * destruct (IH _ H) as (H1 & H2). split; [right; exact H1 |].
        intro K. apply H2. right. exact K.
Qed.

Lemma distinct_from_NoDup (seen items : list string) :
  NoDup (distinct_from seen items).
Proof.
  revert seen. induction items as [| y items IH]; intro seen; simpl.
  - constructor.
  - destruct (existsb (String.eqb y) seen); [apply IH |].
    constructor; [| apply IH].
    intro K. apply distinct_from_In in K. destruct K as (_ & K).
    apply K. left. reflexivity.
Qed.

Lemma distinct_from_length (seen items : list string) :
  (List.length (distinct_from seen items) <= List.length items)%nat.
Proof.
  revert seen. induction items as [| y items IH]; intro seen; simpl; [lia |].
  destruct (existsb (String.eqb y) seen); simpl.
  - specialize (IH seen). lia.
  - specialize (IH (y :: seen)). lia.
Qed.

(** X17. In the cookie data of the content script the third-party count
    never exceeds the cookie count and no third-party domain is listed
    twice.  When the Chrome API answers, there are no more domains than
    third-party cookies and none of them contains, or is contained in, the
    page's host name.  When it fails, the counts come from
    [document.cookie] alone and the domains are among three fixed
    names. *)
Theorem content_cookie_data_invariants :
  forall (currentDomain documentCookieString : string)
         (getAll : Result (list CookieExtractor.ChromeCookie)),
    let cookieData :=
      ContentCookies.extractCookieData currentDomain documentCookieString
        getAll in
    0 <= ContentCookies.thirdPartyCookies cookieData
      <= ContentCookies.cookieCount cookieData
    /\ NoDup (ContentCookies.thirdPartyDomains cookieData)
    /\ match getAll with
       | Ok allCookies =>
           ContentCookies.cookieCount cookieData
           = Z.of_nat (List.length allCookies)
           /\ Z.of_nat (List.length
                          (ContentCookies.thirdPartyDomains cookieData))
              <= ContentCookies.thirdPartyCookies cookieData
           /\ (forall domain,
                 In domain (ContentCookies.thirdPartyDomains cookieData) ->
                 ~ occurs_in domain currentDomain
                 /\ ~ occurs_in currentDomain domain)
       | Throw _ =>
           ContentCookies.cookieCount cookieData
           = Z.of_nat (List.length
                         (CookieParser.parseCookieString documentCookieString
                            currentDomain))
           /\ (forall domain,
                 In domain (ContentCookies.thirdPartyDomains cookieData) ->
                 In domain ["google-analytics.com"; "facebook.com";
                            "doubleclick.net"])
       end.
Proof.
  intros currentDomain documentCookieString getAll.
  unfold ContentCookies.extractCookieData.
  destruct getAll as [allCookies | message];
    cbn [ContentCookies.thirdPartyCookies ContentCookies.cookieCount
         ContentCookies.thirdPartyDomains].
  - split.
    + pose proof (filter_length_le
                    (fun cookie =>
                       ContentScript.isThirdParty currentDomain
                         (CookieExtractor.c_domain cookie)) allCookies).
      lia.
    + split; [apply distinct_from_NoDup |].
      split; [reflexivity |]. split.
      * pose proof (distinct_from_length []
                      (map (fun cookie =>
                              strip_leading_dot (CookieExtractor.c_domain cookie))
                           (filter (fun cookie =>
                                      ContentScript.isThirdParty currentDomain
                                        (CookieExtractor.c_domain cookie))
                                   allCookies))) as K.
        rewrite length_map in K. unfold distinct. lia.
      * intros domain H. apply distinct_from_In in H. destruct H as (H & _).
        apply in_map_iff in H. destruct H as (cookie & <- & H).
        apply filter_In in H. destruct H as (_ & H).
        unfold ContentScript.isThirdParty in H.
        apply andb_prop in H. destruct H as (H1 & H2).
        apply negb_true_iff in H1. apply negb_true_iff in H2.
        split; apply includes_false; assumption.
  - split.
    + pose proof (filter_length_le ContentCookies.heuristic
                    (CookieParser.parseCookieString documentCookieString
                       currentDomain)).
      lia.
    + split; [apply distinct_from_NoDup |].
      split; [reflexivity |].
      intros domain H. apply distinct_from_In in H. destruct H as (H & _).
      apply in_flat_map in H. destruct H as (cookie & _ & H).
      unfold ContentCookies.estimated in H.
      destruct (prefix "_ga" _); destruct (prefix "_fb" _);
        destruct (includes _ "doubleclick"); simpl in H; simpl; tauto.
Qed.

(** * Properties: the mock assistant *)




(** X19. The summarizer call never consults the mock assistant: where
    [chrome.ai] offers neither the summarizer nor the language model the
    call throws, so the summarizer step returns its fallback for every
    policy text, whether or not a mock is installed. *)
Theorem summarizer_step_ignores_mock :
  forall (JSON_parse : string -> option JsValue)
         (TEMPLATE_TEXT : string -> string)
         (substitute : string -> list (string * JsValue) -> string)
         (env : AIRuntime.Environment) (policyText : option string),
    AIRuntime.summarizer env = None ->
    AIRuntime.languageModel env = None ->
    (forall text type format length,
       AIRuntime.callAISummarizer env text type format length
       = Throw "Chrome AI APIs not available")
    /\ AIClient.runSummarizer JSON_parse TEMPLATE_TEXT substitute
         (AIRuntime.summarizerCall env) policyText
       = Ok (fallback_of "SUMMARIZER" no_input).
Proof.
  intros JSON_parse TEMPLATE_TEXT substitute env policyText Hs Hl.
  assert (H : forall text type format length,
            AIRuntime.callAISummarizer env text type format length
            = Throw "Chrome AI APIs not available").
  { intros. unfold AIRuntime.callAISummarizer. rewrite Hs, Hl. reflexivity. }
  split; [exact H |].
  unfold AIClient.runSummarizer, AIRuntime.summarizerCall. rewrite H.
  destruct (text_short policyText); reflexivity.
Qed.

Lemma summarizer_step_ignores_mock_witness :
  AIClient.runSummarizer parse_cookie_answer first_lines no_substitution
    (AIRuntime.summarizerCall (MockAI.environment print_cookie_answer))
    (Some "We collect your email address and share it with our partners for advertising purposes, and keep it for two years.")
  = Ok (fallback_of "SUMMARIZER" no_input).
Proof.
  apply (summarizer_step_ignores_mock parse_cookie_answer first_lines
           no_substitution (MockAI.environment print_cookie_answer));
    reflexivity.
Defined.

(** * Properties: the links the scraper returns *)

Lemma compare_flip (a b : ScraperLinks.Link) :
  0 < ScraperLinks.compare a b -> ScraperLinks.compare b a <= 0.
Proof.
  unfold ScraperLinks.compare.
  destruct (ScraperLinks.isSameDomain a); destruct (ScraperLinks.isSameDomain b);
    simpl; lia.
Qed.

Lemma compare_chain (a b c : ScraperLinks.Link) :
  ScraperLinks.compare a b <= 0 -> ScraperLinks.compare b c <= 0 ->
  ScraperLinks.compare a c <= 0.
Proof.
  unfold ScraperLinks.compare.
  destruct (ScraperLinks.isSameDomain a); destruct (ScraperLinks.isSameDomain b);
    destruct (ScraperLinks.isSameDomain c); simpl; lia.
Qed.

Lemma compare_self (a : ScraperLinks.Link) : ScraperLinks.compare a a <= 0.
Proof.
  unfold ScraperLinks.compare.
  destruct (ScraperLinks.isSameDomain a); simpl; lia.
Qed.

Lemma scraper_insert_head (x : ScraperLinks.Link) (l : list ScraperLinks.Link) :
  hd_error (ScraperLinks.insert x l)
  = match hd_error l with
    | Some y => if 0 <? ScraperLinks.compare x y then Some y else Some x
    | None => Some x
    end.
Proof.
  destruct l as [| y l]; simpl; [reflexivity |].
  destruct (0 <? ScraperLinks.compare x y); reflexivity.
Qed.

(** The head of the sorted list is a link that the comparator puts after
    no other. *)
Lemma scraper_sort_head (l : list ScraperLinks.Link) (b : ScraperLinks.Link) :
  hd_error (ScraperLinks.sort l) = Some b ->
  In b l /\ forall x, In x l -> ScraperLinks.compare b x <= 0.
Proof.
  revert b. induction l as [| x l IH]; intros b H; simpl in H.
  - discriminate H.
  - rewrite scraper_insert_head in H.
    destruct (hd_error (ScraperLinks.sort l)) as [y |] eqn:E.
    + destruct (IH y eq_refl) as (Hy & Hall).
      destruct (Z.ltb_spec 0 (ScraperLinks.compare x y)); inversion H; subst b.
      * split; [right; exact Hy |].
        intros z [<- | Hz]; [apply compare_flip; assumption | apply Hall, Hz].
      * split; [left; reflexivity |].
        intros z [<- | Hz]; [apply compare_self |].
        apply (compare_chain _ y); [assumption | apply Hall, Hz].
    + inversion H; subst b.
      assert (El : l = []).
      { destruct l as [| z l]; [reflexivity |]. simpl in E.
        rewrite scraper_insert_head in E.
        destruct (hd_error (ScraperLinks.sort l)) as [w |];
          [destruct (0 <? ScraperLinks.compare z w) |]; discriminate E. }
      subst l. split; [left; reflexivity |].
      intros z [<- | []]. apply compare_self.
Qed.

Lemma scraper_unique_In (x : ScraperLinks.Link) (seen : list string)
    (l : list ScraperLinks.Link) :
  In x (ScraperLinks.unique seen l) ->
  In x l /\ ~ In (ScraperLinks.url x) seen.
Proof.
  revert seen. induction l as [| y l IH]; intros seen H; simpl in H.
  - destruct H.
  - destruct (existsb (String.eqb (ScraperLinks.url y)) seen) eqn:E.
    + destruct (IH _ H) as (H1 & H2). split; [right; exact H1 | exact H2].
    + destruct H as [<- | H].
      * split; [left; reflexivity |].
        intro K. apply seen_In in K. congruence.
      * destruct (IH _ H) as (H1 & H2). split; [right; exact H1 |].
        intro K. apply H2. right. exact K.
Qed.

Lemma scraper_unique_NoDup (seen : list string) (l : list ScraperLinks.Link) :
  NoDup (map ScraperLinks.url (ScraperLinks.unique seen l)).
Proof.
  revert seen. induction l as [| y l IH]; intro seen; simpl.
  - constructor.
  - destruct (existsb (String.eqb (ScraperLinks.url y)) seen); [apply IH |].
    simpl. constructor; [| apply IH].
    intro K. apply in_map_iff in K. destruct K as (x & E & K).
    apply scraper_unique_In in K. destruct K as (_ & K). apply K.
    left. symmetry. exact E.
Qed.

(** X20. The scraper returns no address twice, and the link it returns
    first is a link of the page's own host whenever any collected link
    is; among the collected links of its kind (same host or not) none has
    a higher relevance score. *)
Theorem scraper_links_same_host_first :
  forall (currentDomain : string)
         (resolveURL : string -> option (string * string))
         (allLinks : list ScraperLinks.Anchor)
         (first : ScraperLinks.Link) (others : list ScraperLinks.Link),
    ScraperLinks.findPrivacyPolicyLinks currentDomain resolveURL allLinks
    = first :: others ->
    In first (ScraperLinks.collect currentDomain resolveURL allLinks)
    /\ NoDup (map ScraperLinks.url (first :: others))
    /\ (forall link,
          In link (ScraperLinks.collect currentDomain resolveURL allLinks) ->
          ScraperLinks.isSameDomain link = true ->
          ScraperLinks.isSameDomain first = true)
    /\ (forall link,
          In link (ScraperLinks.collect currentDomain resolveURL allLinks) ->
          ScraperLinks.isSameDomain link = ScraperLinks.isSameDomain first ->
          relevance link <= relevance first).
Proof.
  intros currentDomain resolveURL allLinks first others H.
  unfold ScraperLinks.findPrivacyPolicyLinks in H.
  assert (Hnd : NoDup (map ScraperLinks.url (first :: others)))
    by (rewrite <- H; apply scraper_unique_NoDup).
  assert (K : hd_error (ScraperLinks.sort
                (ScraperLinks.collect currentDomain resolveURL allLinks))
              = Some first).
  { destruct (ScraperLinks.sort _) as [| y l]; [discriminate H |].
    simpl in H. inversion H. reflexivity. }
  destruct (scraper_sort_head _ _ K) as (Hin & Hall).
  split; [exact Hin |]. split; [exact Hnd |]. split.
  - intros link Hl Hs. specialize (Hall link Hl).
    unfold ScraperLinks.compare in Hall. rewrite Hs in Hall.
    destruct (ScraperLinks.isSameDomain first); [reflexivity |].
    simpl in Hall. lia.
  - intros link Hl Hs. specialize (Hall link Hl).
    unfold ScraperLinks.compare in Hall. rewrite Hs in Hall.
    unfold relevance.
    destruct (ScraperLinks.isSameDomain first); simpl in Hall; lia.
Qed.

Lemma scraper_links_same_host_first_witness :
  In scraper_first
     (ScraperLinks.collect "example.com" two_hosts scraper_anchors)
  /\ NoDup (map ScraperLinks.url (scraper_first :: scraper_others))
  /\ (forall link,
        In link (ScraperLinks.collect "example.com" two_hosts scraper_anchors) ->
        ScraperLinks.isSameDomain link = true ->
        ScraperLinks.isSameDomain scraper_first = true)
  /\ (forall link,
        In link (ScraperLinks.collect "example.com" two_hosts scraper_anchors) ->
        ScraperLinks.isSameDomain link = ScraperLinks.isSameDomain scraper_first ->
        relevance link <= relevance scraper_first).
Proof.
  apply (scraper_links_same_host_first "example.com" two_hosts scraper_anchors
           scraper_first scraper_others).
  reflexivity.
Defined.

(** * Properties: the cleaned policy text *)

Lemma plain_spaces_app (a b : string) :
  plain_spaces (a ++ b) = plain_spaces a && plain_spaces b.
Proof.
  induction a as [| c a IH]; simpl; [reflexivity |].
  rewrite IH. apply andb_assoc.
Qed.

Lemma collapse_spaces_plain (in_run : bool) (s : string) :
  plain_spaces (collapse_spaces in_run s) = true.
Proof.
  revert in_run. induction s as [| c s IH]; intro in_run; simpl;
    [reflexivity |].
  destruct (is_space c) eqn:Hc.
  - destruct in_run; [apply IH |]. simpl. apply IH.
  - simpl. rewrite Hc. simpl. apply IH.
Qed.

Lemma plain_spaces_no_newline (s : string) :
  plain_spaces s = true -> has_char newline s = false.
Proof.
  induction s as [| c s IH]; simpl; intro H; [reflexivity |].
  apply andb_prop in H. destruct H as (H1 & H2). rewrite (IH H2).
  destruct (Ascii.eqb_spec c newline) as [-> | _]; [discriminate H1 |].
  reflexivity.
Qed.

Lemma blank_lines_without_newline (run : string) :
  has_char newline run = false -> blank_lines run = run.
Proof.
  induction run as [| c run IH]; simpl; intro H; [reflexivity |].
  apply orb_false_iff in H. destruct H as (H1 & H2).
  rewrite H1, (IH H2). reflexivity.
Qed.

Lemma collapse_blank_lines_from_without_newline (run s : string) :
  has_char newline run = false -> has_char newline s = false ->
  collapse_blank_lines_from run s = run ++ s.
Proof.
  revert run. induction s as [| c s IH]; intros run Hr Hs; simpl.
  - rewrite append_empty_r. apply blank_lines_without_newline, Hr.
  - simpl in Hs. apply orb_false_iff in Hs. destruct Hs as (Hc & Hs).
    destruct (is_space c).
    + rewrite IH; [rewrite append_assoc3; reflexivity | | exact Hs].
      rewrite has_char_app, Hr. simpl. rewrite Hc. reflexivity.
    + rewrite (blank_lines_without_newline run Hr), (IH "" eq_refl Hs).
      reflexivity.
Qed.

Lemma plain_spaces_cons (c : ascii) (s : string) :
  plain_spaces (String c s) = plain_spaces (String c "") && plain_spaces s.
Proof. simpl. rewrite andb_true_r. reflexivity. Qed.

Lemma close_up_marks_plain (run s : string) :
  plain_spaces run = true -> plain_spaces s = true ->
  plain_spaces (close_up_marks_from run s) = true.
Proof.
  revert run. induction s as [| c s IH]; intros run Hr Hs; simpl;
    [exact Hr |].
  rewrite plain_spaces_cons in Hs. apply andb_prop in Hs.
  destruct Hs as (Hc & Hs).
  destruct (is_space c).
  - apply IH; [| exact Hs]. rewrite plain_spaces_app, Hr, Hc. reflexivity.
  - destruct (is_mark c).
    + rewrite plain_spaces_cons, Hc. apply IH; [reflexivity | exact Hs].
    + rewrite plain_spaces_app, Hr, plain_spaces_cons, Hc.
      apply IH; [reflexivity | exact Hs].
Qed.

Lemma replace_each_same (c : ascii) (s : string) :
  replace_each [c] c s = s.
Proof.
  induction s as [| d s IH]; simpl; [reflexivity |].
  rewrite IH. destruct (Ascii.eqb_spec d c) as [-> | _]; reflexivity.
Qed.

Lemma trimStart_plain (s : string) :
  plain_spaces s = true -> plain_spaces (trimStart s) = true.
Proof.
  induction s as [| c s IH]; intro H; [reflexivity |].
  simpl trimStart. destruct (is_space c); [| exact H].
  rewrite plain_spaces_cons in H. apply andb_prop in H. apply IH, H.
Qed.

Lemma trimEnd_plain (s : string) :
  plain_spaces s = true -> plain_spaces (trimEnd s) = true.
Proof.
  induction s as [| c s IH]; intro H; [reflexivity |].
  rewrite plain_spaces_cons in H. apply andb_prop in H.
  destruct H as (H1 & H2). specialize (IH H2).
  simpl trimEnd. destruct (trimEnd s) as [| d u].
  - destruct (is_space c); [reflexivity | exact H1].
  - rewrite plain_spaces_cons, H1, IH. reflexivity.
Qed.

Lemma substring_plain (n : nat) (s : string) :
  plain_spaces s = true -> plain_spaces (substring 0 n s) = true.
Proof.
  revert s. induction n as [| n IH]; intros s H.
  - destruct s; reflexivity.
  - destruct s as [| c s]; [reflexivity |].
    rewrite plain_spaces_cons in H. apply andb_prop in H.
    destruct H as (H1 & H2).
    change (substring 0 (S n) (String c s)) with (String c (substring 0 n s)).
    rewrite plain_spaces_cons, H1. apply IH, H2.
Qed.

Lemma substring_first (n : nat) (c : ascii) (s : string) :
  n <> 0%nat -> exists r, substring 0 n (String c s) = String c r.
Proof.
  intro H. destruct n as [| n]; [contradiction |].
  exists (substring 0 n s). reflexivity.
Qed.

(** X21. The cleaned policy text has at most 50000 characters, its only
    white space is the space character (no tab, no line break), and it
    does not begin with white space.  Because the first replacement has
    already turned every run of white space into one space, the second,
    which looks for blank lines, never changes the text. *)
Theorem cleanPolicyText_shape :
  forall text : string,
    Z.of_nat (String.length (PolicyText.cleanPolicyText text)) <= 50000
    /\ plain_spaces (PolicyText.cleanPolicyText text) = true
    /\ (PolicyText.cleanPolicyText text = ""
        \/ exists c rest,
             PolicyText.cleanPolicyText text = String c rest
             /\ is_space c = false)
    /\ collapse_blank_lines (collapse_spaces false text)
       = collapse_spaces false text.
Proof.
  intro text. unfold PolicyText.cleanPolicyText.
  assert (Hplain : plain_spaces (collapse_spaces false text) = true)
    by apply collapse_spaces_plain.
  assert (Hdead : collapse_blank_lines (collapse_spaces false text)
                  = collapse_spaces false text).
  { unfold collapse_blank_lines.
    rewrite collapse_blank_lines_from_without_newline;
      [reflexivity | reflexivity |].
    apply plain_spaces_no_newline, Hplain. }
  rewrite Hdead, !replace_each_same.
  split.
  { pose proof (length_substring_le (Z.to_nat 50000)
                  (trim (close_up_marks (collapse_spaces false text)))).
    lia. }
  split; [| split; [| reflexivity]].
  - apply substring_plain. unfold trim.
    apply trimEnd_plain, trimStart_plain.
    unfold close_up_marks. apply close_up_marks_plain; [reflexivity | exact Hplain].
  - destruct (trim_shape (close_up_marks (collapse_spaces false text)))
      as [-> | (c & rest & -> & Hc)].
    + left. reflexivity.
    + right. destruct (substring_first (Z.to_nat 50000) c rest) as (r & E);
        [lia |].
      exists c, r. split; [exact E | exact Hc].
Qed.

(** * Properties: the fetched policy text *)

Lemma replace_tags_keeps_absent (c : ascii) (inside : bool) (s : string) :
  (" " =? c)%char = false ->
  has_char c s = false -> has_char c (replace_tags_from inside s) = false.
Proof.
  intro Hc. revert inside. induction s as [| d s IH]; intros inside H;
    [reflexivity |].
  cbn [has_char] in H. apply orb_false_iff in H. destruct H as (H1 & H2).
  cbn [replace_tags_from]. destruct inside.
  - destruct (d =? ">")%char; [| apply IH, H2].
    cbn [has_char]. rewrite Hc. apply IH, H2.
  - destruct ((d =? "<")%char && has_char ">" s); [apply IH, H2 |].
    cbn [has_char]. rewrite H1. apply IH, H2.
Qed.

Lemma replace_tags_no_tag (inside : bool) (s : string) :
  has_tag (replace_tags_from inside s) = false.
Proof.
  revert inside. induction s as [| d s IH]; intro inside; [reflexivity |].
  simpl. destruct inside.
  - destruct (d =? ">")%char; [| apply IH]. simpl. apply IH.
  - destruct ((d =? "<")%char && has_char ">" s) eqn:E; [apply IH |].
    simpl. rewrite IH, orb_false_r.
    apply andb_false_iff in E. destruct E as [E | E].
    + rewrite E. reflexivity.
    + rewrite (replace_tags_keeps_absent ">" false s eq_refl E).
      apply andb_false_r.
Qed.

Lemma space_is_no_bracket (c : ascii) :
  is_space c = true -> (c =? "<")%char = false /\ (c =? ">")%char = false.
Proof.
  intro H. split.
  - destruct (Ascii.eqb_spec c "<") as [-> | _]; [discriminate H | reflexivity].
  - destruct (Ascii.eqb_spec c ">") as [-> | _]; [discriminate H | reflexivity].
Qed.

Lemma collapse_spaces_closing (in_run : bool) (s : string) :
  has_char ">" (collapse_spaces in_run s) = has_char ">" s.
Proof.
  revert in_run. induction s as [| c s IH]; intro in_run; [reflexivity |].
  simpl. destruct (is_space c) eqn:Hc.
  - destruct (space_is_no_bracket c Hc) as (_ & ->).
    destruct in_run; simpl; apply IH.
  - simpl. rewrite IH. reflexivity.
Qed.

Lemma collapse_spaces_tag (in_run : bool) (s : string) :
  has_tag (collapse_spaces in_run s) = has_tag s.
Proof.
  revert in_run. induction s as [| c s IH]; intro in_run; [reflexivity |].
  simpl. destruct (is_space c) eqn:Hc.
  - destruct (space_is_no_bracket c Hc) as (-> & _).
    destruct in_run; simpl; apply IH.
  - simpl. rewrite IH, collapse_spaces_closing. reflexivity.
Qed.

Lemma trimStart_tag (s : string) : has_tag (trimStart s) = has_tag s.
Proof.
  induction s as [| c s IH]; [reflexivity |].
  simpl. destruct (is_space c) eqn:Hc; [| reflexivity].
  destruct (space_is_no_bracket c Hc) as (-> & _). exact IH.
Qed.

Lemma trimEnd_closing (s : string) :
  has_char ">" (trimEnd s) = has_char ">" s.
Proof.
  induction s as [| c s IH]; [reflexivity |].
  simpl trimEnd. destruct (trimEnd s) as [| d u].
  - simpl in IH. simpl. rewrite <- IH.
    destruct (is_space c) eqn:Hc.
    + destruct (space_is_no_bracket c Hc) as (_ & ->). reflexivity.
    + simpl. reflexivity.
  - change (has_char ">" (String c (String d u)))
      with ((c =? ">")%char || has_char ">" (String d u)).
    rewrite IH. reflexivity.
Qed.

Lemma trimEnd_tag (s : string) : has_tag (trimEnd s) = has_tag s.
Proof.
  induction s as [| c s IH]; [reflexivity |].
  pose proof (trimEnd_closing s) as Hcl.
  simpl trimEnd. destruct (trimEnd s) as [| d u].
  - simpl in IH, Hcl. simpl. rewrite <- IH, <- Hcl.
    destruct (is_space c) eqn:Hc.
    + destruct (space_is_no_bracket c Hc) as (-> & _). reflexivity.
    + simpl. reflexivity.
  - change (has_tag (String c (String d u)))
      with (((c =? "<")%char && has_char ">" (String d u))
            || has_tag (String d u)).
    rewrite IH, Hcl. reflexivity.
Qed.

(** X22. Whatever page the server sends, the policy text the service
    worker makes of it holds no markup tag (no [<] with a [>] anywhere
    after it), no white space other than the space character, and none at
    either end; a failed fetch and an answer that is not OK yield no text
    but an error. *)
Theorem fetched_policy_text_is_plain :
  forall (fetch : string -> Result PolicyFetch.Response) (url : string),
    match PolicyFetch.fetchPrivacyPolicyContent fetch url with
    | Ok text =>
        has_tag text = false /\ plain_spaces text = true /\ trim text = text
        /\ exists response, fetch url = Ok response
                            /\ PolicyFetch.ok response = true
    | Throw _ =>
        forall response, fetch url = Ok response ->
          PolicyFetch.ok response = false
          \/ exists e, PolicyFetch.text response = Throw e
    end.
Proof.
  intros fetch url. unfold PolicyFetch.fetchPrivacyPolicyContent.
  destruct (fetch url) as [response | e]; cbn [bind];
    [| intros response H; discriminate H].
  destruct (PolicyFetch.ok response) eqn:Hok; cbn [negb].
  - destruct (PolicyFetch.text response) as [html | e] eqn:Ht; cbn [bind].
    + split; [| split; [| split]].
      * unfold trim. rewrite trimEnd_tag, trimStart_tag, collapse_spaces_tag.
        apply replace_tags_no_tag.
      * unfold trim. apply trimEnd_plain, trimStart_plain, collapse_spaces_plain.
      * apply trim_idempotent.
      * exists response. split; [reflexivity | exact Hok].
    + intros r H. inversion H; subst r. right. exists e. exact Ht.
  - intros r H. inversion H; subst r. left. exact Hok.
Qed.

(** The text made of a small page: the style and script blocks and the
    tags are gone, the white space is collapsed. *)
Example fetched_sample_page :
  PolicyFetch.fetchPrivacyPolicyContent one_page "https://example.com/privacy"
  = Ok "We use cookies.".
Proof. reflexivity. Qed.

(** * Properties: the expiry of a cookie *)

Lemma ceil_div_spec (x y : Z) :
  0 < y -> (ceil_div x y - 1) * y < x <= ceil_div x y * y.
Proof.
  intro Hy. unfold ceil_div.
  pose proof (Z.div_mod (- x) y ltac:(lia)) as E.
  pose proof (Z.mod_pos_bound (- x) y Hy) as B.
  nia.
Qed.

(** X23. For a cookie that expires at a valid date, [formatExpiration]
    answers by the time left, counted in days begun: Expired when nothing
    is left, 1 day up to 24 hours, n days for n from 2 to 29, n months
    for 30 to 364 days with n from 1 to 13 (30 days read 1 months), and n
    years from 365 days on, n being at least 1. *)
Theorem formatExpiration_by_time_left :
  forall (now seconds : Z),
    0 <= now ->
    seconds <> 0 ->
    Z.abs (seconds * 1000) <= Expiry.MAX_TIME ->
    let left := seconds * 1000 - now in
    let expires := Expiry.formatExpiration now (Some seconds) in
    (left <= 0 -> expires = "Expired")
    /\ (0 < left <= Expiry.DAY -> expires = "1 day")
    /\ (Expiry.DAY < left <= 29 * Expiry.DAY ->
        exists n, expires = string_of_Z n ++ " days" /\ 2 <= n <= 29
                  /\ (n - 1) * Expiry.DAY < left <= n * Expiry.DAY)
    /\ (29 * Expiry.DAY < left <= 364 * Expiry.DAY ->
        exists n, expires = string_of_Z n ++ " months" /\ 1 <= n <= 13)
    /\ (364 * Expiry.DAY < left ->
        exists n, expires = string_of_Z n ++ " years" /\ 1 <= n).
Proof.
  intros now seconds Hnow Hs Hmax left expires.
  unfold expires, Expiry.formatExpiration.
  destruct (Z.eqb_spec seconds 0) as [| _]; [contradiction |].
  destruct (Z.ltb_spec Expiry.MAX_TIME (Z.abs (seconds * 1000))) as [| _];
    [lia |].
  fold left.
  pose proof (ceil_div_spec left Expiry.DAY ltac:(unfold Expiry.DAY; lia)) as D.
  pose proof (ceil_div_spec (ceil_div left Expiry.DAY) 30 ltac:(lia)) as M.
  pose proof (ceil_div_spec (ceil_div left Expiry.DAY) 365 ltac:(lia)) as Y.
  unfold Expiry.DAY in *.
  destruct (Z.leb_spec left 0) as [H0 | H0].
  { repeat split; try (intro; exfalso; lia). }
  destruct (Z.eqb_spec (ceil_div left (1000 * 60 * 60 * 24)) 1) as [H1 | H1].
  { split; [intro; lia |]. split; [reflexivity |].
    repeat split; intro; exfalso; lia. }
  destruct (Z.ltb_spec (ceil_div left (1000 * 60 * 60 * 24)) 30) as [H2 | H2].
  { split; [intro; lia |]. split; [intro; exfalso; lia |].
    split; [| split; intro; exfalso; lia].
    intros _. exists (ceil_div left (1000 * 60 * 60 * 24)).
    split; [reflexivity |]. lia. }
  destruct (Z.ltb_spec (ceil_div left (1000 * 60 * 60 * 24)) 365) as [H3 | H3].
  { split; [intro; lia |]. split; [intro; exfalso; lia |].
    split; [intro; exfalso; lia |]. split; [| intro; exfalso; lia].
    intros _. exists (ceil_div (ceil_div left (1000 * 60 * 60 * 24)) 30).
    split; [reflexivity |]. lia. }
  split; [intro; lia |]. split; [intro; exfalso; lia |].
  split; [intro; exfalso; lia |]. split; [intro; exfalso; lia |].
  intros _. exists (ceil_div (ceil_div left (1000 * 60 * 60 * 24)) 365).
  split; [reflexivity |]. lia.
Qed.

Lemma formatExpiration_by_time_left_witness :
  exists n,
    Expiry.formatExpiration 1700000000000 (Some 1702592000)
    = string_of_Z n ++ " months" /\ 1 <= n <= 13.
Proof.
  destruct (formatExpiration_by_time_left 1700000000000 1702592000)
    as (_ & _ & _ & H & _).
  - lia.
  - lia.
  - unfold Expiry.MAX_TIME. simpl. lia.
  - apply H. unfold Expiry.DAY. simpl. lia.
Defined.
